(** * Saltcheck: validation, execution and loading of state tests

    A shallow embedding of [salt/modules/saltcheck.py]: the test validator
    ([SaltCheck.__is_valid_test]), the test runner ([SaltCheck.run_test]) with
    its twelve assertions and the cast of the expected value, and the loader
    of test files ([StateTestLoader]).

    Python values are modelled by [PyVal] (Python 3 semantics; floats, tuples,
    sets and user classes are outside the model, text is ASCII), exceptions by
    the [result] type, and the Salt collaborators ([__salt__], [__opts__], the
    local caller, the clock) by the fields of an environment record. *)

From stdpp Require Import base gmap strings list pretty.
From Stdlib Require Import ZArith String Ascii Lia.
From Stdlib Require SpecFloat.

Open Scope Z_scope.

Set Warnings "-register-all".

(** ** Exceptions *)

Inductive exn : Type :=
  | ValueError
  | TypeError
  | AttributeError
  | KeyError
  | UnboundLocalError
  | IOError
  | OverflowError
  | SaltError (msg : string).

Inductive result (A : Type) : Type :=
  | Ok (a : A)
  | Raise (e : exn).

Arguments Ok {A} a.
Arguments Raise {A} e.

#[global] Instance result_ret : MRet result := fun A a => Ok a.

#[global] Instance result_bind : MBind result := fun A B k m =>
  match m with
  | Ok a => k a
  | Raise e => Raise e
  end.

#[global] Instance result_fmap : FMap result := fun A B f m =>
  match m with
  | Ok a => Ok (f a)
  | Raise e => Raise e
  end.

(** ** Text *)

Module Text.

Definition dquote : ascii := ascii_of_nat 34.
Definition squote : ascii := ascii_of_nat 39.
Definition backslash : ascii := ascii_of_nat 92.

Definition chr (a : ascii) : string := String a EmptyString.

(** [sep.join(parts)] *)
Definition join (sep : string) (parts : list string) : string :=
  String.concat sep parts.

(** [s.split(c)] for a one-character separator: never the empty list. *)
Fixpoint split (c : ascii) (s : string) : list string :=
  match s with
  | EmptyString => [EmptyString]
  | String a rest =>
      if Ascii.eqb a c then EmptyString :: split c rest
      else match split c rest with
           | [] => [chr a]
           | w :: ws => String a w :: ws
           end
  end.

(** [s.replace(c, d)] for one-character [c] and [d] *)
Fixpoint replace (c d : ascii) (s : string) : string :=
  match s with
  | EmptyString => EmptyString
  | String a rest => String (if Ascii.eqb a c then d else a) (replace c d rest)
  end.

(** [s.startswith(p)] *)
Definition startswith (s p : string) : bool := String.prefix p s.

(** [s.endswith(p)] *)
Definition endswith (s p : string) : bool :=
  let n := String.length s in
  let m := String.length p in
  if (m <=? n)%nat then String.eqb (String.substring (n - m) m s) p else false.

(** [p in s] on two strings *)
Fixpoint contains (s p : string) : bool :=
  String.prefix p s ||
  match s with
  | EmptyString => false
  | String _ rest => contains rest p
  end.

Fixpoint has_char (c : ascii) (s : string) : bool :=
  match s with
  | EmptyString => false
  | String a rest => Ascii.eqb a c || has_char c rest
  end.

(** The characters of a string, each as a string: [list(s)]. *)
Fixpoint chars (s : string) : list string :=
  match s with
  | EmptyString => []
  | String a rest => chr a :: chars rest
  end.

Definition hex_digit (n : nat) : ascii :=
  ascii_of_nat (if (n <? 10)%nat then 48 + n else 87 + n)%nat.

(** One character of [repr(s)] inside the quote [q]. *)
Definition escape (q a : ascii) : string :=
  let n := nat_of_ascii a in
  if Ascii.eqb a backslash then String backslash (chr backslash)
  else if Ascii.eqb a q then String backslash (chr q)
  else if (n =? 10)%nat then String backslash "n"
  else if (n =? 13)%nat then String backslash "r"
  else if (n =? 9)%nat then String backslash "t"
  else if (n <? 32)%nat || (n =? 127)%nat then
    String backslash (String "x" (String (hex_digit (n / 16)) (chr (hex_digit (n mod 16)))))
  else chr a.

Fixpoint escape_all (q : ascii) (s : string) : string :=
  match s with
  | EmptyString => EmptyString
  | String a rest => escape q a +:+ escape_all q rest
  end.

(** [repr(s)]: single quotes, unless the text has a single quote and no
    double quote. *)
Definition repr (s : string) : string :=
  let q := if has_char squote s && negb (has_char dquote s) then dquote else squote in
  chr q +:+ escape_all q s +:+ chr q.

(** White space as [int] and [float] strip it from a text of ASCII
    characters: the blank and the characters 9 to 13. *)
Definition is_space (a : ascii) : bool :=
  let n := nat_of_ascii a in
  (n =? 32)%nat || ((9 <=? n)%nat && (n <=? 13)%nat).

Fixpoint lstrip (l : list ascii) : list ascii :=
  match l with
  | a :: rest => if is_space a then lstrip rest else l
  | [] => []
  end.

Definition strip (l : list ascii) : list ascii :=
  rev (lstrip (rev (lstrip l))).

Definition digit_of (a : ascii) : option Z :=
  let n := nat_of_ascii a in
  if (48 <=? n)%nat && (n <=? 57)%nat then Some (Z.of_nat (n - 48)) else None.

(** Decimal digits, single underscores allowed between two digits.
    [prev] says whether the previous character was a digit. *)
Fixpoint digits (prev : bool) (acc : Z) (l : list ascii) : option Z :=
  match l with
  | [] => if prev then Some acc else None
  | a :: rest =>
      match digit_of a with
      | Some d => digits true (10 * acc + d) rest
      | None =>
          if Ascii.eqb a "_" && prev then digits false acc rest else None
      end
  end.

(** [sys.int_max_str_digits], as it is set by default: [int] refuses a text
    with more digits. *)
Definition int_max_str_digits : nat := 4300.

Definition digit_count (l : list ascii) : nat :=
  List.length (List.filter (fun a => match digit_of a with Some _ => true | None => false end) l).

(** The text accepted by [int(s)] in base ten, and its value; a text of
    ASCII characters is read as it stands. *)
Definition parse_int (s : string) : option Z :=
  let l := strip (list_ascii_of_string s) in
  if (int_max_str_digits <? digit_count l)%nat then None
  else
    match l with
    | [] => None
    | a :: rest =>
        if Ascii.eqb a "-" then Z.opp <$> digits false 0 rest
        else if Ascii.eqb a "+" then digits false 0 rest
        else digits false 0 (a :: rest)
    end.

End Text.

(** ** Python values *)

(** Hashable scalars, the keys of a dictionary. *)
Inductive PyKey : Type :=
  | KNone
  | KBool (b : bool)
  | KInt (z : Z)
  | KStr (s : string).

Inductive PyVal : Type :=
  | VNone
  | VBool (b : bool)
  | VInt (z : Z)
  | VStr (s : string)
  | VList (l : list PyVal)
  | VDict (d : list (PyKey * PyVal)).

Inductive PyType : Type := TNone | TBool | TInt | TStr | TList | TDict.

Module Py.

(** [type(v)] *)
Definition type_of (v : PyVal) : PyType :=
  match v with
  | VNone => TNone
  | VBool _ => TBool
  | VInt _ => TInt
  | VStr _ => TStr
  | VList _ => TList
  | VDict _ => TDict
  end.

Definition type_eqb (a b : PyType) : bool :=
  match a, b with
  | TNone, TNone | TBool, TBool | TInt, TInt
  | TStr, TStr | TList, TList | TDict, TDict => true
  | _, _ => false
  end.

(** Truth value: [bool(v)], the test of [if v:]. *)
Definition truthy (v : PyVal) : bool :=
  match v with
  | VNone => false
  | VBool b => b
  | VInt z => negb (z =? 0)
  | VStr s => negb (String.eqb s EmptyString)
  | VList l => match l with [] => false | _ => true end
  | VDict d => match d with [] => false | _ => true end
  end.

Definition key_val (k : PyKey) : PyVal :=
  match k with
  | KNone => VNone
  | KBool b => VBool b
  | KInt z => VInt z
  | KStr s => VStr s
  end.

(** The key a value hashes to; lists and dictionaries are unhashable. *)
Definition val_key (v : PyVal) : option PyKey :=
  match v with
  | VNone => Some KNone
  | VBool b => Some (KBool b)
  | VInt z => Some (KInt z)
  | VStr s => Some (KStr s)
  | VList _ | VDict _ => None
  end.

(** [==] on keys: [True == 1] and [False == 0]. *)
Definition key_eq (a b : PyKey) : bool :=
  match a, b with
  | KNone, KNone => true
  | KBool x, KBool y => Bool.eqb x y
  | KBool x, KInt y | KInt y, KBool x => Z.b2z x =? y
  | KInt x, KInt y => x =? y
  | KStr x, KStr y => String.eqb x y
  | _, _ => false
  end.

(** [d.get(k)] *)
Fixpoint dict_get {A : Type} (k : PyKey) (d : list (PyKey * A)) : option A :=
  match d with
  | [] => None
  | (k', v) :: rest => if key_eq k k' then Some v else dict_get k rest
  end.

(** [d[k] = v]: the old key keeps its place, a new key goes last. *)
Fixpoint dict_set {A : Type} (k : PyKey) (v : A) (d : list (PyKey * A)) : list (PyKey * A) :=
  match d with
  | [] => [(k, v)]
  | (k', v') :: rest =>
      if key_eq k k' then (k', v) :: rest else (k', v') :: dict_set k v rest
  end.

(** [d.pop(k, None)], the popped value dropped *)
Fixpoint dict_del {A : Type} (k : PyKey) (d : list (PyKey * A)) : list (PyKey * A) :=
  match d with
  | [] => []
  | (k', v') :: rest =>
      if key_eq k k' then rest else (k', v') :: dict_del k rest
  end.

(** [==] *)
Fixpoint eq (a b : PyVal) {struct a} : bool :=
  match a, b with
  | VNone, VNone => true
  | VBool x, VBool y => Bool.eqb x y
  | VBool x, VInt y | VInt y, VBool x => Z.b2z x =? y
  | VInt x, VInt y => x =? y
  | VStr x, VStr y => String.eqb x y
  | VList l1, VList l2 =>
      (fix go (l1 l2 : list PyVal) {struct l1} : bool :=
         match l1, l2 with
         | [], [] => true
         | x :: xs, y :: ys => eq x y && go xs ys
         | _, _ => false
         end) l1 l2
  | VDict d1, VDict d2 =>
      (List.length d1 =? List.length d2)%nat &&
      (fix go (d1 : list (PyKey * PyVal)) {struct d1} : bool :=
         match d1 with
         | [] => true
         | (k, v) :: rest =>
             match dict_get k d2 with
             | Some v' => eq v v' && go rest
             | None => false
             end
         end) d1
  | _, _ => false
  end.

Definition key_repr (k : PyKey) : string :=
  match k with
  | KNone => "None"
  | KBool true => "True"
  | KBool false => "False"
  | KInt z => pretty z
  | KStr s => Text.repr s
  end.

(** [repr(v)] *)
Fixpoint repr (v : PyVal) : string :=
  match v with
  | VNone => "None"
  | VBool true => "True"
  | VBool false => "False"
  | VInt z => pretty z
  | VStr s => Text.repr s
  | VList l => "[" +:+ Text.join ", " (map repr l) +:+ "]"
  | VDict d =>
      "{" +:+ Text.join ", " (map (fun kv => key_repr (fst kv) +:+ ": " +:+ repr (snd kv)) d) +:+ "}"
  end.

(** [str(v)], which is also what ['{0}'.format(v)] prints *)
Definition str (v : PyVal) : string :=
  match v with
  | VStr s => s
  | _ => repr v
  end.

Definition has_key {A : Type} (k : PyKey) (d : list (PyKey * A)) : bool :=
  match dict_get k d with
  | Some _ => true
  | None => false
  end.

(** [x in l] on a list: some element equals [x]. *)
Definition mem (x : PyVal) (l : list PyVal) : bool := existsb (eq x) l.

(** [x in c]; a container that is not iterable, an unhashable key and a
    non-text needle in a text raise [TypeError]. *)
Definition contains (x c : PyVal) : result bool :=
  match c with
  | VStr s =>
      match x with
      | VStr p => Ok (Text.contains s p)
      | _ => Raise TypeError
      end
  | VList l => Ok (mem x l)
  | VDict d =>
      match val_key x with
      | Some k => Ok (has_key k d)
      | None => Raise TypeError
      end
  | VNone | VBool _ | VInt _ => Raise TypeError
  end.

Definition num (v : PyVal) : option Z :=
  match v with
  | VBool b => Some (Z.b2z b)
  | VInt z => Some z
  | _ => None
  end.

Fixpoint text_compare (a b : string) : comparison :=
  match a, b with
  | EmptyString, EmptyString => Eq
  | EmptyString, String _ _ => Lt
  | String _ _, EmptyString => Gt
  | String x a', String y b' =>
      match Nat.compare (nat_of_ascii x) (nat_of_ascii y) with
      | Eq => text_compare a' b'
      | c => c
      end
  end.

(** The order behind [<], [<=], [>] and [>=]: numbers with numbers, text
    with text, lists item by item from the first pair that differs;
    anything else is a [TypeError]. *)
Fixpoint compare (a b : PyVal) {struct a} : result comparison :=
  match a, b with
  | VBool x, VBool y => Ok (Z.compare (Z.b2z x) (Z.b2z y))
  | VBool x, VInt y => Ok (Z.compare (Z.b2z x) y)
  | VInt x, VBool y => Ok (Z.compare x (Z.b2z y))
  | VInt x, VInt y => Ok (Z.compare x y)
  | VStr x, VStr y => Ok (text_compare x y)
  | VList l1, VList l2 =>
      (fix go (l1 l2 : list PyVal) {struct l1} : result comparison :=
         match l1, l2 with
         | [], [] => Ok Eq
         | [], _ :: _ => Ok Lt
         | _ :: _, [] => Ok Gt
         | x :: xs, y :: ys => if eq x y then go xs ys else compare x y
         end) l1 l2
  | _, _ => Raise TypeError
  end.

Definition gt (a b : PyVal) : result bool :=
  c ← compare a b; Ok match c with Gt => true | _ => false end.
Definition ge (a b : PyVal) : result bool :=
  c ← compare a b; Ok match c with Lt => false | _ => true end.
Definition lt (a b : PyVal) : result bool :=
  c ← compare a b; Ok match c with Lt => true | _ => false end.
Definition le (a b : PyVal) : result bool :=
  c ← compare a b; Ok match c with Gt => false | _ => true end.

(** One item of the sequence given to [dict(...)]: a pair. *)
Definition pair_of (v : PyVal) : result (PyKey * PyVal) :=
  items ← match v with
          | VStr s => Ok (map VStr (Text.chars s))
          | VList l => Ok l
          | VDict d => Ok (map (fun kv => key_val (fst kv)) d)
          | VNone | VBool _ | VInt _ => Raise TypeError
          end;
  match items with
  | [k; x] =>
      match val_key k with
      | Some k' => Ok (k', x)
      | None => Raise TypeError
      end
  | _ => Raise ValueError
  end.

Fixpoint dict_of (acc : list (PyKey * PyVal)) (l : list PyVal) : result (list (PyKey * PyVal)) :=
  match l with
  | [] => Ok acc
  | v :: rest => kv ← pair_of v; dict_of (dict_set (fst kv) (snd kv) acc) rest
  end.

(** [ty(v)]: the call of a type on a value. *)
Definition construct (ty : PyType) (v : PyVal) : result PyVal :=
  match ty with
  | TNone => Raise TypeError
  | TBool => Ok (VBool (truthy v))
  | TInt =>
      match v with
      | VBool b => Ok (VInt (Z.b2z b))
      | VInt z => Ok (VInt z)
      | VStr s =>
          match Text.parse_int s with
          | Some z => Ok (VInt z)
          | None => Raise ValueError
          end
      | VNone | VList _ | VDict _ => Raise TypeError
      end
  | TStr => Ok (VStr (str v))
  | TList =>
      match v with
      | VStr s => Ok (VList (map VStr (Text.chars s)))
      | VList l => Ok (VList l)
      | VDict d => Ok (VList (map (fun kv => key_val (fst kv)) d))
      | VNone | VBool _ | VInt _ => Raise TypeError
      end
  | TDict =>
      match v with
      | VDict d => Ok (VDict d)
      | VList l => d ← dict_of [] l; Ok (VDict d)
      | VStr s => d ← dict_of [] (map VStr (Text.chars s)); Ok (VDict d)
      | VNone | VBool _ | VInt _ => Raise TypeError
      end
  end.

(** [d.get(k, dflt)] and [d[k]] on a dictionary with a text key *)
Definition get (d : list (PyKey * PyVal)) (k : string) (dflt : PyVal) : PyVal :=
  default dflt (dict_get (KStr k) d).

Definition subscript (d : list (PyKey * PyVal)) (k : string) : result PyVal :=
  match dict_get (KStr k) d with
  | Some v => Ok v
  | None => Raise KeyError
  end.

End Py.

(** A Python dictionary: its items in insertion order. *)
Abbreviation Dict := (list (PyKey * PyVal)).

(** ** The collaborators of the module *)

(** What the module reaches through [__salt__], the local caller, the data
    utilities and the clock. Each field is named after the call it stands
    for. *)
Record Env : Type := {
  (** [__salt__['sys.list_modules']()] *)
  sys_list_modules : list string;
  (** [__salt__['sys.list_functions'](module_name)]; [None] when the lookup
      raises [SaltException] *)
  sys_list_functions : string -> option (list string);
  (** [self.salt_lc.cmd(fun, *args, **kwargs)] *)
  salt_lc_cmd : PyVal -> list PyVal -> list (string * PyVal) -> result PyVal;
  (** [salt.utils.data.traverse_dict_and_list(value, key, default=False,
      delimiter=delimiter)] *)
  traverse_dict_and_list : Dict -> PyVal -> PyVal -> result PyVal;
  (** [round(end - start, 4)] of the two readings of [time.time()], counted
      in ten-thousandths of a second *)
  elapsed : Z
}.

(** [salt.defaults.DEFAULT_TARGET_DELIM], the delimiter the module
    documentation gives as the default of [assertion_section_delimiter]. *)
Definition DEFAULT_TARGET_DELIM : string := ":".

(** [_is_valid_module], as its body answers. The decorator [memoize] keeps
    the answer of a call under its argument and gives it again for a later
    call with the same argument. *)
Definition _is_valid_module (E : Env) (module : string) : bool :=
  existsb (String.eqb module) (sys_list_modules E).

(** [_is_valid_function], as its body answers. The decorator [memoize]
    keeps the answer of a call under the two arguments joined by a comma and
    gives it again for a later call with the same joined text; for names
    without a comma that is a call with the same arguments. *)
Definition _is_valid_function (E : Env) (module_name function : string) : bool :=
  let functions :=
    match sys_list_functions E module_name with
    | Some fs => fs
    | None => ["unable to look up functions"]
    end in
  existsb (String.eqb (module_name +:+ "." +:+ function)) functions.

(** ** SaltCheck *)

Module SaltCheck.

(** [self.assertions_list] *)
Definition assertions_list : list string :=
  ["assertEqual"; "assertNotEqual"; "assertTrue"; "assertFalse";
   "assertIn"; "assertNotIn"; "assertGreater"; "assertGreaterEqual";
   "assertLess"; "assertLessEqual"; "assertEmpty"; "assertNotEmpty"].

(** [required_total] of [__is_valid_test] *)
Definition required_total (test_dict : Dict) : Z :=
  let skip := Py.get test_dict "skip" (VBool false) in
  let m_and_f := Py.get test_dict "module_and_function" VNone in
  let assertion := Py.get test_dict "assertion" VNone in
  if Py.truthy skip then 0
  else if Py.mem m_and_f [VStr "saltcheck.state_apply"] then 2
  else if Py.mem assertion
            [VStr "assertEmpty"; VStr "assertNotEmpty"; VStr "assertTrue"; VStr "assertFalse"]
       then 4
  else 6.

(** [m_and_f.split('.')] *)
Definition split_dot (m_and_f : PyVal) : result (list string) :=
  match m_and_f with
  | VStr s => Ok (Text.split "." s)
  | _ => Raise AttributeError
  end.

(** [module, function = ...]: the unpacking of a list into two names *)
Definition unpack2 (parts : list string) : result (string * string) :=
  match parts with
  | [a; b] => Ok (a, b)
  | _ => Raise ValueError
  end.

(** The points of the [if m_and_f:] block. *)
Definition m_and_f_points (E : Env) (m_and_f : PyVal) : result Z :=
  if Py.truthy m_and_f then
    parts ← split_dot m_and_f;
    mf ← unpack2 parts;
    let module := fst mf in
    let function := snd mf in
    Ok (1 + (if _is_valid_module E module then 1 else 0)
          + (if _is_valid_function E module function then 1 else 0))
  else Ok 0.

(** [tots] at the end of [__is_valid_test] *)
Definition tots (E : Env) (test_dict : Dict) : result Z :=
  let m_and_f := Py.get test_dict "module_and_function" VNone in
  let assertion := Py.get test_dict "assertion" VNone in
  let exp_ret_key := Py.has_key (KStr "expected-return") test_dict in
  let exp_ret_val := Py.get test_dict "expected-return" VNone in
  t0 ← m_and_f_points E m_and_f;
  let t1 := t0 + (if Py.mem assertion (map VStr assertions_list) then 1 else 0) in
  let t2 := t1 + (if exp_ret_key then 1 else 0) in
  let t3 := t2 + (match exp_ret_val with VNone => 0 | _ => 1 end) in
  Ok t3.

(** [SaltCheck.__is_valid_test] *)
Definition __is_valid_test (E : Env) (test_dict : Dict) : result bool :=
  let required := required_total test_dict in
  t ← tots E test_dict;
  Ok (required <=? t).

(** [SaltCheck._cast_expected_to_returned_type]: only [ValueError] is
    caught. *)
Definition _cast_expected_to_returned_type (expected returned : PyVal) : result PyVal :=
  let new_expected := expected in
  match returned with
  | VNone => Ok new_expected
  | _ =>
      let ret_type := Py.type_of returned in
      let expected :=
        if Py.eq expected (VStr "False") && Py.type_eqb ret_type TBool
        then VBool false else expected in
      match Py.construct ret_type expected with
      | Ok v => Ok v
      | Raise ValueError => Ok new_expected
      | Raise e => Raise e
      end
  end.

(** The outcome of [try: assert cond, msg / except AssertionError]. *)
Definition verdict (cond : bool) (msg : string) : string :=
  if cond then "Pass" else "Fail: " +:+ msg.

Definition __assert_equal (expected returned assert_print_result : PyVal) : string :=
  if Py.truthy assert_print_result
  then verdict (Py.eq expected returned)
               (Py.str expected +:+ " is not equal to " +:+ Py.str returned)
  else verdict (Py.eq expected returned) "Result is not equal".

Definition __assert_not_equal (expected returned assert_print_result : PyVal) : string :=
  if Py.truthy assert_print_result
  then verdict (negb (Py.eq expected returned))
               (Py.str expected +:+ " is equal to " +:+ Py.str returned)
  else verdict (negb (Py.eq expected returned)) "Result is equal".

(** [returned is True] *)
Definition is_True (v : PyVal) : bool :=
  match v with VBool true => true | _ => false end.

(** [returned is False] *)
Definition is_False (v : PyVal) : bool :=
  match v with VBool false => true | _ => false end.

Definition __assert_true (returned : PyVal) : string :=
  verdict (is_True returned) (Py.str returned +:+ " not True").

Definition __assert_false (returned : PyVal) : string :=
  let returned :=
    match returned with
    | VStr _ => VBool (Py.truthy returned)
    | _ => returned
    end in
  verdict (is_False returned) (Py.str returned +:+ " not False").

Definition __assert_in (expected returned assert_print_result : PyVal) : result string :=
  c ← Py.contains expected returned;
  Ok (if Py.truthy assert_print_result
      then verdict c (Py.str expected +:+ " not found in " +:+ Py.str returned)
      else verdict c "Result not found").

Definition __assert_not_in (expected returned assert_print_result : PyVal) : result string :=
  c ← Py.contains expected returned;
  Ok (if Py.truthy assert_print_result
      then verdict (negb c) (Py.str expected +:+ " was found in " +:+ Py.str returned)
      else verdict (negb c) "Result was found").

Definition __assert_greater (expected returned : PyVal) : result string :=
  c ← Py.gt expected returned; Ok (verdict c (Py.str returned +:+ " not False")).

Definition __assert_greater_equal (expected returned : PyVal) : result string :=
  c ← Py.ge expected returned; Ok (verdict c (Py.str returned +:+ " not False")).

Definition __assert_less (expected returned : PyVal) : result string :=
  c ← Py.lt expected returned; Ok (verdict c (Py.str returned +:+ " not False")).

Definition __assert_less_equal (expected returned : PyVal) : result string :=
  c ← Py.le expected returned; Ok (verdict c (Py.str returned +:+ " not False")).

Definition __assert_empty (returned : PyVal) : string :=
  verdict (negb (Py.truthy returned)) (Py.str returned +:+ " is not empty").

Definition __assert_not_empty (returned : PyVal) : string :=
  verdict (Py.truthy returned) "value is empty".

(** The dictionary [run_test] returns: its [duration] in ten-thousandths
    of a second, the entry whose key starts with [module.function [args]]
    (key suffix and value), the entry [saltcheck assertion], and
    [status]. *)
Record TestResult : Type := {
  duration : Z;
  module_function_args : option (string * string);
  saltcheck_assertion : option string;
  status : string
}.

(** [*args] in a call *)
Definition star (args : PyVal) : result (list PyVal) :=
  match args with
  | VList l => Ok l
  | VStr s => Ok (map VStr (Text.chars s))
  | VDict d => Ok (map (fun kv => Py.key_val (fst kv)) d)
  | VNone | VBool _ | VInt _ => Raise TypeError
  end.

Fixpoint keywords (d : Dict) : result (list (string * PyVal)) :=
  match d with
  | [] => Ok []
  | (KStr k, v) :: rest => kws ← keywords rest; Ok ((k, v) :: kws)
  | _ :: _ => Raise TypeError
  end.

(** [**kwargs] in a call *)
Definition starstar (kwargs : PyVal) : result (list (string * PyVal)) :=
  match kwargs with
  | VDict d => keywords d
  | _ => Raise TypeError
  end.

(** [SaltCheck._call_salt_command] *)
Definition _call_salt_command (E : Env) (fn args kwargs : PyVal)
    (assertion_section assertion_section_delimiter : PyVal) : result PyVal :=
  value ←
    (if Py.truthy args && Py.truthy kwargs then
       a ← star args; k ← starstar kwargs; salt_lc_cmd E fn a k
     else if Py.truthy args && negb (Py.truthy kwargs) then
       a ← star args; salt_lc_cmd E fn a []
     else if negb (Py.truthy args) && Py.truthy kwargs then
       k ← starstar kwargs; salt_lc_cmd E fn [] k
     else salt_lc_cmd E fn [] []);
  match value with
  | VDict d =>
      if Py.truthy assertion_section
      then traverse_dict_and_list E d assertion_section assertion_section_delimiter
      else Ok value
  | _ => Ok value
  end.

(** [kwargs['pillar'] = pillar_data] *)
Definition set_pillar (kwargs pillar_data : PyVal) : result PyVal :=
  match kwargs with
  | VDict d => Ok (VDict (Py.dict_set (KStr "pillar") pillar_data d))
  | _ => Raise TypeError
  end.

(** [kwargs.pop('pillar', None)] *)
Definition pop_pillar (kwargs : PyVal) : result PyVal :=
  match kwargs with
  | VDict d => Ok (VDict (Py.dict_del (KStr "pillar") d))
  | VList _ => Raise TypeError
  | _ => Raise AttributeError
  end.

(** The keyword arguments of the call, after the [pillar-data] block. *)
Definition with_pillar (kwargs pillar_data : PyVal) : result PyVal :=
  if Py.truthy pillar_data then
    set_pillar (if Py.truthy kwargs then kwargs else VDict []) pillar_data
  else if Py.truthy kwargs then pop_pillar kwargs
  else Ok kwargs.

(** The assertion [run_test] evaluates. *)
Definition effective_assertion (test_dict : Dict) (mod_and_func : PyVal) : result PyVal :=
  if Py.mem mod_and_func [VStr "saltcheck.state_apply"]
  then Ok (VStr "assertNotEmpty")
  else Py.subscript test_dict "assertion".

Definition uncast_assertions : list string :=
  ["assertIn"; "assertNotIn"; "assertEmpty"; "assertNotEmpty"; "assertTrue"; "assertFalse"].

Definition is_name (v : PyVal) (name : string) : bool := Py.eq v (VStr name).

(** The [if assertion == ... elif ...] chain: [assertion_desc], when the
    branch binds it, and [value]. *)
Definition dispatch (assertion expected_return actual_return assert_print_result : PyVal)
    : result (option string * string) :=
  if is_name assertion "assertEqual" then
    Ok (Some "==", __assert_equal expected_return actual_return assert_print_result)
  else if is_name assertion "assertNotEqual" then
    Ok (Some "!=", __assert_not_equal expected_return actual_return assert_print_result)
  else if is_name assertion "assertTrue" then
    Ok (Some "True is", __assert_true actual_return)
  else if is_name assertion "assertFalse" then
    Ok (Some "False is", __assert_false actual_return)
  else if is_name assertion "assertIn" then
    v ← __assert_in expected_return actual_return assert_print_result; Ok (Some "IS IN", v)
  else if is_name assertion "assertNotIn" then
    v ← __assert_not_in expected_return actual_return assert_print_result; Ok (Some "IS NOT IN", v)
  else if is_name assertion "assertGreater" then
    v ← __assert_greater expected_return actual_return; Ok (Some ">", v)
  else if is_name assertion "assertGreaterEqual" then
    v ← __assert_greater_equal expected_return actual_return; Ok (Some ">=", v)
  else if is_name assertion "assertLess" then
    v ← __assert_less expected_return actual_return; Ok (Some "<", v)
  else if is_name assertion "assertLessEqual" then
    v ← __assert_less_equal expected_return actual_return; Ok (Some "<=", v)
  else if is_name assertion "assertEmpty" then
    Ok (Some "IS EMPTY:", __assert_empty actual_return)
  else if is_name assertion "assertNotEmpty" then
    Ok (Some "IS NOT EMPTY:", __assert_not_empty actual_return)
  else Ok (None, "Fail - bad assertion").

Definition newline2 : string :=
  String (ascii_of_nat 10) (String (ascii_of_nat 10) EmptyString).

(** The end of [run_test], from [end = time.time()] on. [call] holds
    [mod_and_func], [args] and [assertion_section] when they are bound,
    [judged] holds [expected_return] and [actual_return] when they are;
    [assertion_desc] is read before the test on [locals()], so a path
    that never bound it raises [UnboundLocalError]. *)
Definition finish (E : Env) (call : option (PyVal * PyVal * PyVal))
    (judged : option (PyVal * PyVal)) (assertion_desc : option string)
    (value : string) : result TestResult :=
  let mfa :=
    match call with
    | Some (mod_and_func, args, assertion_section) =>
        let title := match assertion_section with VNone => "" | _ => " => section" end in
        let shown :=
          match assertion_section with
          | VNone => ""
          | _ => " => " +:+ Py.str assertion_section
          end in
        Some (title, Py.str mod_and_func +:+ " " +:+ Py.str args +:+ shown)
    | None => None
    end in
  match assertion_desc with
  | None => Raise UnboundLocalError
  | Some desc =>
      let sep :=
        if existsb (String.eqb desc) ["IS IN"; "IS NOT IN"] then newline2 else " " in
      let text :=
        match judged with
        | Some (expected_return, actual_return) =>
            Some ((match expected_return with
                   | VNone => ""
                   | _ => Py.str expected_return +:+ sep
                   end) +:+ desc +:+ sep +:+ Py.str actual_return)
        | None => None
        end in
      Ok {| duration := elapsed E;
            module_function_args := mfa;
            saltcheck_assertion := text;
            status := value |}
  end.

(** [SaltCheck.run_test]. The dictionary under [kwargs] is changed in
    place by the [pillar-data] block; the result does not depend on that
    and the change is not part of it. *)
Definition run_test (E : Env) (test_dict : Dict) : result TestResult :=
  valid ← __is_valid_test E test_dict;
  if (valid : bool) then
    let skip := Py.get test_dict "skip" (VBool false) in
    if Py.truthy skip then
      Ok {| duration := 0; module_function_args := None;
            saltcheck_assertion := None; status := "Skip" |}
    else
      mod_and_func ← Py.subscript test_dict "module_and_function";
      let assertion_section := Py.get test_dict "assertion_section" VNone in
      let assertion_section_delimiter :=
        Py.get test_dict "assertion_section_delimiter" (VStr DEFAULT_TARGET_DELIM) in
      let args := Py.get test_dict "args" VNone in
      let kwargs := Py.get test_dict "kwargs" VNone in
      let pillar_data := Py.get test_dict "pillar-data" VNone in
      kwargs ← with_pillar kwargs pillar_data;
      assertion ← effective_assertion test_dict mod_and_func;
      let expected_return := Py.get test_dict "expected-return" VNone in
      let assert_print_result := Py.get test_dict "print_result" (VBool true) in
      actual_return ← _call_salt_command E mod_and_func args kwargs
                        assertion_section assertion_section_delimiter;
      expected_return ←
        (if negb (Py.mem assertion (map VStr uncast_assertions))
         then _cast_expected_to_returned_type expected_return actual_return
         else Ok expected_return);
      dv ← dispatch assertion expected_return actual_return assert_print_result;
      finish E (Some (mod_and_func, args, assertion_section))
             (Some (expected_return, actual_return)) (fst dv) (snd dv)
  else finish E None None None "Fail - invalid test".

End SaltCheck.

(** ** Paths ([os.path] on POSIX, [os.sep] is a slash) *)

Module OsPath.

Definition sep : string := "/".

(** [os.path.join(a, b)] *)
Definition join2 (path b : string) : string :=
  if Text.startswith b "/" then b
  else if String.eqb path "" || Text.endswith path "/" then path +:+ b
  else path +:+ "/" +:+ b.

(** [os.path.join(a, *p)] *)
Definition join (a : string) (p : list string) : string := foldl join2 a p.

(** One step of the loop of [os.path.normpath] over the components;
    [new_comps] is kept in reverse. *)
Definition norm_step (initial_slashes : nat) (new_comps : list string) (comp : string)
    : list string :=
  if String.eqb comp "" || String.eqb comp "." then new_comps
  else if negb (String.eqb comp "..")
          || ((initial_slashes =? 0)%nat && match new_comps with [] => true | _ => false end)
          || match new_comps with c :: _ => String.eqb c ".." | [] => false end
  then comp :: new_comps
  else match new_comps with
       | _ :: rest => rest
       | [] => new_comps
       end.

(** [os.path.normpath(path)] *)
Definition normpath (path : string) : string :=
  if String.eqb path "" then "."
  else
    let initial_slashes :=
      if Text.startswith path "/" then
        if Text.startswith path "//" && negb (Text.startswith path "///") then 2%nat else 1%nat
      else 0%nat in
    let comps := rev (foldl (norm_step initial_slashes) [] (Text.split "/" path)) in
    let joined := Text.join "/" comps in
    let out := Text.join "" (replicate initial_slashes "/") +:+ joined in
    if String.eqb out "" then "." else out.

End OsPath.

(** ** StateTestLoader *)

(** One item of the low data of a state: something that is not a
    dictionary, or a dictionary with or without the key [__sls__]. *)
Inductive LowData : Type :=
  | LowOther
  | LowDict (sls : option string).

(** What the loader reaches through [__opts__], [__salt__] and the files of
    the cache directory. *)
Record LoaderEnv : Type := {
  (** [__opts__.get('pidfile', False)]; [None] for the default [False] *)
  opts_pidfile : option string;
  (** [__opts__['cachedir']] *)
  opts_cachedir : string;
  (** [__salt__['cp.list_states']()] *)
  cp_list_states : list string;
  (** [__salt__['state.show_low_sls'](sls_name, test=True)] *)
  state_show_low_sls : string -> list LowData;
  (** [__salt__['cp.cache_dir'](sls_path, saltenv=..., include_pat='*.tst')] *)
  cp_cache_dir : string -> string -> list string;
  (** The list of texts read as JSON from a file; [None] when the file
      cannot be opened ([IOError]). *)
  read_json_texts : string -> option (list string);
  (** The low data read as JSON from a file; [None] as above. *)
  read_json_low : string -> option (list LowData);
  (** [loads(dumps(_render_file(filepath)), object_pairs_hook=OrderedDict)]:
      the items of the rendered file, in order. *)
  render_file : string -> result (list (string * PyVal));
  (** The order in which a loop over a set of paths meets them: it follows
      from the hashes of the paths, which change with the hash seed of the
      process. *)
  set_order : gset string -> list string
}.

Module StateTestLoader.

(** The attributes of a loader; [path_type] stays [None] and is left out.
    [test_dict] is an [OrderedDict]: its items in insertion order. *)
Record Loader : Type := {
  test_files : gset string;
  test_dict : list (string * PyVal);
  saltenv : string;
  saltcheck_test_location : string
}.

(** [__init__], given [__salt__['config.get']('saltcheck_test_location',
    'saltcheck-tests')] *)
Definition init (location : string) : Loader :=
  {| test_files := ∅; test_dict := []; saltenv := "base";
     saltcheck_test_location := location |}.

(** [od.get(k)] and [od[k] = v] on an [OrderedDict] with text keys *)
Fixpoint od_get (k : string) (d : list (string * PyVal)) : option PyVal :=
  match d with
  | [] => None
  | (k', v) :: rest => if String.eqb k k' then Some v else od_get k rest
  end.

Fixpoint od_set (k : string) (v : PyVal) (d : list (string * PyVal)) : list (string * PyVal) :=
  match d with
  | [] => [(k, v)]
  | (k', v') :: rest =>
      if String.eqb k k' then (k', v) :: rest else (k', v') :: od_set k v rest
  end.

(** The loop [for key, value in mydict.items(): self.test_dict[key] = value] *)
Definition merge (test_dict mydict : list (string * PyVal)) : list (string * PyVal) :=
  foldl (fun acc kv => od_set (fst kv) (snd kv) acc) test_dict mydict.

(** [_load_file_salt_rendered], on the dictionary under construction *)
Definition _load_file_salt_rendered (E : LoaderEnv) (test_dict : list (string * PyVal))
    (filepath : string) : result (list (string * PyVal)) :=
  mydict ← render_file E filepath;
  Ok (merge test_dict mydict).

Fixpoint load_files (E : LoaderEnv) (test_dict : list (string * PyVal))
    (files : list string) : result (list (string * PyVal)) :=
  match files with
  | [] => Ok test_dict
  | myfile :: rest =>
      td ← _load_file_salt_rendered E test_dict myfile;
      load_files E td rest
  end.

(** [for myfile in self.test_files]: every file of the set once, in the
    order of the process. The order the environment gives is followed for
    the files of the set it names, each at its first place; a file it does
    not name comes after these. *)
Definition iteration (E : LoaderEnv) (s : gset string) : list string :=
  let named := remove_dups (filter (fun f => f ∈ s) (set_order E s)) in
  named ++ filter (fun f => f ∉ named) (elements s).

(** [load_test_suite] *)
Definition load_test_suite (E : LoaderEnv) (L : Loader) : result Loader :=
  td ← load_files E [] (iteration E (test_files L));
  Ok {| test_files := ∅; test_dict := td; saltenv := saltenv L;
        saltcheck_test_location := saltcheck_test_location L |}.

(** The state of one call of [add_test_files_for_sls]: the file set of
    the loader, the two local lists, and the log of the calls of
    [cp.cache_dir] in their order, each with the state it was made for and
    the directory asked for. *)
Record Scan : Type := {
  files : gset string;
  processed_states : list string;
  cached_copied_files : list string;
  cache_requests : list (string * string)
}.

Definition strs_mem (x : string) (l : list string) : bool := existsb (String.eqb x) l.

(** The block the three levels repeat: note the state as processed, or
    switch [copy_states] off when it already is; then ask for the
    directory when [copy_states] is still on. *)
Definition probe (E : LoaderEnv) (L : Loader) (state_name sls_path : string)
    (copy_states : bool) (this_cache_ret : list string) (sc : Scan)
    : bool * list string * Scan :=
  let seen := strs_mem state_name (processed_states sc) in
  let copy_states := if seen then false else copy_states in
  let processed := if seen then processed_states sc else processed_states sc ++ [state_name] in
  if copy_states then
    (copy_states, cp_cache_dir E sls_path (saltenv L),
     {| files := files sc; processed_states := processed;
        cached_copied_files := cached_copied_files sc;
        cache_requests := cache_requests sc ++ [(state_name, sls_path)] |})
  else
    (copy_states, this_cache_ret,
     {| files := files sc; processed_states := processed;
        cached_copied_files := cached_copied_files sc;
        cache_requests := cache_requests sc |}).

(** [cached_copied_files.extend(this_cache_ret)] *)
Definition extend (sc : Scan) (this_cache_ret : list string) : Scan :=
  {| files := files sc; processed_states := processed_states sc;
     cached_copied_files := cached_copied_files sc ++ this_cache_ret;
     cache_requests := cache_requests sc |}.

Definition nonempty (l : list string) : bool :=
  match l with [] => false | _ => true end.

Definition salt_url (dir location : string) : string :=
  "salt://" +:+ dir +:+ "/" +:+ location.

(** The three levels of directories tried for the state [sls]; gives
    [this_cache_ret] (the empty list for [None]). *)
Definition fallback (E : LoaderEnv) (L : Loader) (sls : string) (sc : Scan)
    : list string * Scan :=
  let loc := saltcheck_test_location L in
  let state_name := sls in
  let '(copy_states, this_cache_ret, sc) :=
    probe E L state_name (salt_url (Text.replace "." "/" state_name) loc) true [] sc in
  if nonempty this_cache_ret then (this_cache_ret, extend sc this_cache_ret)
  else
    let sls_split := removelast (Text.split "." sls) in
    let state_name := Text.join "." sls_split in
    let '(copy_states, this_cache_ret, sc) :=
      probe E L state_name (salt_url (Text.join "/" sls_split) loc)
            copy_states this_cache_ret sc in
    if nonempty this_cache_ret then (this_cache_ret, extend sc this_cache_ret)
    else
      let state_name := hd "" (Text.split "." sls) in
      let '(copy_states, this_cache_ret, sc) :=
        probe E L state_name (salt_url state_name loc) copy_states this_cache_ret sc in
      if nonempty this_cache_ret then (this_cache_ret, extend sc this_cache_ret)
      else (this_cache_ret, sc).

(** [l.remove(x)]: the first [x] goes; [None] stands for [ValueError]. *)
Fixpoint remove_first (x : string) (l : list string) : option (list string) :=
  match l with
  | [] => None
  | y :: rest =>
      if String.eqb x y then Some rest
      else cons y <$> remove_first x rest
  end.

(** The inner loop over [sls_path_names] for one cached file. *)
Fixpoint match_names (names : list string) (file : string)
    (pool : list string) (fs : gset string) : result (list string * gset string) :=
  match names with
  | [] => Ok (pool, fs)
  | sls_path_name :: rest =>
      if Text.endswith file sls_path_name then
        match remove_first file pool with
        | Some pool' => match_names rest file pool' ({[file]} ∪ fs)
        | None => Raise ValueError
        end
      else match_names rest file pool fs
  end.

(** The loop [for this_cached_test_file in cached_copied_files], which
    goes through the list by position while the body removes items from
    it. The fuel is the length of the list at the start, which bounds the
    number of rounds. *)
Fixpoint match_loop (fuel : nat) (names : list string) (i : nat)
    (pool : list string) (fs : gset string) : result (list string * gset string) :=
  match fuel with
  | O => Ok (pool, fs)
  | S fuel' =>
      match pool !! i with
      | None => Ok (pool, fs)
      | Some file =>
          pf ← match_names names file pool fs;
          match_loop fuel' names (S i) (fst pf) (snd pf)
      end
  end.

Definition sls_path_names (location sls : string) : list string :=
  let split_sls := Text.split "." sls in
  [ OsPath.join (Text.join OsPath.sep split_sls) [OsPath.normpath location; "init.tst"];
    OsPath.join (Text.join OsPath.sep (removelast split_sls))
                [OsPath.normpath location; List.last split_sls "" +:+ ".tst"] ].

Definition union_list (l : list string) (fs : gset string) : gset string :=
  list_to_set l ∪ fs.

(** The body of [for low_data in ret] for an item with the key
    [__sls__]. *)
Definition entry (E : LoaderEnv) (L : Loader) (check_all salt_ssh : bool)
    (sls : string) (sc : Scan) : result Scan :=
  let '(this_cache_ret, sc) := fallback E L sls sc in
  let fs := files sc in
  let fs := if nonempty this_cache_ret && check_all
            then union_list this_cache_ret fs else fs in
  let fs := if salt_ssh && check_all
            then union_list (filter (fun f => Text.endswith f ".tst" = true)
                                    (cached_copied_files sc)) fs
            else fs in
  let pool := cached_copied_files sc in
  pf ← match_loop (List.length pool) (sls_path_names (saltcheck_test_location L) sls)
                  0 pool fs;
  Ok {| files := snd pf; processed_states := processed_states sc;
        cached_copied_files := fst pf; cache_requests := cache_requests sc |}.

(** [for low_data in ret]; an item that is not a dictionary ends the
    call. *)
Fixpoint scan_low (E : LoaderEnv) (L : Loader) (check_all salt_ssh : bool)
    (ret : list LowData) (sc : Scan) : result Scan :=
  match ret with
  | [] => Ok sc
  | LowOther :: _ => Ok sc
  | LowDict None :: rest => scan_low E L check_all salt_ssh rest sc
  | LowDict (Some sls) :: rest =>
      sc' ← entry E L check_all salt_ssh sls sc;
      scan_low E L check_all salt_ssh rest sc'
  end.

Definition ssh_marker : string := "running_data/var/run/salt-minion.pid".

Definition cache_file (E : LoaderEnv) (L : Loader) (name : string) : string :=
  OsPath.join (opts_cachedir E) ["files"; saltenv L; name].

Definition read_texts (E : LoaderEnv) (path : string) : result (list string) :=
  match read_json_texts E path with
  | Some l => Ok l
  | None => Raise IOError
  end.

(** The whole of [add_test_files_for_sls], with the log of requests. *)
Definition scan_sls (E : LoaderEnv) (L : Loader) (sls_name : string) (check_all : bool)
    : result Scan :=
  pidfile ← match opts_pidfile E with
            | Some p => Ok p
            | None => Raise TypeError
            end;
  let salt_ssh := Text.contains pidfile ssh_marker in
  all_states ← (if salt_ssh then read_texts E (cache_file E L "cp_output.txt")
                else Ok (cp_list_states E));
  cached ← (if salt_ssh then
              match read_json_texts E (cache_file E L (sls_name +:+ ".copy")) with
              | Some l => Ok l
              | None =>
                  let sls_root_name := Text.join "." (removelast (Text.split "." sls_name)) in
                  read_texts E (cache_file E L (sls_root_name +:+ ".copy"))
              end
            else Ok []);
  ret ← (if strs_mem sls_name all_states then
           if salt_ssh then
             match read_json_low E (cache_file E L (sls_name +:+ ".low")) with
             | Some l => Ok l
             | None => Raise IOError
             end
           else Ok (state_show_low_sls E sls_name)
         else Ok [LowDict (Some sls_name)]);
  scan_low E L check_all salt_ssh ret
    {| files := test_files L; processed_states := [];
       cached_copied_files := cached; cache_requests := [] |}.

(** [add_test_files_for_sls]: the loader after the call. *)
Definition add_test_files_for_sls (E : LoaderEnv) (L : Loader) (sls_name : string)
    (check_all : bool) : result Loader :=
  sc ← scan_sls E L sls_name check_all;
  Ok {| test_files := files sc; test_dict := test_dict L; saltenv := saltenv L;
        saltcheck_test_location := saltcheck_test_location L |}.

End StateTestLoader.

(** ** The rules of the specification, in its own words *)

Module Spec.

(** The number of separators (dots) in an operation. *)
Fixpoint separators (s : string) : nat :=
  match s with
  | EmptyString => 0
  | String a rest => ((if Ascii.eqb a "." then 1 else 0) + separators rest)%nat
  end.

(** The namespace segment: the text before the first separator. *)
Fixpoint namespace_of (s : string) : string :=
  match s with
  | EmptyString => EmptyString
  | String a rest => if Ascii.eqb a "." then EmptyString else String a (namespace_of rest)
  end.

(** The verb: the text after the first separator. *)
Fixpoint verb_of (s : string) : string :=
  match s with
  | EmptyString => EmptyString
  | String a rest => if Ascii.eqb a "." then rest else verb_of rest
  end.

Definition operation (t : Dict) : PyVal := Py.get t "module_and_function" VNone.
Definition assertion (t : Dict) : PyVal := Py.get t "assertion" VNone.

(** A definition has a well-formed operation when it has none (absent,
    null or empty) or a text with exactly one separator. *)
Definition well_formed_operation (t : Dict) : bool :=
  match operation t with
  | VStr s => String.eqb s "" || (separators s =? 1)%nat
  | v => negb (Py.truthy v)
  end.

Definition point (b : bool) : Z := if b then 1 else 0.

(** The namespace of an operation is valid when the minion lists it among
    its modules. *)
Definition namespace_valid (E : Env) (op : PyVal) : bool :=
  match op with
  | VStr s => existsb (String.eqb (namespace_of s)) (sys_list_modules E)
  | _ => false
  end.

(** The verb of an operation is valid within its namespace when the minion
    lists the operation among the functions of the namespace; a namespace
    whose functions cannot be looked up has no valid verb. *)
Definition verb_valid (E : Env) (op : PyVal) : bool :=
  match op with
  | VStr s =>
      match sys_list_functions E (namespace_of s) with
      | Some functions => existsb (String.eqb s) functions
      | None => false
      end
  | _ => false
  end.

Definition is_name_in (v : PyVal) (names : list string) : bool :=
  match v with
  | VStr s => existsb (String.eqb s) names
  | _ => false
  end.

Definition twelve : list string :=
  ["assertEqual"; "assertNotEqual"; "assertTrue"; "assertFalse"; "assertIn";
   "assertNotIn"; "assertGreater"; "assertGreaterEqual"; "assertLess";
   "assertLessEqual"; "assertEmpty"; "assertNotEmpty"].

(** One point each for the six conditions of the scoring rule. *)
Definition score (E : Env) (t : Dict) : Z :=
  let present := Py.truthy (operation t) in
  point present
  + point (present && namespace_valid E (operation t))
  + point (present && verb_valid E (operation t))
  + point (is_name_in (assertion t) twelve)
  + point (Py.has_key (KStr "expected-return") t)
  + point (match Py.get t "expected-return" VNone with VNone => false | _ => true end).

(** The threshold: 0, 2, 4 or 6. *)
Definition threshold (t : Dict) : Z :=
  if Py.truthy (Py.get t "skip" (VBool false)) then 0
  else if is_name_in (operation t) ["saltcheck.state_apply"] then 2
  else if is_name_in (assertion t) ["assertEmpty"; "assertNotEmpty"; "assertTrue"; "assertFalse"]
       then 4
  else 6.

Definition validate (E : Env) (t : Dict) : bool := threshold t <=? score E t.

(** The actual value as [assertFalse] judges it: a text is first turned
    into its truth value. *)
Definition as_boolean (actual : PyVal) : PyVal :=
  match actual with
  | VStr s => VBool (negb (String.eqb s ""))
  | _ => actual
  end.

(** The definition a rendered file gives to a test name: the value of its
    last item under the name. *)
Fixpoint file_def (name : string) (items : list (string * PyVal)) : option PyVal :=
  match items with
  | [] => None
  | (k, v) :: rest =>
      match file_def name rest with
      | Some w => Some w
      | None => if String.eqb name k then Some v else None
      end
  end.

(** Last wins: the definition of a name after a load is that of the last
    file, in the order of processing, that defines the name. *)
Fixpoint last_def (name : string) (rendered : list (list (string * PyVal))) : option PyVal :=
  match rendered with
  | [] => None
  | items :: rest =>
      match last_def name rest with
      | Some w => Some w
      | None => file_def name items
      end
  end.

(** The three test directories of a state, from the most specific to the
    least: that of the state, that of its parent, that of its top-level
    name space. *)
Definition candidates (location sls : string) : list string :=
  [ StateTestLoader.salt_url (Text.replace "." "/" sls) location;
    StateTestLoader.salt_url (Text.join "/" (removelast (Text.split "." sls))) location;
    StateTestLoader.salt_url (hd "" (Text.split "." sls)) location ].


(** The result of the operation as [run_test] obtains it: the keyword
    arguments after the pillar block, then the call and the extraction of
    the section. *)
Definition operation_result (E : Env) (t : Dict) : result PyVal :=
  kwargs ← SaltCheck.with_pillar (Py.get t "kwargs" VNone) (Py.get t "pillar-data" VNone);
  SaltCheck._call_salt_command E (operation t) (Py.get t "args" VNone) kwargs
    (Py.get t "assertion_section" VNone)
    (Py.get t "assertion_section_delimiter" (VStr DEFAULT_TARGET_DELIM)).

(** The positional arguments of the call of the operation: the sequence
    under [args], none when it is absent. *)
Definition positional_arguments (t : Dict) : option (list PyVal) :=
  match Py.get t "args" VNone with
  | VNone => Some []
  | VList l => Some l
  | _ => None
  end.

(** The items of a mapping whose keys are all texts. *)
Fixpoint named (d : Dict) : option (list (string * PyVal)) :=
  match d with
  | [] => Some []
  | (KStr k, v) :: rest => cons (k, v) <$> named rest
  | _ :: _ => None
  end.

(** The keyword arguments of the call of the operation: the mapping under
    [kwargs] (none when it is absent), with the pillar data under [pillar]
    when they are given, and without the key [pillar] when they are not. *)
Definition keyword_arguments (t : Dict) : option (list (string * PyVal)) :=
  let pillar := Py.get t "pillar-data" VNone in
  let merged (d : Dict) :=
    named (if Py.truthy pillar then Py.dict_set (KStr "pillar") pillar d
           else Py.dict_del (KStr "pillar") d) in
  match Py.get t "kwargs" VNone with
  | VNone => merged []
  | VDict d => merged d
  | _ => None
  end.

(** The value an assertion judges, given the value the invoker returned:
    the section of it when it is a mapping and a section is asked for, and
    the value itself otherwise. *)
Definition judged (E : Env) (t : Dict) (value : PyVal) : result PyVal :=
  let section := Py.get t "assertion_section" VNone in
  match value with
  | VDict d =>
      if Py.truthy section
      then traverse_dict_and_list E d section
             (Py.get t "assertion_section_delimiter" (VStr DEFAULT_TARGET_DELIM))
      else Ok value
  | _ => Ok value
  end.

End Spec.

(** ** Sample minion and test definitions *)

Module Examples.

(** A look-up of one key, standing for the traversal of a section. *)
Definition lookup_section (d : Dict) (key delimiter : PyVal) : result PyVal :=
  Ok match Py.val_key key with
     | Some k => default (VBool false) (Py.dict_get k d)
     | None => VBool false
     end.

(** A minion with four modules; [test.echo] gives back its argument,
    [pkg.upgrade_available] answers [True], [user.info] and the apply
    alias answer with a dictionary. *)
Definition lc_cmd (fn : PyVal) (args : list PyVal) (kwargs : list (string * PyVal))
    : result PyVal :=
  match fn with
  | VStr "test.echo" => Ok (hd VNone args)
  | VStr "pkg.upgrade_available" => Ok (VBool true)
  | VStr "user.info" => Ok (VDict [(KStr "shell", VStr "/bin/bash"); (KStr "uid", VInt 0)])
  | VStr "saltcheck.state_apply" => Ok (VDict [(KStr "common", VBool true)])
  | _ => Raise (SaltError "not available")
  end.

Definition functions_of (module : string) : option (list string) :=
  match module with
  | "test" => Some ["test.echo"; "test.ping"]
  | "pkg" => Some ["pkg.upgrade_available"; "pkg.version"]
  | "user" => Some ["user.info"]
  | "saltcheck" => Some ["saltcheck.state_apply"; "saltcheck.run_test"]
  | _ => None
  end.

Definition minion : Env :=
  {| sys_list_modules := ["test"; "pkg"; "user"; "saltcheck"];
     sys_list_functions := functions_of;
     salt_lc_cmd := lc_cmd;
     traverse_dict_and_list := lookup_section;
     elapsed := 12 |}.

Definition echo_test_hello : Dict :=
  [(KStr "module_and_function", VStr "test.echo");
   (KStr "args", VList [VStr "hello"]);
   (KStr "kwargs", VNone);
   (KStr "assertion", VStr "assertEqual");
   (KStr "expected-return", VStr "hello")].

Definition test_apache2_latest : Dict :=
  [(KStr "module_and_function", VStr "pkg.upgrade_available");
   (KStr "args", VList [VStr "apache2"]);
   (KStr "assertion", VStr "assertFalse")].

Definition package_latest : Dict :=
  [(KStr "module_and_function", VStr "pkg.upgrade_available");
   (KStr "args", VList [VStr "apache2"]);
   (KStr "assertion", VStr "assertFalse");
   (KStr "skip", VBool true)].

Definition setup_test_environment : Dict :=
  [(KStr "module_and_function", VStr "saltcheck.state_apply");
   (KStr "args", VList [VStr "common"]);
   (KStr "assertion", VStr "assertEmpty");
   (KStr "pillar-data", VDict [(KStr "data", VStr "value")])].

(** Operations without exactly one separator. *)
Definition echo_no_separator : Dict :=
  [(KStr "module_and_function", VStr "echo");
   (KStr "assertion", VStr "assertEqual");
   (KStr "expected-return", VStr "hello")].

Definition three_segments : Dict :=
  [(KStr "module_and_function", VStr "a.b.c");
   (KStr "assertion", VStr "assertEqual");
   (KStr "expected-return", VStr "hello")].

Definition skipped_no_separator : Dict :=
  [(KStr "module_and_function", VStr "echo");
   (KStr "skip", VBool true)].

(** A file server where, of the test directories of the state
    [web.apache.config], only that of the top-level name space [web] has a
    file, [init.tst]. *)
Definition web_init_tst : string :=
  "/var/cache/salt/minion/files/base/web/saltcheck-tests/init.tst".

Definition cache_dir (sls_path saltenv : string) : list string :=
  match sls_path with
  | "salt://web/saltcheck-tests" => [web_init_tst]
  | _ => []
  end.

Definition t1_first : PyVal := VDict [(KStr "module_and_function", VStr "test.ping")].
Definition t1_second : PyVal := VDict [(KStr "module_and_function", VStr "test.echo")].

Definition render (filepath : string) : result (list (string * PyVal)) :=
  match filepath with
  | "a.tst" => Ok [("t1", t1_first); ("t2", VNone)]
  | "b.tst" => Ok [("t1", t1_second)]
  | _ => Raise (SaltError "no such file")
  end.

Definition master : LoaderEnv :=
  {| opts_pidfile := Some "/var/run/salt-minion.pid";
     opts_cachedir := "/var/cache/salt/minion";
     cp_list_states := ["web"; "web.apache"; "web.apache.config"];
     state_show_low_sls := fun sls_name => [LowDict (Some sls_name)];
     cp_cache_dir := cache_dir;
     read_json_texts := fun _ => None;
     read_json_low := fun _ => None;
     render_file := render;
     set_order := fun s => elements s |}.

(** The same master in a process whose hashes give the other order. *)
Definition master_reversed : LoaderEnv :=
  {| opts_pidfile := opts_pidfile master;
     opts_cachedir := opts_cachedir master;
     cp_list_states := cp_list_states master;
     state_show_low_sls := state_show_low_sls master;
     cp_cache_dir := cp_cache_dir master;
     read_json_texts := read_json_texts master;
     read_json_low := read_json_low master;
     render_file := render_file master;
     set_order := fun s => reverse (elements s) |}.

Definition loader : StateTestLoader.Loader := StateTestLoader.init "saltcheck-tests".

Definition two_files : StateTestLoader.Loader :=
  {| StateTestLoader.test_files := {[ "a.tst"; "b.tst" ]};
     StateTestLoader.test_dict := [];
     StateTestLoader.saltenv := "base";
     StateTestLoader.saltcheck_test_location := "saltcheck-tests" |}.

End Examples.

(** ** Well-formed values *)

Module Shape.

(** The representative of a key among the keys equal to it: [True] and
    [False] stand with [1] and [0]. *)
Definition canon (k : PyKey) : PyKey :=
  match k with
  | KBool b => KInt (Z.b2z b)
  | _ => k
  end.

(** No two items of a dictionary have equal keys. *)
Fixpoint keys_distinct {A : Type} (d : list (PyKey * A)) : bool :=
  match d with
  | [] => true
  | (k, _) :: rest => negb (Py.has_key k rest) && keys_distinct rest
  end.

(** A value all of whose dictionaries have distinct keys: the values Python
    can build. *)
Fixpoint wf (v : PyVal) : bool :=
  match v with
  | VList l => forallb wf l
  | VDict d => keys_distinct d && forallb (fun kv => wf (snd kv)) d
  | _ => true
  end.

(** A status as [run_test] gives it. *)
Definition run_status (s : string) : Prop :=
  s = "Skip" \/ s = "Pass" \/ exists m, s = "Fail: " +:+ m.

(** [args or []] and [kwargs or {}], for arguments that are a list or
    nothing and keyword arguments that are a dictionary or nothing. *)
Definition positional (args : PyVal) : option (list PyVal) :=
  match args with
  | VNone => Some []
  | VList l => Some l
  | _ => None
  end.

Definition keyword (kwargs : PyVal) : option Dict :=
  match kwargs with
  | VNone => Some []
  | VDict d => Some d
  | _ => None
  end.

End Shape.

(** ** Floating-point numbers *)

Module Floating.

Import SpecFloat.

(** A [float] is a binary64 number of IEEE 754. *)
Definition prec : Z := 53.
Definition emax : Z := 1024.

(** A value as before, or a float. A float inside a list or a dictionary is
    left out. *)
Inductive Val : Type :=
  | Plain (v : PyVal)
  | Float (f : spec_float).

Definition not_nan (v : Val) : bool :=
  match v with
  | Float S754_nan => false
  | _ => true
  end.

Definition wf (v : Val) : bool :=
  match v with
  | Plain p => Shape.wf p
  | Float _ => true
  end.

(** [f == z] for a float and an integer: the two numbers are compared as
    they are, without rounding. *)
Definition eq_int (f : spec_float) (z : Z) : bool :=
  match f with
  | S754_zero _ => z =? 0
  | S754_finite s m e =>
      let v := if s then Z.neg m else Z.pos m in
      if 0 <=? e then z =? v * 2 ^ e else z * 2 ^ (- e) =? v
  | S754_infinity _ | S754_nan => false
  end.

(** [a == b] *)
Definition eq (a b : Val) : bool :=
  match a, b with
  | Plain x, Plain y => Py.eq x y
  | Float x, Float y => SFeqb x y
  | Float f, Plain p | Plain p, Float f =>
      match Py.num p with
      | Some z => eq_int f z
      | None => false
      end
  end.

(** [float(z)] of an integer: the nearest float, a tie going to the even
    one; [OverflowError] past the largest float. *)
Definition of_int (z : Z) : result spec_float :=
  match binary_normalize prec emax z 0 false with
  | S754_infinity _ => Raise OverflowError
  | f => Ok f
  end.

(** The float nearest to [m * 10 ^ e], with the sign given; an infinity
    past the largest float. *)
Definition of_decimal (negative : bool) (m e : Z) : spec_float :=
  match m with
  | Z.pos p =>
      if 0 <=? e
      then binary_normalize prec emax ((if negative then Z.neg p else Z.pos p) * 10 ^ e) 0 false
      else SFdiv prec emax (S754_finite negative p 0)
                 (S754_finite false (Z.to_pos (10 ^ (- e))) 0)
  | _ => S754_zero negative
  end.

Definition lower (a : ascii) : ascii :=
  let n := nat_of_ascii a in
  if (65 <=? n)%nat && (n <=? 90)%nat then ascii_of_nat (n + 32) else a.

Definition word (l : list ascii) : string := string_of_list_ascii (map lower l).

(** An underscore is allowed between two digits only; the underscores are
    taken out before the text is read. [prev] is the character before. *)
Fixpoint without_underscores (prev : option ascii) (l : list ascii) : option (list ascii) :=
  let is_digit (c : option ascii) :=
    match c with
    | Some a => match Text.digit_of a with Some _ => true | None => false end
    | None => false
    end in
  match l with
  | [] =>
      match prev with
      | Some a => if Ascii.eqb a "_" then None else Some []
      | None => Some []
      end
  | a :: rest =>
      if Ascii.eqb a "_" then
        if is_digit prev then without_underscores (Some a) rest else None
      else if (match prev with Some p => Ascii.eqb p "_" | None => false end)
              && negb (is_digit (Some a))
      then None
      else cons a <$> without_underscores (Some a) rest
  end.

(** The digits at the head of a text: their value after [acc], how many
    they are, and the rest of the text. *)
Fixpoint read_digits (acc : Z) (n : Z) (l : list ascii) : Z * Z * list ascii :=
  match l with
  | a :: rest =>
      match Text.digit_of a with
      | Some d => read_digits (10 * acc + d) (n + 1) rest
      | None => (acc, n, l)
      end
  | [] => (acc, n, l)
  end.

(** A decimal numeral without its sign: digits with at most one point and
    at least one digit, then, if there is one, an exponent with at least
    one digit. *)
Definition read_decimal (negative : bool) (l : list ascii) : option spec_float :=
  let '(m1, n1, rest) := read_digits 0 0 l in
  let '(m, n2, rest) :=
    match rest with
    | a :: rest' => if Ascii.eqb a "." then read_digits m1 0 rest' else (m1, 0, rest)
    | [] => (m1, 0, rest)
    end in
  if n1 + n2 =? 0 then None
  else
    match rest with
    | [] => Some (of_decimal negative m (- n2))
    | a :: rest' =>
        if Ascii.eqb (lower a) "e" then
          let '(exp_negative, rest') :=
            match rest' with
            | b :: rest'' =>
                if Ascii.eqb b "-" then (true, rest'')
                else if Ascii.eqb b "+" then (false, rest'')
                else (false, rest')
            | [] => (false, rest')
            end in
          match read_digits 0 0 rest' with
          | (x, nx, []) =>
              if nx =? 0 then None
              else Some (of_decimal negative m ((if exp_negative then - x else x) - n2))
          | _ => None
          end
        else None
    end.

(** The text accepted by [float(s)], a text of ASCII characters, and its
    value. *)
Definition parse_float (s : string) : option spec_float :=
  l ← without_underscores None (list_ascii_of_string s);
  let '(negative, body) :=
    match Text.strip l with
    | a :: rest =>
        if Ascii.eqb a "-" then (true, rest)
        else if Ascii.eqb a "+" then (false, rest)
        else (false, a :: rest)
    | [] => (false, [])
    end in
  let w := word body in
  if String.eqb w "inf" || String.eqb w "infinity" then Some (S754_infinity negative)
  else if String.eqb w "nan" then Some S754_nan
  else read_decimal negative body.

(** [float(v)] *)
Definition float (v : Val) : result spec_float :=
  match v with
  | Float f => Ok f
  | Plain (VBool b) => Ok (if b then S754_finite false 4503599627370496 (-52) else S754_zero false)
  | Plain (VInt z) => of_int z
  | Plain (VStr s) =>
      match parse_float s with
      | Some f => Ok f
      | None => Raise ValueError
      end
  | Plain (VNone | VList _ | VDict _) => Raise TypeError
  end.

(** [SaltCheck._cast_expected_to_returned_type] against a returned float:
    a float is not [None], and its type is [float], not [bool]. *)
Definition _cast_expected_to_returned_type (expected : Val) (returned : spec_float)
    : result Val :=
  let new_expected := expected in
  let ret_type_is_bool := false in
  let expected :=
    if eq expected (Plain (VStr "False")) && ret_type_is_bool
    then Plain (VBool false) else expected in
  match float expected with
  | Ok f => Ok (Float f)
  | Raise ValueError => Ok new_expected
  | Raise e => Raise e
  end.

(** The float 1.5 *)
Definition one_and_a_half : spec_float := S754_finite false 6755399441055744 (-52).

End Floating.

(** ** The report of a run *)

(** The entry [TEST RESULTS] of the output list. [execution_time] is in
    ten-thousandths of a second and adds the durations exactly; the rounding
    of the binary floating point sum is outside the model. *)
Record Totals : Type := {
  execution_time : Z;
  passed : nat;
  failed : nat;
  skipped : nat;
  missing_tests : nat
}.

(** One item of the output list: the results of a state under its name, or
    the totals. *)
Inductive OutItem : Type :=
  | StateResults (state : string) (tests : list (string * SaltCheck.TestResult))
  | TestResults (totals : Totals).

Module Report.

Definition zero : Totals :=
  {| execution_time := 0; passed := 0; failed := 0; skipped := 0; missing_tests := 0 |}.

(** The body of [for dummy, val in results[state].items()] *)
Definition count_test (acc : Totals) (val : SaltCheck.TestResult) : Totals :=
  let st := SaltCheck.status val in
  {| execution_time := execution_time acc + SaltCheck.duration val;
     passed := if Text.startswith st "Pass" then S (passed acc) else passed acc;
     failed := if Text.startswith st "Fail" then S (failed acc) else failed acc;
     skipped := if Text.startswith st "Skip" then S (skipped acc) else skipped acc;
     missing_tests := missing_tests acc |}.

(** The body of [for state in results] *)
Definition count_state (acc : Totals)
    (group : string * list (string * SaltCheck.TestResult)) : Totals :=
  match snd group with
  | [] =>
      {| execution_time := execution_time acc; passed := passed acc;
         failed := failed acc; skipped := skipped acc;
         missing_tests := S (missing_tests acc) |}
  | tests => foldl count_test acc (map snd tests)
  end.

Definition count_all (results : list (string * list (string * SaltCheck.TestResult)))
    : Totals :=
  foldl count_state zero results.

(** The place of a group in a list sorted by state name: after the groups
    whose name is not greater, as a stable sort leaves it. *)
Fixpoint insert_group (g : string * list (string * SaltCheck.TestResult))
    (l : list (string * list (string * SaltCheck.TestResult)))
    : list (string * list (string * SaltCheck.TestResult)) :=
  match l with
  | [] => [g]
  | h :: t =>
      match Py.text_compare (fst g) (fst h) with
      | Lt => g :: h :: t
      | _ => h :: insert_group g t
      end
  end.

(** [sorted(out_list, key=lambda x: sorted(x.keys()))]: each item has one
    key, the name of its state. *)
Definition sort_groups (l : list (string * list (string * SaltCheck.TestResult)))
    : list (string * list (string * SaltCheck.TestResult)) :=
  foldl (fun acc g => insert_group g acc) [] l.

Definition retcode_of (t : Totals) : Z :=
  if (failed t + skipped t + missing_tests t =? 0)%nat then 0 else 1.

End Report.

(** [_generate_out_list]: the output list and the value stored under
    [__context__['retcode']]. [results] holds the items of the ordered
    dictionary of the run, each the items of the results of a state. *)
Definition _generate_out_list
    (results : list (string * list (string * SaltCheck.TestResult)))
    : list OutItem * Z :=
  let totals := Report.count_all results in
  (map (fun g => StateResults (fst g) (snd g)) (Report.sort_groups results)
     ++ [TestResults totals],
   Report.retcode_of totals).

(** ** The run of the tests of states *)

Module Run.

(** [d[k] = v] and [d.get(k)] on an ordered dictionary with text keys *)
Fixpoint oset {A : Type} (k : string) (v : A) (d : list (string * A)) : list (string * A) :=
  match d with
  | [] => [(k, v)]
  | (k', v') :: rest =>
      if String.eqb k k' then (k', v) :: rest else (k', v') :: oset k v rest
  end.

Fixpoint oget {A : Type} (k : string) (d : list (string * A)) : option A :=
  match d with
  | [] => None
  | (k', v) :: rest => if String.eqb k k' then Some v else oget k rest
  end.

(** [scheck.run_test(value)] on a value of the suite: what is not a
    dictionary has no [get]. *)
Definition run_test_value (E : Env) (value : PyVal) : result SaltCheck.TestResult :=
  match value with
  | VDict d => SaltCheck.run_test E d
  | _ => Raise AttributeError
  end.

(** The loop [for key, value in stl.test_dict.items()] *)
Fixpoint run_suite (E : Env) (tests : list (string * PyVal))
    (results_dict : list (string * SaltCheck.TestResult))
    : result (list (string * SaltCheck.TestResult)) :=
  match tests with
  | [] => Ok results_dict
  | (key, value) :: rest =>
      r ← run_test_value E value;
      run_suite E rest (oset key r results_dict)
  end.

(** The body of [for state_name in sls_list]: the loader after it and the
    results of the state. *)
Definition state_tests (E : Env) (LE : LoaderEnv) (check_all : bool)
    (stl : StateTestLoader.Loader) (state_name : string)
    : result (StateTestLoader.Loader * list (string * SaltCheck.TestResult)) :=
  stl1 ← StateTestLoader.add_test_files_for_sls LE stl state_name check_all;
  stl2 ← StateTestLoader.load_test_suite LE stl1;
  results_dict ← run_suite E (StateTestLoader.test_dict stl2) [];
  Ok (stl2, results_dict).

Fixpoint run_states (E : Env) (LE : LoaderEnv) (check_all : bool)
    (sls_list : list string) (stl : StateTestLoader.Loader)
    (results : list (string * list (string * SaltCheck.TestResult)))
    : result (list (string * list (string * SaltCheck.TestResult))) :=
  match sls_list with
  | [] => Ok results
  | state_name :: rest =>
      sr ← state_tests E LE check_all stl state_name;
      run_states E LE check_all rest (fst sr) (oset state_name (snd sr) results)
  end.

End Run.

(** [run_state_tests], given the list [salt.utils.args.split_input(state)]
    and the configured test location; the [saltenv] argument only reaches
    the constructor of [SaltCheck], which keeps it unused. *)
Definition run_state_tests (E : Env) (LE : LoaderEnv) (location : string)
    (sls_list : list string) (check_all : bool) : result (list OutItem * Z) :=
  results ← Run.run_states E LE check_all sls_list (StateTestLoader.init location) [];
  Ok (_generate_out_list results).

(** ** Further samples *)

Module Cases.

Definition unknown_function : Dict :=
  [(KStr "module_and_function", VStr "test.nope")].

Definition ping_is_true : Dict :=
  [(KStr "module_and_function", VStr "test.ping");
   (KStr "assertion", VStr "assertTrue")].

Definition unknown_module_with_expected : Dict :=
  [(KStr "module_and_function", VStr "nope.nothing");
   (KStr "assertion", VStr "assertTrue");
   (KStr "expected-return", VStr "anything")].

Definition version_at_least : Dict :=
  [(KStr "module_and_function", VStr "test.echo");
   (KStr "args", VList [VInt 3]);
   (KStr "assertion", VStr "assertGreater");
   (KStr "expected-return", VStr "5")].

(** A file server for the state [init]: its test directory holds
    [init.tst]. *)
Definition init_tst : string :=
  "/var/cache/salt/minion/files/base/init/saltcheck-tests/init.tst".

Definition init_server : LoaderEnv :=
  {| opts_pidfile := Some "/var/run/salt-minion.pid";
     opts_cachedir := "/var/cache/salt/minion";
     cp_list_states := ["init"];
     state_show_low_sls := fun sls_name => [LowDict (Some sls_name)];
     cp_cache_dir := fun sls_path saltenv =>
       match sls_path with
       | "salt://init/saltcheck-tests" => [init_tst]
       | _ => []
       end;
     read_json_texts := fun _ => None;
     read_json_low := fun _ => None;
     render_file := fun _ => Ok [];
     set_order := fun s => elements s |}.

(** The file server of [Examples.master] for the test location [tests]: of
    the test directories of the state [web.apache.config], only that of the
    top-level name space [web] has a file, [init.tst]. *)
Definition web_tests_init : string :=
  "/var/cache/salt/minion/files/base/web/tests/init.tst".

Definition custom_master : LoaderEnv :=
  {| opts_pidfile := opts_pidfile Examples.master;
     opts_cachedir := opts_cachedir Examples.master;
     cp_list_states := cp_list_states Examples.master;
     state_show_low_sls := state_show_low_sls Examples.master;
     cp_cache_dir := fun sls_path saltenv =>
       match sls_path with
       | "salt://web/tests" => [web_tests_init]
       | _ => []
       end;
     read_json_texts := read_json_texts Examples.master;
     read_json_low := read_json_low Examples.master;
     render_file := render_file Examples.master;
     set_order := set_order Examples.master |}.

(** A file server for the formula [apache], with the layout of the module
    documentation. *)
Definition apache_init : string := "/var/cache/salt/minion/files/base/apache/saltcheck-tests/init.tst".
Definition apache_config : string := "/var/cache/salt/minion/files/base/apache/saltcheck-tests/config.tst".

Definition apache_server : LoaderEnv :=
  {| opts_pidfile := Some "/var/run/salt-minion.pid";
     opts_cachedir := "/var/cache/salt/minion";
     cp_list_states := ["apache"; "apache.config"];
     state_show_low_sls := fun sls_name => [LowDict (Some sls_name)];
     cp_cache_dir := fun sls_path saltenv =>
       match sls_path with
       | "salt://apache/saltcheck-tests" => [apache_config; apache_init]
       | _ => []
       end;
     read_json_texts := fun _ => None;
     read_json_low := fun _ => None;
     render_file := fun filepath =>
       if String.eqb filepath apache_init
       then Ok [("echo_test_hello", VDict Examples.echo_test_hello)]
       else if String.eqb filepath apache_config
       then Ok [("package_latest", VDict Examples.package_latest)]
       else Raise (SaltError "no such file");
     set_order := fun s => elements s |}.

End Cases.

(** ** The entry of the execution module *)

(** [run_test] of the module, given the value of [kwargs.get('test', None)]:
    the result of the test, or the text returned for what is not a
    dictionary with items. *)
Definition run_test (E : Env) (test : PyVal) : result (SaltCheck.TestResult + string) :=
  match test with
  | VDict d =>
      if Py.truthy test then inl <$> SaltCheck.run_test E d
      else Ok (inr "Test argument must be a dictionary")
  | _ => Ok (inr "Test argument must be a dictionary")
  end.

(** ** Notions for the properties of the loader and of the report *)

Module Facts.

(** A file the file server gave for some directory of the environment of
    the loader. *)
Definition served (E : LoaderEnv) (L : StateTestLoader.Loader) (f : string) : Prop :=
  exists sls_path, (f ∈ cp_cache_dir E sls_path (StateTestLoader.saltenv L)).

(** The file [<cachedir>/files/<saltenv>/<name>.copy] *)
Definition copy_file (E : LoaderEnv) (L : StateTestLoader.Loader) (name : string) : string :=
  OsPath.join (opts_cachedir E) ["files"; StateTestLoader.saltenv L; name +:+ ".copy"].

(** A file listed in the [.copy] file that a call for the state [sls_name]
    reads on a salt-ssh minion: that of the state or, when that one cannot
    be opened, that of the parent of the state. *)
Definition sent_over (E : LoaderEnv) (L : StateTestLoader.Loader) (sls_name f : string)
    : Prop :=
  exists pidfile l,
    opts_pidfile E = Some pidfile /\
    Text.contains pidfile "running_data/var/run/salt-minion.pid" = true /\
    (read_json_texts E (copy_file E L sls_name) = Some l \/
     (read_json_texts E (copy_file E L sls_name) = None /\
      read_json_texts E
        (copy_file E L (Text.join "." (removelast (Text.split "." sls_name)))) = Some l)) /\
    f ∈ l.

(** The results of all the tests of a run, state after state. *)
Definition all_tests (results : list (string * list (string * SaltCheck.TestResult)))
    : list SaltCheck.TestResult :=
  List.concat (map (fun g => map snd (snd g)) results).

(** A state without a test. *)
Definition no_tests (g : string * list (string * SaltCheck.TestResult)) : bool :=
  match snd g with [] => true | _ => false end.

(** The order of the report: the name of the first state is not greater
    than that of the second. *)
Definition ordered (g h : string * list (string * SaltCheck.TestResult)) : Prop :=
  Py.text_compare (fst g) (fst h) <> Gt.

End Facts.

(** * Properties *)

(** ** Text and values *)

Lemma split_no_separator s :
  Spec.separators s = 0%nat -> Text.split "." s = [s].
Proof.
  induction s as [|a s IH]; simpl; [done|].
  destruct (Ascii.eqb a "."); [done|].
  intros H. by rewrite (IH H).
Qed.

Lemma split_one_separator s :
  Spec.separators s = 1%nat ->
  Text.split "." s = [Spec.namespace_of s; Spec.verb_of s].
Proof.
  induction s as [|a s IH]; simpl; [done|].
  destruct (Ascii.eqb a ".").
  - intros H. rewrite split_no_separator; [done|lia].
  - intros H. by rewrite (IH H).
Qed.

Lemma split_length s :
  List.length (Text.split "." s) = S (Spec.separators s).
Proof.
  induction s as [|a s IH]; simpl; [done|].
  destruct (Ascii.eqb a "."); simpl; [by rewrite IH|].
  destruct (Text.split "." s) as [|w ws]; simpl in *; lia.
Qed.

Lemma bind_Ok_inv {A B : Type} (m : result A) (k : A -> result B) b :
  m ≫= k = Ok b -> exists a, m = Ok a /\ k a = Ok b.
Proof. destruct m as [a|e]; simpl; [|done]. intros H. by exists a. Qed.

Lemma bind_ext {A B : Type} (m : result A) (f g : A -> result B) :
  (forall x, f x = g x) -> m ≫= f = m ≫= g.
Proof. intros H. destruct m as [x|e]; cbn; [apply H|done]. Qed.

(** [v in [names]] on a list of texts holds of those texts only. *)
Lemma mem_names v names :
  Py.mem v (map VStr names) = Spec.is_name_in v names.
Proof.
  unfold Py.mem. destruct v; simpl;
    try (induction names as [|n names IH]; simpl; [done|exact IH]).
  induction names as [|n names IH]; simpl; [done|]. by rewrite IH.
Qed.

Lemma is_name_in_elim v names :
  Spec.is_name_in v names = true -> exists s, v = VStr s /\ In s names.
Proof.
  destruct v; simpl; try done.
  intros H. apply existsb_exists in H as (n & Hin & Heq).
  apply String.eqb_eq in Heq. subst. eauto.
Qed.

Lemma required_total_threshold t :
  SaltCheck.required_total t = Spec.threshold t.
Proof.
  unfold SaltCheck.required_total, Spec.threshold, Spec.operation, Spec.assertion.
  change [VStr "saltcheck.state_apply"] with (map VStr ["saltcheck.state_apply"]).
  change [VStr "assertEmpty"; VStr "assertNotEmpty"; VStr "assertTrue"; VStr "assertFalse"]
    with (map VStr ["assertEmpty"; "assertNotEmpty"; "assertTrue"; "assertFalse"]).
  by rewrite !mem_names.
Qed.

Lemma has_char_app c a b :
  Text.has_char c (a +:+ b) = Text.has_char c a || Text.has_char c b.
Proof.
  induction a as [|x a IH]; simpl; [done|]. rewrite IH. apply orb_assoc.
Qed.

(** An operation with one separator is its namespace, the separator and
    its verb. *)
Lemma namespace_verb_join s :
  Spec.separators s = 1%nat ->
  Spec.namespace_of s +:+ "." +:+ Spec.verb_of s = s.
Proof.
  induction s as [|a s IH]; simpl; [done|].
  destruct (Ascii.eqb_spec a ".") as [->|Ha]; simpl; [done|].
  intros H.
  change (String a (Spec.namespace_of s +:+ "." +:+ Spec.verb_of s) = String a s).
  by rewrite IH.
Qed.

(** The two helpers of the validator answer by membership in the lists of
    the minion; the text put in place of a list that cannot be looked up
    has no separator, so no qualified name equals it. *)
Lemma is_valid_module_listed E s :
  _is_valid_module E (Spec.namespace_of s) = Spec.namespace_valid E (VStr s).
Proof. reflexivity. Qed.

Lemma is_valid_function_listed E s :
  Spec.separators s = 1%nat ->
  _is_valid_function E (Spec.namespace_of s) (Spec.verb_of s) = Spec.verb_valid E (VStr s).
Proof.
  intros Hsep. unfold _is_valid_function, Spec.verb_valid.
  pose proof (namespace_verb_join s Hsep) as Hjoin.
  destruct (sys_list_functions E (Spec.namespace_of s)) as [fs|]; cbv zeta.
  - by rewrite Hjoin.
  - rewrite Hjoin. simpl. rewrite orb_false_r.
    destruct (String.eqb_spec s "unable to look up functions") as [->|]; [|done].
    discriminate Hsep.
Qed.

(** The points of the operation block, for a well-formed operation. *)
Lemma m_and_f_points_well_formed E t :
  Spec.well_formed_operation t = true ->
  SaltCheck.m_and_f_points E (Spec.operation t) =
    Ok (Spec.point (Py.truthy (Spec.operation t))
        + Spec.point (Py.truthy (Spec.operation t) && Spec.namespace_valid E (Spec.operation t))
        + Spec.point (Py.truthy (Spec.operation t) && Spec.verb_valid E (Spec.operation t))).
Proof.
  unfold Spec.well_formed_operation, SaltCheck.m_and_f_points.
  destruct (Spec.operation t) as [|b|z|s|l|d] eqn:Hop.
  - done.
  - simpl. intros H. apply negb_true_iff in H. by rewrite H.
  - simpl. intros H. apply negb_true_iff in H. by rewrite H.
  - set (known_namespace := Spec.namespace_valid E (VStr s)).
    set (known_verb := Spec.verb_valid E (VStr s)).
    simpl. destruct (String.eqb s "") eqn:Hs; simpl; [done|].
    intros H. apply Nat.eqb_eq in H.
    rewrite (split_one_separator s H). simpl.
    rewrite is_valid_module_listed, (is_valid_function_listed E s H).
    fold known_namespace known_verb. unfold Spec.point.
    destruct known_namespace, known_verb; reflexivity.
  - destruct l; simpl; done.
  - destruct d; simpl; done.
Qed.

Lemma tots_well_formed E t :
  Spec.well_formed_operation t = true ->
  SaltCheck.tots E t = Ok (Spec.score E t).
Proof.
  intros Hwf. unfold SaltCheck.tots.
  fold (Spec.operation t). rewrite (m_and_f_points_well_formed E t Hwf).
  change SaltCheck.assertions_list with Spec.twelve.
  rewrite mem_names. fold (Spec.assertion t). simpl.
  unfold Spec.score, Spec.point.
  destruct (Py.get t "expected-return" VNone); reflexivity.
Qed.

Lemma is_valid_test_of_tots E t n :
  SaltCheck.tots E t = Ok n ->
  SaltCheck.__is_valid_test E t = Ok (Spec.threshold t <=? n).
Proof.
  intros Htots. unfold SaltCheck.__is_valid_test. rewrite Htots. simpl.
  by rewrite required_total_threshold.
Qed.



(** ** Operations without exactly one separator *)

Lemma score_bounds E t : 0 <= Spec.score E t <= 6.
Proof.
  unfold Spec.score, Spec.point.
  repeat match goal with |- context [if ?b then _ else _] => destruct b end; lia.
Qed.

(** A text that is not empty and does not have exactly one separator makes
    the unpacking of the split fail, whatever else the definition holds. *)
Lemma unpack_fails E t s :
  Spec.operation t = VStr s ->
  s <> EmptyString ->
  Spec.separators s <> 1%nat ->
  SaltCheck.tots E t = Raise ValueError.
Proof.
  intros Hop Hne Hsep. unfold SaltCheck.tots. fold (Spec.operation t). rewrite Hop.
  unfold SaltCheck.m_and_f_points. simpl.
  destruct (String.eqb s "") eqn:Hs; [apply String.eqb_eq in Hs; done|]. simpl.
  pose proof (split_length s) as Hlen.
  destruct (Text.split "." s) as [|a [|b [|c l]]]; simpl in *; try done.
  lia.
Qed.

(** C4. The validator does not answer false for an operation without
    exactly one separator: for [echo] and for [a.b.c] the unpacking of the
    split raises [ValueError], after the first point was given. *)
Theorem malformed_operation_raises E :
  SaltCheck.__is_valid_test E Examples.echo_no_separator = Raise ValueError /\
  SaltCheck.__is_valid_test E Examples.three_segments = Raise ValueError.
Proof.
  split; unfold SaltCheck.__is_valid_test.
  - by rewrite (unpack_fails E Examples.echo_no_separator "echo").
  - by rewrite (unpack_fails E Examples.three_segments "a.b.c").
Qed.

(** C1. The validator does not decide every definition. For the skipped
    definition with the operation [echo] the scoring rule gives the answer:
    the threshold is 0, which every score reaches, so the definition is
    valid; the validator gives no answer, the unpacking of the split raises
    [ValueError]. *)
Theorem validate_raises_where_scoring_decides E :
  Spec.threshold Examples.skipped_no_separator = 0 /\
  Spec.validate E Examples.skipped_no_separator = true /\
  SaltCheck.__is_valid_test E Examples.skipped_no_separator = Raise ValueError.
Proof.
  split; [reflexivity|]. split.
  - unfold Spec.validate. apply Z.leb_le.
    change (Spec.threshold Examples.skipped_no_separator) with 0.
    apply score_bounds.
  - unfold SaltCheck.__is_valid_test.
    by rewrite (unpack_fails E Examples.skipped_no_separator "echo").
Qed.

(** ** Skipped tests *)

(** A skipped definition with a well-formed operation gives the result
    [Skip] with the duration zero. *)
Lemma skip_well_formed E t :
  Py.truthy (Py.get t "skip" (VBool false)) = true ->
  Spec.well_formed_operation t = true ->
  SaltCheck.run_test E t =
    Ok {| SaltCheck.duration := 0; SaltCheck.module_function_args := None;
          SaltCheck.saltcheck_assertion := None; SaltCheck.status := "Skip" |}.
Proof.
  intros Hskip Hwf. unfold SaltCheck.run_test.
  rewrite (is_valid_test_of_tots E t _ (tots_well_formed E t Hwf)).
  assert (Hthr : Spec.threshold t = 0) by (unfold Spec.threshold; by rewrite Hskip).
  assert (0 <= Spec.score E t).
  { unfold Spec.score, Spec.point.
    repeat match goal with |- context [if ?b then _ else _] => destruct b end; lia. }
  rewrite Hthr. simpl. destruct (0 <=? Spec.score E t) eqn:Hle; [|lia].
  by rewrite Hskip.
Qed.

Lemma run_test_package_latest :
  SaltCheck.run_test Examples.minion Examples.package_latest =
    Ok {| SaltCheck.duration := 0; SaltCheck.module_function_args := None;
          SaltCheck.saltcheck_assertion := None; SaltCheck.status := "Skip" |}.
Proof. by apply skip_well_formed. Qed.

(** C2. A skipped definition is validated before the skip is looked at:
    with the operation [echo] the validator raises [ValueError] and
    [run_test] gives no result. *)
Theorem skip_malformed_raises E :
  Py.truthy (Py.get Examples.skipped_no_separator "skip" (VBool false)) = true /\
  SaltCheck.run_test E Examples.skipped_no_separator = Raise ValueError.
Proof.
  split; [reflexivity|].
  unfold SaltCheck.run_test, SaltCheck.__is_valid_test.
  by rewrite (unpack_fails E Examples.skipped_no_separator "echo").
Qed.

(** ** The apply alias *)

Lemma get_subscript t k v :
  Py.get t k VNone = v -> v <> VNone -> Py.subscript t k = Ok v.
Proof.
  unfold Py.get, Py.subscript. destruct (Py.dict_get (KStr k) t); simpl; congruence.
Qed.

Lemma dispatch_assert_not_empty expected actual print :
  SaltCheck.dispatch (VStr "assertNotEmpty") expected actual print =
    Ok (Some "IS NOT EMPTY:", SaltCheck.__assert_not_empty actual).
Proof. reflexivity. Qed.

Lemma keywords_named d :
  SaltCheck.keywords d =
    match Spec.named d with
    | Some kws => Ok kws
    | None => Raise TypeError
    end.
Proof.
  induction d as [|[k v] d IH]; simpl; [done|].
  destruct k as [| | |k]; try done.
  rewrite IH. by destruct (Spec.named d).
Qed.

(** The four branches of the call, as one: the positional arguments, the
    keyword arguments, the invoker, the section. *)
Lemma call_salt_command_steps E fn args kwargs section delimiter :
  SaltCheck._call_salt_command E fn args kwargs section delimiter =
    l ← (if Py.truthy args then SaltCheck.star args else Ok []);
    kws ← (if Py.truthy kwargs then SaltCheck.starstar kwargs else Ok []);
    value ← salt_lc_cmd E fn l kws;
    match value with
    | VDict d =>
        if Py.truthy section then traverse_dict_and_list E d section delimiter
        else Ok value
    | _ => Ok value
    end.
Proof.
  unfold SaltCheck._call_salt_command.
  destruct (Py.truthy args), (Py.truthy kwargs); cbn;
    try (destruct (SaltCheck.star args) as [l|e1]; cbn; [|done]);
    try (destruct (SaltCheck.starstar kwargs) as [kws|e2]; cbn; [|done]);
    done.
Qed.

Lemma positional_arguments_call t l :
  Spec.positional_arguments t = Some l ->
  (if Py.truthy (Py.get t "args" VNone) then SaltCheck.star (Py.get t "args" VNone)
   else Ok []) = Ok l.
Proof.
  unfold Spec.positional_arguments.
  destruct (Py.get t "args" VNone) as [| | | |l0|]; try done; intros [= <-]; [done|].
  by destruct l0.
Qed.

Lemma dict_set_not_empty {A : Type} k (v : A) d : Py.dict_set k v d <> [].
Proof.
  destruct d as [|[k' v'] d]; simpl; [done|]. by destruct (Py.key_eq k k').
Qed.

Lemma keyword_arguments_call t kws :
  Spec.keyword_arguments t = Some kws ->
  exists kwargs,
    SaltCheck.with_pillar (Py.get t "kwargs" VNone) (Py.get t "pillar-data" VNone) =
      Ok kwargs /\
    (if Py.truthy kwargs then SaltCheck.starstar kwargs else Ok []) = Ok kws.
Proof.
  unfold Spec.keyword_arguments, SaltCheck.with_pillar.
  destruct (Py.get t "kwargs" VNone) as [| | | | |d]; try done;
    destruct (Py.truthy (Py.get t "pillar-data" VNone)) eqn:Hp.
  - simpl. intros [= <-]. eexists. split; [reflexivity|]. reflexivity.
  - simpl. intros [= <-]. eexists. split; [reflexivity|]. reflexivity.
  - intros Hn. exists (VDict (Py.dict_set (KStr "pillar") (Py.get t "pillar-data" VNone) d)).
    split; [by destruct d|].
    pose proof (dict_set_not_empty (KStr "pillar") (Py.get t "pillar-data" VNone) d) as Hne.
    destruct (Py.dict_set _ _ d) as [|kv d'] eqn:Hset; [done|].
    simpl Py.truthy. cbv iota. unfold SaltCheck.starstar.
    by rewrite keywords_named, Hn.
  - intros Hn. destruct d as [|kv d].
    + simpl in Hn. injection Hn as <-. exists (VDict []). split; reflexivity.
    + exists (VDict (Py.dict_del (KStr "pillar") (kv :: d))). split; [reflexivity|].
      destruct (Py.dict_del (KStr "pillar") (kv :: d)) as [|kv' d'] eqn:Hdel.
      * simpl in Hn. injection Hn as <-. reflexivity.
      * simpl Py.truthy. cbv iota. unfold SaltCheck.starstar.
        by rewrite keywords_named, Hn.
Qed.

(** What [run_test] does for a valid definition of the apply alias that is
    not skipped. *)
Lemma run_test_apply_alias E t :
  Spec.operation t = VStr "saltcheck.state_apply" ->
  Py.truthy (Py.get t "skip" (VBool false)) = false ->
  SaltCheck.__is_valid_test E t = Ok true ->
  SaltCheck.run_test E t =
    kwargs ← SaltCheck.with_pillar (Py.get t "kwargs" VNone) (Py.get t "pillar-data" VNone);
    actual ← SaltCheck._call_salt_command E (VStr "saltcheck.state_apply")
               (Py.get t "args" VNone) kwargs (Py.get t "assertion_section" VNone)
               (Py.get t "assertion_section_delimiter" (VStr DEFAULT_TARGET_DELIM));
    SaltCheck.finish E
      (Some (VStr "saltcheck.state_apply", Py.get t "args" VNone,
             Py.get t "assertion_section" VNone))
      (Some (Py.get t "expected-return" VNone, actual)) (Some "IS NOT EMPTY:")
      (if Py.truthy actual then "Pass" else "Fail: value is empty").
Proof.
  intros Hop Hskip Hvalid. unfold SaltCheck.run_test. rewrite Hvalid. cbn.
  rewrite Hskip.
  rewrite (get_subscript t "module_and_function" _ Hop) by done. cbn.
  apply bind_ext. intros kwargs. apply bind_ext. intros actual.
  cbn. unfold SaltCheck.__assert_not_empty, SaltCheck.verdict.
  by destruct (Py.truthy actual).
Qed.

(** C3. For a definition that is not skipped and whose operation is the
    apply alias, the validator asks for a score of at least 2. Whenever
    [run_test] gives a result, the score is at least 2, the invoker was
    called with the apply alias (with the arguments and the keyword
    arguments of the definition, the pillar data among them, where these
    are a sequence and a mapping with text keys), and the status is [Pass]
    when the value judged, which is what the invoker returned or the
    section asked of it, is not empty, and [Fail: value is empty] when it
    is; the assertion the definition declares plays no part. Conversely,
    with a score of at least 2, a call of the invoker that returns makes
    [run_test] give a result with that status. *)
Theorem apply_alias_asserts_not_empty E t :
  Spec.operation t = VStr "saltcheck.state_apply" ->
  Py.truthy (Py.get t "skip" (VBool false)) = false ->
  SaltCheck.required_total t = 2 /\
  SaltCheck.__is_valid_test E t = Ok (2 <=? Spec.score E t) /\
  (forall r,
     SaltCheck.run_test E t = Ok r ->
     2 <= Spec.score E t /\
     exists args kws value actual,
       salt_lc_cmd E (VStr "saltcheck.state_apply") args kws = Ok value /\
       Spec.judged E t value = Ok actual /\
       (forall l, Spec.positional_arguments t = Some l -> args = l) /\
       (forall k, Spec.keyword_arguments t = Some k -> kws = k) /\
       SaltCheck.status r = if Py.truthy actual then "Pass" else "Fail: value is empty") /\
  (forall args kws value actual,
     2 <= Spec.score E t ->
     Spec.positional_arguments t = Some args ->
     Spec.keyword_arguments t = Some kws ->
     salt_lc_cmd E (VStr "saltcheck.state_apply") args kws = Ok value ->
     Spec.judged E t value = Ok actual ->
     exists r,
       SaltCheck.run_test E t = Ok r /\
       SaltCheck.status r = if Py.truthy actual then "Pass" else "Fail: value is empty").
Proof.
  intros Hop Hskip.
  assert (Hwf : Spec.well_formed_operation t = true)
    by (unfold Spec.well_formed_operation; by rewrite Hop).
  assert (Hthr : Spec.threshold t = 2)
    by (unfold Spec.threshold; by rewrite Hskip, Hop).
  pose proof (required_total_threshold t) as Hreq.
  pose proof (is_valid_test_of_tots E t _ (tots_well_formed E t Hwf)) as Hvalid.
  rewrite Hthr in Hreq, Hvalid.
  split; [exact Hreq|]. split; [exact Hvalid|]. split.
  - intros r Hr.
    destruct (2 <=? Spec.score E t) eqn:Hle.
    2:{ unfold SaltCheck.run_test in Hr. rewrite Hvalid in Hr. discriminate Hr. }
    split; [by apply Z.leb_le|].
    rewrite (run_test_apply_alias E t Hop Hskip Hvalid) in Hr.
    apply bind_Ok_inv in Hr as (kwargs & Hkwargs & Hr).
    apply bind_Ok_inv in Hr as (actual & Hcall & Hr).
    rewrite call_salt_command_steps in Hcall.
    apply bind_Ok_inv in Hcall as (l & Hl & Hcall).
    apply bind_Ok_inv in Hcall as (kws & Hkws & Hcall).
    apply bind_Ok_inv in Hcall as (value & Hvalue & Hsection).
    exists l, kws, value, actual.
    split; [exact Hvalue|]. split; [exact Hsection|]. split; [|split].
    + intros l' Hl'. apply positional_arguments_call in Hl'. congruence.
    + intros k Hk. apply keyword_arguments_call in Hk as (kwargs' & Hkwargs' & Hk).
      rewrite Hkwargs in Hkwargs'. injection Hkwargs' as <-.
      rewrite Hkws in Hk. by injection Hk.
    + by injection Hr as <-.
  - intros args kws value actual Hscore Hargs Hkwargs Hvalue Hsection.
    apply Z.leb_le in Hscore. rewrite Hscore in Hvalid.
    rewrite (run_test_apply_alias E t Hop Hskip Hvalid).
    apply keyword_arguments_call in Hkwargs as (kwargs & -> & Hkws). cbn.
    rewrite call_salt_command_steps.
    rewrite (positional_arguments_call t args Hargs). cbn.
    rewrite Hkws. cbn. rewrite Hvalue. cbn.
    unfold Spec.judged in Hsection. rewrite Hsection. cbn.
    eexists. split; reflexivity.
Qed.

Lemma apply_alias_asserts_not_empty_witness :
  exists r, SaltCheck.run_test Examples.minion Examples.setup_test_environment = Ok r /\
            SaltCheck.status r = "Pass".
Proof.
  destruct (apply_alias_asserts_not_empty Examples.minion Examples.setup_test_environment
              eq_refl eq_refl) as (_ & _ & _ & H).
  apply (H [VStr "common"] [("pillar", VDict [(KStr "data", VStr "value")])]
           (VDict [(KStr "common", VBool true)]) (VDict [(KStr "common", VBool true)]));
    [vm_compute; discriminate|reflexivity|reflexivity|reflexivity|reflexivity].
Defined.

(** ** The assertion of a valid definition *)

Lemma m_and_f_points_cases E v p :
  SaltCheck.m_and_f_points E v = Ok p ->
  (Py.truthy v = false /\ p = 0) \/
  (Py.truthy v = true /\ 1 <= p <= 3 /\ exists s, v = VStr s).
Proof.
  unfold SaltCheck.m_and_f_points.
  destruct (Py.truthy v) eqn:Htr; [|intros [= <-]; by left].
  destruct v as [|b|z|s|l|d]; simpl; try done.
  destruct (SaltCheck.unpack2 (Text.split "." s)) as [[m f]|e]; simpl; [|done].
  intros [= <-]. right. split; [done|]. split; [|by eexists].
  destruct (_is_valid_module E m), (_is_valid_function E m f); lia.
Qed.

Lemma tots_cases E t n :
  SaltCheck.tots E t = Ok n ->
  exists p, SaltCheck.m_and_f_points E (Spec.operation t) = Ok p /\
    n = p + Spec.point (Spec.is_name_in (Spec.assertion t) Spec.twelve)
          + Spec.point (Py.has_key (KStr "expected-return") t)
          + Spec.point (match Py.get t "expected-return" VNone with VNone => false | _ => true end).
Proof.
  unfold SaltCheck.tots. fold (Spec.operation t) (Spec.assertion t).
  change SaltCheck.assertions_list with Spec.twelve. rewrite mem_names.
  destruct (SaltCheck.m_and_f_points E (Spec.operation t)) as [p|e]; simpl; [|done].
  intros [= <-]. exists p. split; [done|].
  unfold Spec.point. destruct (Py.get t "expected-return" VNone); reflexivity.
Qed.

Lemma verdict_not_bad c m : SaltCheck.verdict c m <> "Fail - bad assertion".
Proof. destruct c; simpl; discriminate. Qed.

(** Each of the twelve names reaches a branch that binds the description
    and gives a verdict. *)
Lemma dispatch_supported a expected actual print dv :
  In a Spec.twelve ->
  SaltCheck.dispatch (VStr a) expected actual print = Ok dv ->
  exists desc c m, dv = (Some desc, SaltCheck.verdict c m).
Proof.
  intros Hin. simpl in Hin.
  repeat (destruct Hin as [<-|Hin]; [|]); try done;
    unfold SaltCheck.dispatch; simpl;
    unfold SaltCheck.__assert_equal, SaltCheck.__assert_not_equal,
      SaltCheck.__assert_true, SaltCheck.__assert_false, SaltCheck.__assert_in,
      SaltCheck.__assert_not_in, SaltCheck.__assert_greater,
      SaltCheck.__assert_greater_equal, SaltCheck.__assert_less,
      SaltCheck.__assert_less_equal, SaltCheck.__assert_empty,
      SaltCheck.__assert_not_empty;
    repeat match goal with
           | |- context [Py.contains ?x ?y] => destruct (Py.contains x y); simpl
           | |- context [Py.gt ?x ?y] => destruct (Py.gt x y); simpl
           | |- context [Py.ge ?x ?y] => destruct (Py.ge x y); simpl
           | |- context [Py.lt ?x ?y] => destruct (Py.lt x y); simpl
           | |- context [Py.le ?x ?y] => destruct (Py.le x y); simpl
           | |- context [if Py.truthy print then _ else _] => destruct (Py.truthy print)
           end;
    try done; intros [= <-]; eauto.
Qed.

Lemma twelve_of_four a :
  In a ["assertEmpty"; "assertNotEmpty"; "assertTrue"; "assertFalse"] -> In a Spec.twelve.
Proof. simpl. intuition. Qed.

(** The two look-ups of [run_test] succeed on a valid definition that is
    not skipped, and the assertion found is one of the twelve. *)
Lemma valid_lookups E t :
  SaltCheck.__is_valid_test E t = Ok true ->
  Py.truthy (Py.get t "skip" (VBool false)) = false ->
  exists mf a,
    Py.subscript t "module_and_function" = Ok mf /\
    SaltCheck.effective_assertion t mf = Ok (VStr a) /\
    In a Spec.twelve /\
    (Spec.is_name_in mf ["saltcheck.state_apply"] = true -> a = "assertNotEmpty").
Proof.
  intros Hvalid Hskip. unfold SaltCheck.__is_valid_test in Hvalid.
  rewrite required_total_threshold in Hvalid.
  destruct (SaltCheck.tots E t) as [n|e] eqn:Htots; simpl in Hvalid; [|done].
  injection Hvalid as Hle. apply Z.leb_le in Hle.
  apply tots_cases in Htots as (p & Hp & ->).
  apply m_and_f_points_cases in Hp.
  unfold Spec.threshold in Hle. rewrite Hskip in Hle.
  unfold SaltCheck.effective_assertion.
  change [VStr "saltcheck.state_apply"] with (map VStr ["saltcheck.state_apply"]).
  destruct (Spec.is_name_in (Spec.operation t) ["saltcheck.state_apply"]) eqn:Halias.
  - (* the apply alias *)
    destruct (is_name_in_elim _ _ Halias) as (s & Hs & Hin).
    exists (VStr s), "assertNotEmpty".
    rewrite (get_subscript t "module_and_function" (VStr s)) by done.
    rewrite mem_names. rewrite Hs in Halias. rewrite Halias.
    repeat split; simpl; tauto.
  - assert (Hpresent : exists s, Spec.operation t = VStr s).
    { destruct Hp as [[_ ->]|(_ & _ & Hs)]; [|exact Hs].
      revert Hle. unfold Spec.point.
      repeat match goal with |- context [if ?b then _ else _] => destruct b end; lia. }
    destruct Hpresent as (s & Hs).
    assert (Hname : Spec.is_name_in (Spec.assertion t) Spec.twelve = true).
    { destruct (Spec.is_name_in (Spec.assertion t)
                  ["assertEmpty"; "assertNotEmpty"; "assertTrue"; "assertFalse"]) eqn:Hfour.
      - destruct (is_name_in_elim _ _ Hfour) as (a & Ha & Hin). rewrite Ha.
        unfold Spec.is_name_in.
        apply existsb_exists. exists a. split; [by apply twelve_of_four|apply String.eqb_refl].
      - destruct (Spec.is_name_in (Spec.assertion t) Spec.twelve); [done|].
        revert Hle. unfold Spec.point.
        destruct Hp as [[_ ->]|(_ & Hb & _)];
          repeat match goal with |- context [if ?b then _ else _] => destruct b end; lia. }
    destruct (is_name_in_elim _ _ Hname) as (a & Ha & Hin).
    exists (VStr s), a.
    rewrite (get_subscript t "module_and_function" (VStr s)) by done.
    rewrite mem_names. rewrite Hs in Halias. rewrite Halias.
    rewrite (get_subscript t "assertion" (VStr a)) by done.
    repeat split; [done|]. intros H. congruence.
Qed.

(** C10. For a definition that passes the validator and is not skipped, the
    two look-ups of [run_test] succeed, the assertion evaluated is one of the
    twelve supported names ([assertNotEmpty] for the apply alias), the
    dispatch on it binds a description and gives a verdict, and no result of
    [run_test] has the status of the bad-assertion branch. *)
Theorem valid_test_assertion_supported E t :
  SaltCheck.__is_valid_test E t = Ok true ->
  Py.truthy (Py.get t "skip" (VBool false)) = false ->
  (exists mf a,
     Py.subscript t "module_and_function" = Ok mf /\
     SaltCheck.effective_assertion t mf = Ok (VStr a) /\
     In a SaltCheck.assertions_list /\
     (Spec.is_name_in mf ["saltcheck.state_apply"] = true -> a = "assertNotEmpty") /\
     forall expected actual print dv,
       SaltCheck.dispatch (VStr a) expected actual print = Ok dv ->
       exists desc, fst dv = Some desc /\ snd dv <> "Fail - bad assertion") /\
  (forall r, SaltCheck.run_test E t = Ok r ->
             SaltCheck.status r <> "Fail - bad assertion").
Proof.
  intros Hvalid Hskip.
  destruct (valid_lookups E t Hvalid Hskip) as (mf & a & Hmf & Ha & Hin & Halias).
  split.
  - exists mf, a. repeat split; try done.
    intros expected actual print dv Hdv.
    destruct (dispatch_supported _ _ _ _ _ Hin Hdv) as (desc & c & m & ->).
    exists desc. split; [done|apply verdict_not_bad].
  - intros r. unfold SaltCheck.run_test. rewrite Hvalid. simpl. rewrite Hskip, Hmf. simpl.
    destruct (SaltCheck.with_pillar _ _) as [kwargs|e]; simpl; [|done].
    rewrite Ha. simpl.
    destruct (SaltCheck._call_salt_command _ _ _ _ _ _) as [actual|e]; simpl; [|done].
    match goal with
    | |- context [if ?b then ?x else ?y] => destruct (if b then x else y) as [expected|e]
    end; simpl; [|done].
    destruct (SaltCheck.dispatch _ _ _ _) as [dv|e] eqn:Hdv; simpl; [|done].
    destruct (dispatch_supported _ _ _ _ _ Hin Hdv) as (desc & c & m & ->). simpl.
    intros [= <-]. simpl. apply verdict_not_bad.
Qed.

Lemma valid_test_assertion_supported_witness :
  exists r, SaltCheck.run_test Examples.minion Examples.echo_test_hello = Ok r /\
            SaltCheck.status r = "Pass" /\
            SaltCheck.status r <> "Fail - bad assertion".
Proof.
  eexists. split; [reflexivity|]. split; [reflexivity|].
  apply (proj2 (valid_test_assertion_supported Examples.minion Examples.echo_test_hello
                  eq_refl eq_refl)).
  reflexivity.
Defined.

(** ** The cast of the expected value *)

(** C7, as amended. When the construction of a value of the type of the
    returned value fails with [ValueError], the cast gives back the expected
    value unchanged and raises nothing. *)
Theorem cast_value_error_keeps_expected expected returned :
  Py.construct (Py.type_of returned) expected = Raise ValueError ->
  SaltCheck._cast_expected_to_returned_type expected returned = Ok expected.
Proof.
  unfold SaltCheck._cast_expected_to_returned_type.
  destruct returned; simpl Py.type_of; try done;
    simpl Py.type_eqb; rewrite ?andb_false_r;
    try (intros ->; reflexivity).
Qed.

Lemma cast_value_error_keeps_expected_witness :
  SaltCheck._cast_expected_to_returned_type (VStr "abc") (VInt 5) = Ok (VStr "abc").
Proof.
  apply (cast_value_error_keeps_expected (VStr "abc") (VInt 5)). reflexivity.
Defined.

(** On an expected value that is a text the cast raises nothing: the
    construction of a value from a text fails with [ValueError] only. *)
Lemma cast_text_total s returned :
  exists v, SaltCheck._cast_expected_to_returned_type (VStr s) returned = Ok v.
Proof.
  unfold SaltCheck._cast_expected_to_returned_type.
  destruct returned as [|b|z|t|l|d]; simpl Py.type_of; simpl Py.type_eqb;
    rewrite ?andb_false_r; try (eexists; reflexivity).
  - simpl. destruct (Text.parse_int s); eexists; reflexivity.
  - destruct s as [|a s]; by eexists.
Qed.

(** C7, as first stated, fails: the construction of an integer from a list
    fails with [TypeError], which the cast does not catch. *)
Lemma cast_type_error_escapes :
  Py.construct (Py.type_of (VInt 5)) (VList [VInt 1]) = Raise TypeError /\
  SaltCheck._cast_expected_to_returned_type (VList [VInt 1]) (VInt 5) = Raise TypeError /\
  ~ (forall expected returned e,
       Py.construct (Py.type_of returned) expected = Raise e ->
       SaltCheck._cast_expected_to_returned_type expected returned = Ok expected).
Proof.
  split; [reflexivity|]. split; [reflexivity|].
  intros H. specialize (H (VList [VInt 1]) (VInt 5) TypeError eq_refl). discriminate H.
Qed.

(** A value built by the call of a type is left as it is by a second call
    of that type. *)
Lemma construct_idempotent ty v w :
  Py.construct ty v = Ok w -> Py.construct ty w = Ok w.
Proof.
  destruct ty; simpl.
  - done.
  - intros [= <-]. simpl. done.
  - destruct v as [|b|z|s|l|d]; try done.
    + intros [= <-]. done.
    + intros [= <-]. done.
    + destruct (Text.parse_int s); [|done]. intros [= <-]. done.
  - intros [= <-]. done.
  - destruct v as [|b|z|s|l|d]; try done; intros [= <-]; done.
  - destruct v as [|b|z|s|l|d]; try done.
    + destruct (Py.dict_of [] _) as [d|e]; simpl; [|done]. intros [= <-]. done.
    + destruct (Py.dict_of [] l) as [d|e]; simpl; [|done]. intros [= <-]. done.
    + intros [= <-]. done.
Qed.

(** When the cast of the expected value gives a value, the cast of that
    value against the same returned value gives it again. *)
Lemma cast_again expected returned once :
  SaltCheck._cast_expected_to_returned_type expected returned = Ok once ->
  SaltCheck._cast_expected_to_returned_type once returned = Ok once.
Proof.
  unfold SaltCheck._cast_expected_to_returned_type.
  destruct returned as [|b|z|s|l|d]; simpl Py.type_of; simpl Py.type_eqb;
    rewrite ?andb_false_r, ?andb_true_r.
  - by intros [= <-].
  - simpl. intros [= <-]. simpl. by destruct (Py.truthy _).
  - destruct (Py.construct TInt expected) as [w|e] eqn:Hc.
    + intros [= <-]. by rewrite (construct_idempotent _ _ _ Hc).
    + destruct e; try done; intros [= <-]; by rewrite Hc.
  - destruct (Py.construct TStr expected) as [w|e] eqn:Hc.
    + intros [= <-]. by rewrite (construct_idempotent _ _ _ Hc).
    + destruct e; try done; intros [= <-]; by rewrite Hc.
  - destruct (Py.construct TList expected) as [w|e] eqn:Hc.
    + intros [= <-]. by rewrite (construct_idempotent _ _ _ Hc).
    + destruct e; try done; intros [= <-]; by rewrite Hc.
  - destruct (Py.construct TDict expected) as [w|e] eqn:Hc.
    + intros [= <-]. by rewrite (construct_idempotent _ _ _ Hc).
    + destruct e; try done; intros [= <-]; by rewrite Hc.
Qed.

(** ** assertFalse *)

Lemma run_test_apache2_latest E :
  _is_valid_module E "pkg" = true ->
  _is_valid_function E "pkg" "upgrade_available" = true ->
  salt_lc_cmd E (VStr "pkg.upgrade_available") [VStr "apache2"] [] = Ok (VBool true) ->
  exists r, SaltCheck.run_test E Examples.test_apache2_latest = Ok r /\
            SaltCheck.status r = "Fail: True not False".
Proof.
  intros Hm Hf Hcmd.
  unfold SaltCheck.run_test, SaltCheck.__is_valid_test, SaltCheck.tots,
    SaltCheck.m_and_f_points.
  cbn. rewrite Hm, Hf. cbn.
  unfold SaltCheck._call_salt_command. cbn. rewrite Hcmd. cbn.
  eexists. split; reflexivity.
Qed.

(** C9. [assertFalse] passes exactly when the actual value, a text being
    first turned into its truth value, is the boolean false; otherwise the
    status is [Fail: ] followed by that value and [ not False]. Against an
    actual [True] the status is [Fail: True not False], also as the status
    of [run_test] against a caller that returns [True]. *)
Theorem assert_false_contract actual :
  (SaltCheck.__assert_false actual = "Pass" <-> Spec.as_boolean actual = VBool false) /\
  (Spec.as_boolean actual <> VBool false ->
   SaltCheck.__assert_false actual =
     "Fail: " +:+ Py.str (Spec.as_boolean actual) +:+ " not False") /\
  SaltCheck.__assert_false (VBool true) = "Fail: True not False" /\
  (forall E,
     _is_valid_module E "pkg" = true ->
     _is_valid_function E "pkg" "upgrade_available" = true ->
     salt_lc_cmd E (VStr "pkg.upgrade_available") [VStr "apache2"] [] = Ok (VBool true) ->
     exists r, SaltCheck.run_test E Examples.test_apache2_latest = Ok r /\
               SaltCheck.status r = "Fail: True not False").
Proof.
  split; [|split; [|split; [reflexivity|apply run_test_apache2_latest]]].
  - unfold SaltCheck.__assert_false, SaltCheck.verdict.
    destruct actual as [|[|]|z|s|l|d]; simpl; try (split; discriminate); try done.
    destruct (String.eqb s ""); simpl; split; done.
  - unfold SaltCheck.__assert_false, SaltCheck.verdict.
    destruct actual as [|[|]|z|s|l|d]; simpl; try done.
    destruct (String.eqb s ""); simpl; done.
Qed.

Lemma assert_false_contract_witness :
  SaltCheck.__assert_false (VStr "no") = "Fail: True not False" /\
  exists r, SaltCheck.run_test Examples.minion Examples.test_apache2_latest = Ok r /\
            SaltCheck.status r = "Fail: True not False".
Proof.
  split.
  - apply (proj1 (proj2 (assert_false_contract (VStr "no")))). discriminate.
  - apply (proj2 (proj2 (proj2 (assert_false_contract VNone))) Examples.minion);
      reflexivity.
Defined.

(** ** The load of a suite *)

Section Load.

Import StateTestLoader.

Lemma od_get_od_set name k v d :
  od_get name (od_set k v d) = if String.eqb name k then Some v else od_get name d.
Proof.
  induction d as [|[k' v'] d IH]; simpl.
  - done.
  - destruct (String.eqb_spec k k') as [->|Hkk']; simpl.
    + by destruct (String.eqb name k').
    + rewrite IH. destruct (String.eqb_spec name k') as [->|Hnk'].
      * destruct (String.eqb_spec k' k); [congruence|done].
      * done.
Qed.

Lemma keys_od_set x k v d :
  x ∈ map fst (od_set k v d) -> x = k \/ x ∈ map fst d.
Proof.
  induction d as [|[k' v'] d IH]; simpl.
  - intros H. apply list_elem_of_singleton in H. by left.
  - destruct (String.eqb k k'); simpl.
    + by right.
    + intros H. apply elem_of_cons in H as [->|H].
      * right. apply elem_of_cons. by left.
      * destruct (IH H) as [->|Hin]; [by left|].
        right. apply elem_of_cons. by right.
Qed.

Lemma NoDup_od_set k v d :
  NoDup (map fst d) -> NoDup (map fst (od_set k v d)).
Proof.
  induction d as [|[k' v'] d IH]; simpl.
  - intros _. apply NoDup_singleton.
  - intros Hnd. apply NoDup_cons in Hnd as [Hnotin Hnd].
    destruct (String.eqb_spec k k') as [->|Hkk']; simpl.
    + apply NoDup_cons. done.
    + apply NoDup_cons. split; [|by apply IH].
      intros Hin. apply keys_od_set in Hin as [->|Hin]; done.
Qed.

Lemma merge_lookup name items td :
  od_get name (merge td items) =
    match Spec.file_def name items with
    | Some v => Some v
    | None => od_get name td
    end.
Proof.
  unfold merge. revert td.
  induction items as [|[k v] items IH]; intros td; simpl; [done|].
  rewrite IH, od_get_od_set.
  destruct (Spec.file_def name items); [done|].
  by destruct (String.eqb name k).
Qed.

Lemma merge_NoDup items td :
  NoDup (map fst td) -> NoDup (map fst (merge td items)).
Proof.
  unfold merge. revert td.
  induction items as [|[k v] items IH]; intros td Hnd; simpl; [done|].
  apply IH. by apply NoDup_od_set.
Qed.

Lemma load_files_last_wins E files rendered td :
  Forall2 (fun f items => render_file E f = Ok items) files rendered ->
  NoDup (map fst td) ->
  exists td',
    load_files E td files = Ok td' /\
    NoDup (map fst td') /\
    forall name,
      od_get name td' =
        match Spec.last_def name rendered with
        | Some v => Some v
        | None => od_get name td
        end.
Proof.
  intros Hren. revert td.
  induction Hren as [|f items files rendered Hf Hren IH]; intros td Hnd; simpl.
  - by exists td.
  - unfold _load_file_salt_rendered. rewrite Hf. simpl.
    destruct (IH (merge td items) (merge_NoDup items td Hnd)) as (td' & Hload & Hnd' & Hget).
    exists td'. split; [done|]. split; [done|].
    intros name. rewrite Hget, merge_lookup.
    by destruct (Spec.last_def name rendered).
Qed.

Lemma iteration_elem E s f : f ∈ iteration E s <-> f ∈ s.
Proof.
  unfold iteration. rewrite elem_of_app, elem_of_remove_dups, !list_elem_of_filter,
    elem_of_remove_dups, list_elem_of_filter, elem_of_elements.
  split; [tauto|]. intros Hf.
  destruct (decide (f ∈ set_order E s)); tauto.
Qed.

Lemma iteration_NoDup E s : NoDup (iteration E s).
Proof.
  unfold iteration. apply NoDup_app. split; [apply NoDup_remove_dups|]. split.
  - intros f Hf Hf'. apply list_elem_of_filter in Hf' as [Hf' _]. done.
  - apply NoDup_filter, NoDup_elements.
Qed.

Lemma iteration_empty E : iteration E ∅ = [].
Proof.
  pose proof (iteration_elem E ∅) as H.
  destruct (iteration E ∅) as [|f l]; [done|].
  exfalso. apply (not_elem_of_empty (C := gset string) f), H, elem_of_cons. by left.
Qed.

(** C6. A load goes through every file of the set once, in the order of the
    process. When every file renders, the load gives one ordered mapping in
    which no name occurs twice and in which each name has the definition of
    the last file, in that order of processing, that defines it; and
    whenever a load returns, the file set of the loader is empty. *)
Theorem load_last_wins E L :
  (NoDup (iteration E (test_files L)) /\
   forall f, f ∈ iteration E (test_files L) <-> f ∈ test_files L) /\
  (forall L', load_test_suite E L = Ok L' -> test_files L' = ∅) /\
  (forall rendered,
     Forall2 (fun f items => render_file E f = Ok items)
             (iteration E (test_files L)) rendered ->
     exists L',
       load_test_suite E L = Ok L' /\
       test_files L' = ∅ /\
       NoDup (map fst (test_dict L')) /\
       forall name, od_get name (test_dict L') = Spec.last_def name rendered).
Proof.
  split; [split; [apply iteration_NoDup|apply iteration_elem]|]. split.
  - intros L'. unfold load_test_suite.
    destruct (load_files E [] _) as [td|e]; simpl; [|done]. by intros [= <-].
  - intros rendered Hren. unfold load_test_suite.
    destruct (load_files_last_wins E _ _ [] Hren) as (td & Hload & Hnd & Hget);
      [apply NoDup_nil_2|].
    rewrite Hload. simpl. eexists. split; [done|]. simpl.
    split; [done|]. split; [done|].
    intros name. rewrite Hget. by destruct (Spec.last_def name rendered).
Qed.

End Load.

Lemma load_last_wins_witness :
  (exists L',
     StateTestLoader.load_test_suite Examples.master Examples.two_files = Ok L' /\
     StateTestLoader.od_get "t1" (StateTestLoader.test_dict L') = Some Examples.t1_second) /\
  (exists L',
     StateTestLoader.load_test_suite Examples.master_reversed Examples.two_files = Ok L' /\
     StateTestLoader.od_get "t1" (StateTestLoader.test_dict L') = Some Examples.t1_first).
Proof.
  split.
  - destruct (proj2 (proj2 (load_last_wins Examples.master Examples.two_files))
                [[("t1", Examples.t1_first); ("t2", VNone)]; [("t1", Examples.t1_second)]])
      as (L' & Hload & _ & _ & Hget).
    + vm_compute. repeat constructor.
    + exists L'. split; [exact Hload|]. rewrite Hget. reflexivity.
  - destruct (proj2 (proj2 (load_last_wins Examples.master_reversed Examples.two_files))
                [[("t1", Examples.t1_second)]; [("t1", Examples.t1_first); ("t2", VNone)]])
      as (L' & Hload & _ & _ & Hget).
    + vm_compute. repeat constructor.
    + exists L'. split; [exact Hload|]. rewrite Hget. reflexivity.
Defined.


(** ** The resolution of the test files of a state *)

Section Resolve.

Import StateTestLoader.




(** The directories asked for by one item of the low data are among the
    three candidates, in their order; every request but the last gave no
    file, and a result that is not empty is that of the last request. *)
Lemma fallback_requests E L sls sc :
  exists reqs,
    cache_requests (snd (fallback E L sls sc)) = cache_requests sc ++ reqs /\
    map snd reqs `sublist_of` Spec.candidates (saltcheck_test_location L) sls /\
    (forall r, r ∈ removelast reqs -> cp_cache_dir E (snd r) (saltenv L) = []) /\
    (forall r, fst (fallback E L sls sc) <> [] ->
               last reqs = Some r ->
               cp_cache_dir E (snd r) (saltenv L) = fst (fallback E L sls sc)).
Proof.
  unfold fallback, Spec.candidates, probe.
  repeat match goal with
         | |- context [strs_mem ?x ?l] => destruct (strs_mem x l) eqn:?; simpl
         | |- context [nonempty ?l] => let H := fresh "Hne" in destruct l eqn:H; simpl
         end;
    (eexists; split; [rewrite <- ?app_assoc; try reflexivity; symmetry; apply app_nil_r|]);
    simpl;
    (split; [repeat first [apply sublist_nil | apply sublist_skip | apply sublist_cons]|]);
    (split;
     [ intros r Hr;
       repeat (apply elem_of_cons in Hr as [->|Hr]; [assumption|]);
       by apply elem_of_nil in Hr
     | intros r Hret Hlast; first [done | by injection Hlast as <-] ]).
Qed.

Lemma remove_first_length x l l' :
  remove_first x l = Some l' -> S (List.length l') = List.length l.
Proof.
  revert l'. induction l as [|y l IH]; intros l'; simpl; [done|].
  destruct (String.eqb x y); [by intros [= <-]|].
  destruct (remove_first x l) as [l0|]; simpl; [|done].
  intros [= <-]. simpl. by rewrite (IH l0).
Qed.

Lemma remove_first_subset x l l' y :
  remove_first x l = Some l' -> y ∈ l' -> y ∈ l.
Proof.
  revert l'. induction l as [|z l IH]; intros l'; simpl; [done|].
  destruct (String.eqb x z).
  - intros [= <-] Hy. apply elem_of_cons. by right.
  - destruct (remove_first x l) as [l0|]; simpl; [|done].
    intros [= <-] Hy. apply elem_of_cons in Hy as [->|Hy]; apply elem_of_cons;
      [by left|right; by apply (IH l0)].
Qed.

Lemma match_names_length names file pool fs pool' fs' :
  match_names names file pool fs = Ok (pool', fs') ->
  (List.length pool' <= List.length pool)%nat.
Proof.
  revert pool fs. induction names as [|n names IH]; intros pool fs; simpl.
  - intros [= <- <-]. lia.
  - destruct (Text.endswith file n); [|apply IH].
    destruct (remove_first file pool) as [pool0|] eqn:Hrm; [|done].
    intros H. apply IH in H. apply remove_first_length in Hrm. lia.
Qed.

(** The fuel of the matching loop is enough: from a length of the list
    that the fuel covers, more fuel changes nothing. *)
Lemma match_loop_fuel fuel names i pool fs k :
  (List.length pool <= i + fuel)%nat ->
  match_loop (fuel + k) names i pool fs = match_loop fuel names i pool fs.
Proof.
  revert i pool fs. induction fuel as [|fuel IH]; intros i pool fs Hlen; simpl.
  - destruct k; simpl; [done|].
    rewrite (lookup_ge_None_2 pool i) by lia. done.
  - destruct (pool !! i) as [file|]; [|done].
    destruct (match_names names file pool fs) as [[pool' fs']|e] eqn:Hm; simpl; [|done].
    apply IH. apply match_names_length in Hm. lia.
Qed.

(** A file enters the set in the inner loop only when its path ends in one
    of the names. *)
Lemma match_names_sound names file pool fs pool' fs' :
  match_names names file pool fs = Ok (pool', fs') ->
  (forall x, x ∈ pool' -> x ∈ pool) /\
  (forall f, f ∈ fs' ->
             f ∈ fs \/ (f = file /\ exists n, n ∈ names /\ Text.endswith file n = true)).
Proof.
  revert pool fs. induction names as [|n names IH]; intros pool fs; simpl.
  - intros [= <- <-]. split; [done|]. intros f Hf. by left.
  - destruct (Text.endswith file n) eqn:Hend.
    + destruct (remove_first file pool) as [pool0|] eqn:Hrm; [|done].
      intros H. apply IH in H as [Hpool Hfs]. split.
      * intros x Hx. eapply remove_first_subset; [exact Hrm|]. by apply Hpool.
      * intros f Hf. destruct (Hfs f Hf) as [Hin|(-> & m & Hm & Hmend)].
        -- apply elem_of_union in Hin as [Hin|Hin]; [|by left].
           apply elem_of_singleton in Hin as ->.
           right. split; [done|]. exists n. split; [apply elem_of_cons; by left|done].
        -- right. split; [done|]. exists m. split; [apply elem_of_cons; by right|done].
    + intros H. apply IH in H as [Hpool Hfs]. split; [done|].
      intros f Hf. destruct (Hfs f Hf) as [Hin|(-> & m & Hm & Hmend)]; [by left|].
      right. split; [done|]. exists m. split; [apply elem_of_cons; by right|done].
Qed.

Lemma match_loop_sound fuel names i pool fs pool' fs' :
  match_loop fuel names i pool fs = Ok (pool', fs') ->
  (forall x, x ∈ pool' -> x ∈ pool) /\
  (forall f, f ∈ fs' ->
             f ∈ fs \/ (f ∈ pool /\ exists n, n ∈ names /\ Text.endswith f n = true)).
Proof.
  revert i pool fs. induction fuel as [|fuel IH]; intros i pool fs; simpl.
  - intros [= <- <-]. split; [done|]. intros f Hf. by left.
  - destruct (pool !! i) as [file|] eqn:Hfile.
    + destruct (match_names names file pool fs) as [[pool1 fs1]|e] eqn:Hm; simpl; [|done].
      intros H. apply IH in H as [Hpool Hfs].
      apply match_names_sound in Hm as [Hpool1 Hfs1]. split.
      * intros x Hx. by apply Hpool1, Hpool.
      * intros f Hf. destruct (Hfs f Hf) as [Hin|(Hin & Hn)].
        -- destruct (Hfs1 f Hin) as [Hin0|(-> & Hn)]; [by left|].
           right. split; [|done]. eapply list_elem_of_lookup_2. exact Hfile.
        -- right. split; [by apply Hpool1|done].
    + intros [= <- <-]. split; [done|]. intros f Hf. by left.
Qed.

(** What one item of the low data may add to the file set: with
    [check_all] the files of the directory found (and, on a salt-ssh
    minion, every cached [.tst] file); otherwise only cached files whose
    path ends in one of the two names looked for. *)
Lemma entry_sound E L check_all salt_ssh sls sc sc' :
  entry E L check_all salt_ssh sls sc = Ok sc' ->
  forall f, f ∈ files sc' ->
    f ∈ files sc \/
    (check_all = true /\
     (f ∈ fst (fallback E L sls sc) \/
      (salt_ssh = true /\ f ∈ cached_copied_files (snd (fallback E L sls sc))))) \/
    (f ∈ cached_copied_files (snd (fallback E L sls sc)) /\
     exists n, n ∈ sls_path_names (saltcheck_test_location L) sls /\
               Text.endswith f n = true).
Proof.
  unfold entry.
  pose proof (fallback_requests E L sls sc) as (reqs & Hreq & _).
  assert (Hfiles : files (snd (fallback E L sls sc)) = files sc).
  { unfold fallback, probe, extend.
    repeat match goal with
           | |- context [strs_mem ?x ?l] => destruct (strs_mem x l); simpl
           | |- context [nonempty ?l] => destruct (nonempty l); simpl
           end; reflexivity. }
  destruct (fallback E L sls sc) as [ret sc1]. simpl in *.
  destruct (match_loop _ _ 0 _ _) as [[pool' fs']|e] eqn:Hloop; simpl; [|done].
  intros [= <-] f Hf. simpl in Hf.
  apply match_loop_sound in Hloop as [_ Hfs].
  destruct (Hfs f Hf) as [Hin|Hin]; [|by right; right].
  unfold union_list in Hin.
  destruct (salt_ssh && check_all) eqn:Hssh.
  - apply andb_true_iff in Hssh as [-> ->].
    apply elem_of_union in Hin as [Hin|Hin].
    + apply elem_of_list_to_set, list_elem_of_filter in Hin as [_ Hin].
      right; left. split; [done|]. right. done.
    + rewrite andb_true_r in Hin. destruct (nonempty ret).
      * apply elem_of_union in Hin as [Hin|Hin]; [|left; by rewrite <- Hfiles].
        apply elem_of_list_to_set in Hin. right; left. split; [done|]. by left.
      * left. by rewrite <- Hfiles.
  - destruct (nonempty ret && check_all) eqn:Hall.
    + apply andb_true_iff in Hall as [_ ->].
      apply elem_of_union in Hin as [Hin|Hin]; [|left; by rewrite <- Hfiles].
      apply elem_of_list_to_set in Hin. right; left. split; [done|]. by left.
    + left. by rewrite <- Hfiles.
Qed.




Lemma match_names_mono names file pool fs pool' fs' f :
  match_names names file pool fs = Ok (pool', fs') -> f ∈ fs -> f ∈ fs'.
Proof.
  revert pool fs. induction names as [|n names IH]; intros pool fs; simpl.
  - by intros [= <- <-].
  - destruct (Text.endswith file n); [|apply IH].
    destruct (remove_first file pool) as [pool0|]; [|done].
    intros H Hf. eapply IH; [exact H|]. apply elem_of_union. by right.
Qed.

Lemma match_loop_mono fuel names i pool fs pool' fs' f :
  match_loop fuel names i pool fs = Ok (pool', fs') -> f ∈ fs -> f ∈ fs'.
Proof.
  revert i pool fs. induction fuel as [|fuel IH]; intros i pool fs; simpl.
  - by intros [= <- <-].
  - destruct (pool !! i) as [file|]; [|by intros [= <- <-]].
    destruct (match_names names file pool fs) as [[pool1 fs1]|e] eqn:Hm; simpl; [|done].
    intros H Hf. eapply IH; [exact H|]. by eapply match_names_mono.
Qed.

(** Without [check_all], an item of the low data none of whose cached
    files ends in one of the two names leaves the file set as it was. *)
Lemma entry_no_match E L salt_ssh sls sc sc' :
  entry E L false salt_ssh sls sc = Ok sc' ->
  (forall f n, f ∈ cached_copied_files (snd (fallback E L sls sc)) ->
               n ∈ sls_path_names (saltcheck_test_location L) sls ->
               Text.endswith f n = false) ->
  files sc' = files sc.
Proof.
  intros Hentry Hnone. apply set_eq. intros f. split.
  - intros Hf. destruct (entry_sound _ _ _ _ _ _ _ Hentry f Hf)
      as [Hin|[[Hall _]|(Hin & n & Hn & Hend)]]; [done|done|].
    rewrite (Hnone f n Hin Hn) in Hend. done.
  - revert Hentry. unfold entry.
    assert (Hfiles : files (snd (fallback E L sls sc)) = files sc).
    { unfold fallback, probe, extend.
      repeat match goal with
             | |- context [strs_mem ?x ?l] => destruct (strs_mem x l); simpl
             | |- context [nonempty ?l] => destruct (nonempty l); simpl
             end; reflexivity. }
    destruct (fallback E L sls sc) as [ret sc1]. simpl in *.
    rewrite !andb_false_r.
    destruct (match_loop _ _ 0 _ _) as [[pool' fs']|e] eqn:Hloop; simpl; [|done].
    intros [= <-] Hf. simpl. eapply match_loop_mono; [exact Hloop|]. by rewrite Hfiles.
Qed.

(** The resolution of [web.apache.config] on the sample file server. *)
Lemma web_apache_config_resolution :
  scan_sls Examples.master Examples.loader "web.apache.config" false =
    Ok {| files := ∅;
          processed_states := ["web.apache.config"; "web.apache"; "web"];
          cached_copied_files := [Examples.web_init_tst];
          cache_requests :=
            [("web.apache.config", "salt://web/apache/config/saltcheck-tests");
             ("web.apache", "salt://web/apache/saltcheck-tests");
             ("web", "salt://web/saltcheck-tests")] |} /\
  sls_path_names "saltcheck-tests" "web.apache.config" =
    ["web/apache/config/saltcheck-tests/init.tst";
     "web/apache/saltcheck-tests/config.tst"] /\
  (test_files <$> add_test_files_for_sls Examples.master Examples.loader
                    "web.apache.config" false) = Ok ∅ /\
  (test_files <$> add_test_files_for_sls Examples.master Examples.loader
                    "web.apache.config" true) = Ok {[ Examples.web_init_tst ]}.
Proof.
  repeat split; vm_compute; reflexivity.
Qed.


(** C5. The resolution does not give the [init.tst] of the top-level name
    space. Of the test directories of [web.apache.config] only that of
    [web] holds a file, [init.tst]; the file server is asked for the three
    directories and gives that file for the third, but its path ends in
    neither of the two names looked for, and the set of test files stays
    empty. So it is with the test location of the default and with the test
    location [tests]. *)
Theorem top_level_init_not_returned :
  (cp_cache_dir Examples.master "salt://web/apache/config/saltcheck-tests" "base" = [] /\
   cp_cache_dir Examples.master "salt://web/apache/saltcheck-tests" "base" = [] /\
   cp_cache_dir Examples.master "salt://web/saltcheck-tests" "base" = [Examples.web_init_tst] /\
   (cache_requests <$> scan_sls Examples.master Examples.loader "web.apache.config" false) =
     Ok [("web.apache.config", "salt://web/apache/config/saltcheck-tests");
         ("web.apache", "salt://web/apache/saltcheck-tests");
         ("web", "salt://web/saltcheck-tests")] /\
   (test_files <$> add_test_files_for_sls Examples.master Examples.loader
                     "web.apache.config" false) = Ok ∅) /\
  (cp_cache_dir Cases.custom_master "salt://web/apache/config/tests" "base" = [] /\
   cp_cache_dir Cases.custom_master "salt://web/apache/tests" "base" = [] /\
   cp_cache_dir Cases.custom_master "salt://web/tests" "base" = [Cases.web_tests_init] /\
   sls_path_names "tests" "web.apache.config" =
     ["web/apache/config/tests/init.tst"; "web/apache/tests/config.tst"] /\
   (cache_requests <$> scan_sls Cases.custom_master (init "tests") "web.apache.config" false) =
     Ok [("web.apache.config", "salt://web/apache/config/tests");
         ("web.apache", "salt://web/apache/tests");
         ("web", "salt://web/tests")] /\
   (test_files <$> add_test_files_for_sls Cases.custom_master (init "tests")
                     "web.apache.config" false) = Ok ∅).
Proof.
  repeat split; vm_compute; reflexivity.
Qed.

End Resolve.

(** * Further properties *)

(** ** The results of the runner *)

Lemma subscript_get t k v : Py.subscript t k = Ok v -> Py.get t k VNone = v.
Proof.
  unfold Py.subscript, Py.get. destruct (Py.dict_get (KStr k) t); simpl; congruence.
Qed.

(** Whatever the assertion, a branch of the chain that binds the
    description gives a verdict. *)
Lemma dispatch_verdict a expected actual print desc v :
  SaltCheck.dispatch a expected actual print = Ok (Some desc, v) ->
  exists c m, v = SaltCheck.verdict c m.
Proof.
  unfold SaltCheck.dispatch,
    SaltCheck.__assert_equal, SaltCheck.__assert_not_equal,
    SaltCheck.__assert_true, SaltCheck.__assert_false, SaltCheck.__assert_in,
    SaltCheck.__assert_not_in, SaltCheck.__assert_greater,
    SaltCheck.__assert_greater_equal, SaltCheck.__assert_less,
    SaltCheck.__assert_less_equal, SaltCheck.__assert_empty,
    SaltCheck.__assert_not_empty.
  repeat match goal with
         | |- context [if SaltCheck.is_name a ?n then _ else _] =>
             destruct (SaltCheck.is_name a n)
         end;
    repeat match goal with
           | |- context [Py.contains ?x ?y] => destruct (Py.contains x y); simpl
           | |- context [Py.gt ?x ?y] => destruct (Py.gt x y); simpl
           | |- context [Py.ge ?x ?y] => destruct (Py.ge x y); simpl
           | |- context [Py.lt ?x ?y] => destruct (Py.lt x y); simpl
           | |- context [Py.le ?x ?y] => destruct (Py.le x y); simpl
           | |- context [if Py.truthy print then _ else _] => destruct (Py.truthy print)
           end;
    try done; intros [= <- <-]; eauto.
Qed.

Lemma verdict_run_status c m : Shape.run_status (SaltCheck.verdict c m).
Proof.
  unfold Shape.run_status. destruct c; simpl; [right; by left|].
  right; right. by exists m.
Qed.

(** The status of every result of [run_test]. *)
Lemma run_test_status E t r :
  SaltCheck.run_test E t = Ok r -> Shape.run_status (SaltCheck.status r).
Proof.
  unfold SaltCheck.run_test.
  destruct (SaltCheck.__is_valid_test E t) as [[|]|e]; simpl; [| done | done].
  destruct (Py.truthy (Py.get t "skip" (VBool false))).
  { intros [= <-]. by left. }
  destruct (Py.subscript t "module_and_function") as [mf|e]; simpl; [|done].
  destruct (SaltCheck.with_pillar _ _) as [kwargs|e]; simpl; [|done].
  destruct (SaltCheck.effective_assertion t mf) as [a|e]; simpl; [|done].
  destruct (SaltCheck._call_salt_command _ _ _ _ _ _) as [actual|e]; simpl; [|done].
  match goal with
  | |- context [if ?b then ?x else ?y] => destruct (if b then x else y) as [expected|e]
  end; simpl; [|done].
  destruct (SaltCheck.dispatch _ _ _ _) as [[[desc|] v]|e] eqn:Hdv; simpl; [| done | done].
  intros [= <-]. simpl.
  destruct (dispatch_verdict _ _ _ _ _ _ Hdv) as (c & m & ->).
  apply verdict_run_status.
Qed.

(** X1. A definition that the validator rejects makes [run_test] raise
    [UnboundLocalError]: the end of the function reads [assertion_desc],
    which that path never bound. No result of [run_test] has the status for
    an invalid test. *)
Theorem invalid_test_raises E t :
  (SaltCheck.__is_valid_test E t = Ok false ->
   SaltCheck.run_test E t = Raise UnboundLocalError) /\
  (forall r, SaltCheck.run_test E t = Ok r ->
             SaltCheck.status r <> "Fail - invalid test").
Proof.
  split.
  - intros H. unfold SaltCheck.run_test. by rewrite H.
  - intros r Hr. apply run_test_status in Hr as [->|[->|[m ->]]]; discriminate.
Qed.

Lemma invalid_test_raises_witness :
  SaltCheck.__is_valid_test Examples.minion Cases.unknown_function = Ok false /\
  SaltCheck.run_test Examples.minion Cases.unknown_function = Raise UnboundLocalError.
Proof.
  split; [reflexivity|].
  apply (proj1 (invalid_test_raises Examples.minion Cases.unknown_function)).
  reflexivity.
Defined.

(** X2. Every result of [run_test] has the status [Skip], [Pass] or a text
    that starts with [Fail: ]; a skipped result has the duration 0 and every
    other result the measured one, with both descriptions present. *)
Theorem run_test_result_shape E t r :
  SaltCheck.run_test E t = Ok r ->
  Shape.run_status (SaltCheck.status r) /\
  (SaltCheck.status r = "Skip" ->
   Py.truthy (Py.get t "skip" (VBool false)) = true /\ SaltCheck.duration r = 0) /\
  (SaltCheck.status r <> "Skip" ->
   SaltCheck.duration r = elapsed E /\
   SaltCheck.module_function_args r <> None /\
   SaltCheck.saltcheck_assertion r <> None).
Proof.
  intros Hr. split; [by eapply run_test_status|].
  revert Hr. unfold SaltCheck.run_test.
  destruct (SaltCheck.__is_valid_test E t) as [[|]|e]; simpl; [| done | done].
  destruct (Py.truthy (Py.get t "skip" (VBool false))).
  { intros [= <-]. simpl. split; done. }
  destruct (Py.subscript t "module_and_function") as [mf|e]; simpl; [|done].
  destruct (SaltCheck.with_pillar _ _) as [kwargs|e]; simpl; [|done].
  destruct (SaltCheck.effective_assertion t mf) as [a|e]; simpl; [|done].
  destruct (SaltCheck._call_salt_command _ _ _ _ _ _) as [actual|e]; simpl; [|done].
  match goal with
  | |- context [if ?b then ?x else ?y] => destruct (if b then x else y) as [expected|e]
  end; simpl; [|done].
  destruct (SaltCheck.dispatch _ _ _ _) as [[[desc|] v]|e] eqn:Hdv; simpl; [| done | done].
  intros [= <-]. simpl.
  destruct (dispatch_verdict _ _ _ _ _ _ Hdv) as (c & m & ->).
  split; [destruct c; discriminate|]. done.
Qed.

Lemma run_test_result_shape_witness :
  exists r, SaltCheck.run_test Examples.minion Examples.test_apache2_latest = Ok r /\
            Shape.run_status (SaltCheck.status r).
Proof.
  eexists. split; [reflexivity|].
  apply (run_test_result_shape Examples.minion Examples.test_apache2_latest). reflexivity.
Defined.

(** X3. A failure of the call of the operation is not caught: for a valid
    definition that is not skipped, an exception of the pillar block, of the
    call or of the extraction of the section is the exception of
    [run_test]. *)
Theorem dispatch_failure_propagates E t e :
  SaltCheck.__is_valid_test E t = Ok true ->
  Py.truthy (Py.get t "skip" (VBool false)) = false ->
  Spec.operation_result E t = Raise e ->
  SaltCheck.run_test E t = Raise e.
Proof.
  intros Hvalid Hskip Hres.
  destruct (valid_lookups E t Hvalid Hskip) as (mf & a & Hmf & Ha & _).
  unfold SaltCheck.run_test. rewrite Hvalid. simpl. rewrite Hskip, Hmf. simpl.
  unfold Spec.operation_result, Spec.operation in Hres.
  rewrite (subscript_get _ _ _ Hmf) in Hres.
  destruct (SaltCheck.with_pillar _ _) as [kwargs|e0]; cbn in Hres |- *;
    [|by injection Hres as ->].
  rewrite Ha. cbn. by rewrite Hres.
Qed.

Lemma dispatch_failure_propagates_witness :
  SaltCheck.run_test Examples.minion Cases.ping_is_true = Raise (SaltError "not available").
Proof.
  apply (dispatch_failure_propagates Examples.minion Cases.ping_is_true); reflexivity.
Defined.

(** ** The validator *)

Lemma has_key_get t k :
  Py.has_key (KStr k) t = false -> Py.get t k VNone = VNone.
Proof.
  unfold Py.has_key, Py.get. by destruct (Py.dict_get (KStr k) t).
Qed.

Lemma falsy_operation_well_formed t :
  Py.truthy (Spec.operation t) = false -> Spec.well_formed_operation t = true.
Proof.
  unfold Spec.well_formed_operation.
  destruct (Spec.operation t) as [|b|z|s|l|d]; simpl; intros H; rewrite ?H; try done.
  by destruct (String.eqb s "").
Qed.

(** X4. A definition without an operation (absent, null or empty) gets no
    point from the operation block, and is valid exactly when it is
    skipped. *)
Theorem no_operation_valid_iff_skipped E t :
  Py.truthy (Spec.operation t) = false ->
  SaltCheck.m_and_f_points E (Spec.operation t) = Ok 0 /\
  SaltCheck.__is_valid_test E t = Ok (Py.truthy (Py.get t "skip" (VBool false))).
Proof.
  intros Hop. split.
  { unfold SaltCheck.m_and_f_points. by rewrite Hop. }
  rewrite (is_valid_test_of_tots E t _
             (tots_well_formed E t (falsy_operation_well_formed t Hop))).
  f_equal. unfold Spec.threshold, Spec.score. rewrite Hop. simpl.
  destruct (Py.truthy (Py.get t "skip" (VBool false))).
  - apply Z.leb_le. unfold Spec.point.
    repeat match goal with |- context [if ?b then _ else _] => destruct b end; lia.
  - assert (Halias : Spec.is_name_in (Spec.operation t) ["saltcheck.state_apply"] = false).
    { destruct (Spec.operation t); simpl in *; try done.
      destruct (String.eqb_spec s ""); [by subst|done]. }
    rewrite Halias. apply Z.leb_gt. unfold Spec.point.
    repeat match goal with |- context [if ?b then _ else _] => destruct b end; lia.
Qed.

Lemma no_operation_valid_iff_skipped_witness :
  SaltCheck.__is_valid_test Examples.minion [(KStr "assertion", VStr "assertTrue")] = Ok false.
Proof.
  apply (proj2 (no_operation_valid_iff_skipped Examples.minion
                  [(KStr "assertion", VStr "assertTrue")] eq_refl)).
Defined.

(** X5. A definition that is not skipped, whose operation has one separator
    and is not the apply alias, and whose assertion is not one of the four
    that need no expected return, is valid exactly when its module and its
    function are known, its assertion is one of the twelve and its expected
    return is not null. *)
Theorem standard_test_valid_iff_complete E t s :
  Py.truthy (Py.get t "skip" (VBool false)) = false ->
  Spec.operation t = VStr s ->
  Spec.separators s = 1%nat ->
  s <> "saltcheck.state_apply" ->
  Spec.is_name_in (Spec.assertion t)
    ["assertEmpty"; "assertNotEmpty"; "assertTrue"; "assertFalse"] = false ->
  SaltCheck.__is_valid_test E t =
    Ok (_is_valid_module E (Spec.namespace_of s)
        && _is_valid_function E (Spec.namespace_of s) (Spec.verb_of s)
        && Spec.is_name_in (Spec.assertion t) Spec.twelve
        && match Py.get t "expected-return" VNone with VNone => false | _ => true end).
Proof.
  intros Hskip Hop Hsep Halias Hfour.
  assert (Hwf : Spec.well_formed_operation t = true).
  { unfold Spec.well_formed_operation. rewrite Hop, Hsep. apply orb_true_r. }
  assert (Hne : Py.truthy (VStr s) = true).
  { simpl. destruct (String.eqb_spec s ""); [by subst|done]. }
  rewrite (is_valid_test_of_tots E t _ (tots_well_formed E t Hwf)). f_equal.
  rewrite is_valid_module_listed, (is_valid_function_listed E s Hsep).
  unfold Spec.threshold, Spec.score. rewrite Hskip, Hfour, Hop, Hne.
  set (known_namespace := Spec.namespace_valid E (VStr s)).
  set (known_verb := Spec.verb_valid E (VStr s)).
  replace (Spec.is_name_in (VStr s) ["saltcheck.state_apply"]) with false.
  2:{ simpl. destruct (String.eqb_spec s "saltcheck.state_apply"); done. }
  simpl.
  destruct (Py.has_key (KStr "expected-return") t) eqn:Hkey.
  - unfold Spec.point.
    destruct known_namespace, known_verb,
      (Spec.is_name_in (Spec.assertion t) Spec.twelve),
      (Py.get t "expected-return" VNone); reflexivity.
  - rewrite (has_key_get t _ Hkey). unfold Spec.point.
    destruct known_namespace, known_verb,
      (Spec.is_name_in (Spec.assertion t) Spec.twelve); reflexivity.
Qed.

Lemma standard_test_valid_iff_complete_witness :
  SaltCheck.__is_valid_test Examples.minion Cases.unknown_function = Ok false.
Proof.
  apply (standard_test_valid_iff_complete Examples.minion Cases.unknown_function "test.nope");
    (reflexivity || discriminate).
Defined.

(** X6. The points are interchangeable: with one of the four assertions
    that need no expected return, a definition that is not skipped, has an
    operation with one separator and an expected return that is not null is
    valid on every minion, whether or not its module and function exist. *)
Theorem expected_return_makes_up E t s :
  Spec.operation t = VStr s ->
  Spec.separators s = 1%nat ->
  Spec.is_name_in (Spec.assertion t)
    ["assertEmpty"; "assertNotEmpty"; "assertTrue"; "assertFalse"] = true ->
  Py.get t "expected-return" VNone <> VNone ->
  SaltCheck.__is_valid_test E t = Ok true.
Proof.
  intros Hop Hsep Hfour Hexp.
  assert (Hwf : Spec.well_formed_operation t = true).
  { unfold Spec.well_formed_operation. rewrite Hop, Hsep. apply orb_true_r. }
  assert (Hne : Py.truthy (VStr s) = true).
  { simpl. destruct (String.eqb_spec s ""); [by subst|done]. }
  assert (Htwelve : Spec.is_name_in (Spec.assertion t) Spec.twelve = true).
  { destruct (is_name_in_elim _ _ Hfour) as (a & Ha & Hin). rewrite Ha.
    unfold Spec.is_name_in. apply existsb_exists. exists a.
    split; [by apply twelve_of_four|apply String.eqb_refl]. }
  assert (Hkey : Py.has_key (KStr "expected-return") t = true).
  { destruct (Py.has_key (KStr "expected-return") t) eqn:Hkey; [done|].
    by apply has_key_get in Hkey. }
  rewrite (is_valid_test_of_tots E t _ (tots_well_formed E t Hwf)). f_equal.
  apply Z.leb_le.
  unfold Spec.threshold, Spec.score. rewrite Hfour, Htwelve, Hkey, Hop, Hne.
  unfold Spec.point.
  destruct (Py.get t "expected-return" VNone); [done|..];
    repeat match goal with |- context [if ?b then _ else _] => destruct b end; simpl; lia.
Qed.

Lemma expected_return_makes_up_witness :
  _is_valid_module Examples.minion "nope" = false /\
  SaltCheck.__is_valid_test Examples.minion Cases.unknown_module_with_expected = Ok true.
Proof.
  split; [reflexivity|].
  apply (expected_return_makes_up Examples.minion Cases.unknown_module_with_expected
           "nope.nothing"); (reflexivity || discriminate).
Defined.

(** ** Values: keys and equality *)

Lemma key_eq_canon a b : Py.key_eq a b = true <-> Shape.canon a = Shape.canon b.
Proof.
  destruct a as [|x|x|x], b as [|y|y|y]; simpl; try (split; [done|congruence]).
  - destruct x, y; simpl; split; congruence.
  - rewrite Z.eqb_eq. split; congruence.
  - rewrite Z.eqb_eq. split; congruence.
  - rewrite Z.eqb_eq. split; congruence.
  - rewrite String.eqb_eq. split; congruence.
Qed.

Lemma key_eq_refl k : Py.key_eq k k = true.
Proof. by apply key_eq_canon. Qed.

Lemma key_eq_sym a b : Py.key_eq a b = Py.key_eq b a.
Proof.
  destruct (Py.key_eq a b) eqn:Hab, (Py.key_eq b a) eqn:Hba; try done.
  - apply key_eq_canon in Hab. symmetry in Hab. apply key_eq_canon in Hab. congruence.
  - apply key_eq_canon in Hba. symmetry in Hba. apply key_eq_canon in Hba. congruence.
Qed.

Lemma key_eq_trans_l a b c :
  Py.key_eq a b = true -> Py.key_eq c a = Py.key_eq c b.
Proof.
  intros Hab. apply key_eq_canon in Hab.
  destruct (Py.key_eq c a) eqn:Hca, (Py.key_eq c b) eqn:Hcb; try done.
  - apply key_eq_canon in Hca. rewrite Hab in Hca. apply key_eq_canon in Hca. congruence.
  - apply key_eq_canon in Hcb. rewrite <- Hab in Hcb. apply key_eq_canon in Hcb. congruence.
Qed.

Lemma dict_get_congr {A : Type} a b (d : list (PyKey * A)) :
  Py.key_eq a b = true -> Py.dict_get a d = Py.dict_get b d.
Proof.
  intros Hab. induction d as [|[k1 v1] d IH]; simpl; [done|].
  rewrite (key_eq_sym a k1), (key_eq_sym b k1), (key_eq_trans_l a b k1 Hab).
  by rewrite IH.
Qed.

(** Two keys equal to a third are equal. *)
Lemma key_eq_join a b c :
  Py.key_eq c a = true -> Py.key_eq c b = true -> Py.key_eq a b = true.
Proof.
  intros Hca Hcb. rewrite <- (key_eq_trans_l c b a Hcb). by rewrite key_eq_sym.
Qed.

(** Look-up after an assignment. *)
Lemma dict_get_set {A : Type} k' k (v : A) d :
  Py.dict_get k' (Py.dict_set k v d) =
    if Py.key_eq k' k then Some v else Py.dict_get k' d.
Proof.
  induction d as [|[k0 v0] d IH]; simpl; [done|].
  destruct (Py.key_eq k k0) eqn:Hk; simpl.
  - rewrite (key_eq_trans_l k k0 k' Hk). by destruct (Py.key_eq k' k0).
  - rewrite IH. destruct (Py.key_eq k' k0) eqn:Hk0; [|done].
    destruct (Py.key_eq k' k) eqn:Hk'; [|done].
    rewrite (key_eq_join k k0 k' Hk' Hk0) in Hk. done.
Qed.

Lemma has_key_In {A : Type} k k0 (v : A) d :
  In (k, v) d -> Py.key_eq k0 k = true -> Py.has_key k0 d = true.
Proof.
  unfold Py.has_key. induction d as [|[k1 v1] d IH]; simpl; [done|].
  intros [[= -> ->]|Hin] Hk.
  - by rewrite Hk.
  - destruct (Py.key_eq k0 k1); [done|]. by apply IH.
Qed.

Lemma distinct_get {A : Type} k (v : A) d :
  Shape.keys_distinct d = true -> In (k, v) d -> Py.dict_get k d = Some v.
Proof.
  induction d as [|[k0 v0] d IH]; simpl; [done|].
  intros Hd [[= -> ->]|Hin].
  - by rewrite key_eq_refl.
  - apply andb_true_iff in Hd as [Hk0 Hd]. apply negb_true_iff in Hk0.
    destruct (Py.key_eq k k0) eqn:Hk; [|by apply IH].
    rewrite key_eq_sym in Hk. rewrite (has_key_In k k0 v d Hin Hk) in Hk0. done.
Qed.

(** Look-up after [pop], in a dictionary with distinct keys. *)
Lemma dict_get_del {A : Type} k' k (d : list (PyKey * A)) :
  Shape.keys_distinct d = true ->
  Py.dict_get k' (Py.dict_del k d) =
    if Py.key_eq k' k then None else Py.dict_get k' d.
Proof.
  induction d as [|[k0 v0] d IH]; simpl; [by destruct (Py.key_eq k' k)|].
  intros Hd. apply andb_true_iff in Hd as [Hk0 Hd]. apply negb_true_iff in Hk0.
  destruct (Py.key_eq k k0) eqn:Hk; simpl.
  - rewrite (key_eq_trans_l k k0 k' Hk).
    destruct (Py.key_eq k' k0) eqn:Hk'; [|done].
    rewrite (dict_get_congr k' k0 d Hk').
    unfold Py.has_key in Hk0. by destruct (Py.dict_get k0 d).
  - rewrite (IH Hd). destruct (Py.key_eq k' k0) eqn:Hk0'; [|done].
    destruct (Py.key_eq k' k) eqn:Hk'; [|done].
    rewrite (key_eq_join k k0 k' Hk' Hk0') in Hk. done.
Qed.

(** Induction on values, with the property known of the items of a list and
    of the values of a dictionary. *)
Lemma PyVal_nested_ind (P : PyVal -> Prop) :
  P VNone ->
  (forall b, P (VBool b)) ->
  (forall z, P (VInt z)) ->
  (forall s, P (VStr s)) ->
  (forall l, Forall P l -> P (VList l)) ->
  (forall d, Forall (fun kv => P (snd kv)) d -> P (VDict d)) ->
  forall v, P v.
Proof.
  intros HNone HBool HInt HStr HList HDict.
  fix IH 1. intros [|b|z|s|l|d].
  - exact HNone.
  - apply HBool.
  - apply HInt.
  - apply HStr.
  - apply HList. revert l. fix IHl 1. intros [|x l].
    + constructor.
    + constructor; [apply IH|apply IHl].
  - apply HDict. revert d. fix IHd 1. intros [|[k x] d].
    + constructor.
    + constructor; [apply IH|apply IHd].
Qed.

Lemma eq_list_unfold x xs y ys :
  Py.eq (VList (x :: xs)) (VList (y :: ys)) = Py.eq x y && Py.eq (VList xs) (VList ys).
Proof. reflexivity. Qed.

Lemma eq_dict_unfold d1 d2 :
  Py.eq (VDict d1) (VDict d2) =
    (List.length d1 =? List.length d2)%nat
    && forallb (fun kv => match Py.dict_get (fst kv) d2 with
                          | Some v' => Py.eq (snd kv) v'
                          | None => false
                          end) d1.
Proof.
  simpl. f_equal. induction d1 as [|[k v] d1 IH]; simpl; [done|].
  destruct (Py.dict_get k d2); [|done]. by rewrite IH.
Qed.

(** A well-formed value equals itself. *)
Lemma eq_refl_wf v : Shape.wf v = true -> Py.eq v v = true.
Proof.
  induction v as [|b|z|s|l IHl|d IHd] using PyVal_nested_ind; simpl Shape.wf.
  - done.
  - intros _. simpl. by destruct b.
  - intros _. simpl. apply Z.eqb_refl.
  - intros _. simpl. apply String.eqb_refl.
  - induction IHl as [|x l Hx _ IH]; [done|].
    simpl forallb. intros Hwf. apply andb_true_iff in Hwf as [Hwx Hwl].
    rewrite eq_list_unfold, (Hx Hwx). by apply IH.
  - intros Hwf. apply andb_true_iff in Hwf as [Hkeys Hvals].
    rewrite eq_dict_unfold, Nat.eqb_refl. simpl.
    apply forallb_forall. intros [k v] Hin. simpl.
    rewrite (distinct_get k v d Hkeys Hin).
    rewrite Forall_forall in IHd. apply (IHd (k, v)); [by apply list_elem_of_In|].
    rewrite forallb_forall in Hvals. apply (Hvals (k, v) Hin).
Qed.

(** ** The cast against a float *)

Section Floats.

Import SpecFloat.

Lemma SFeqb_refl f : f <> S754_nan -> SFeqb f f = true.
Proof.
  unfold SFeqb, SFcompare. destruct f as [s|s| |s m e]; try done.
  - by destruct s.
  - intros _. rewrite Z.compare_refl.
    assert (Hm : PosDef.Pos.compare_cont Eq m m = Eq) by apply Pos.compare_cont_refl.
    rewrite Hm. by destruct s.
Qed.

Lemma float_cast_again expected returned once :
  Floating._cast_expected_to_returned_type expected returned = Ok once ->
  Floating._cast_expected_to_returned_type once returned = Ok once.
Proof.
  unfold Floating._cast_expected_to_returned_type. rewrite !andb_false_r.
  destruct (Floating.float expected) as [f|e] eqn:Hf.
  - by intros [= <-].
  - destruct e; try done. intros [= <-]. by rewrite Hf.
Qed.

Lemma float_eq_refl v :
  Floating.not_nan v = true -> Floating.wf v = true -> Floating.eq v v = true.
Proof.
  destruct v as [p|f]; simpl.
  - intros _. apply eq_refl_wf.
  - intros Hnan _. apply SFeqb_refl. by intros ->.
Qed.

(** C8, as amended. Over the values without floats, and against a returned
    value that is a float, the cast is idempotent when it does not give a
    NaN: whenever the cast of the expected value gives a value, the cast of
    that value against the same returned value gives it again, and the
    value equals itself (its dictionaries holding no key twice). *)
Theorem cast_idempotent :
  (forall expected returned once,
     SaltCheck._cast_expected_to_returned_type expected returned = Ok once ->
     SaltCheck._cast_expected_to_returned_type once returned = Ok once /\
     (Shape.wf once = true -> Py.eq once once = true)) /\
  (forall expected returned once,
     Floating._cast_expected_to_returned_type expected returned = Ok once ->
     Floating._cast_expected_to_returned_type once returned = Ok once /\
     (Floating.not_nan once = true -> Floating.wf once = true ->
      Floating.eq once once = true)).
Proof.
  split; intros expected returned once Hcast.
  - split; [by eapply cast_again|apply eq_refl_wf].
  - split; [by eapply float_cast_again|apply float_eq_refl].
Qed.

Lemma cast_idempotent_witness :
  SaltCheck._cast_expected_to_returned_type (VInt 42) (VInt 5) = Ok (VInt 42) /\
  Py.eq (VInt 42) (VInt 42) = true /\
  Floating._cast_expected_to_returned_type (Floating.Float Floating.one_and_a_half)
    Floating.one_and_a_half = Ok (Floating.Float Floating.one_and_a_half) /\
  Floating.eq (Floating.Float Floating.one_and_a_half)
    (Floating.Float Floating.one_and_a_half) = true.
Proof.
  destruct (proj1 cast_idempotent (VStr " 42 ") (VInt 5) (VInt 42) eq_refl) as [H1 H2].
  destruct (proj2 cast_idempotent (Floating.Plain (VStr "1.5")) Floating.one_and_a_half
              (Floating.Float Floating.one_and_a_half) eq_refl) as [H3 H4].
  split; [exact H1|]. split; [exact (H2 eq_refl)|]. split; [exact H3|].
  exact (H4 eq_refl eq_refl).
Defined.

(** C8, as first stated, fails: against a returned float the cast of the
    text [nan] gives a NaN, the cast of that NaN gives a NaN again, and a
    NaN does not equal a NaN. *)
Lemma cast_nan_not_idempotent :
  Floating._cast_expected_to_returned_type (Floating.Plain (VStr "nan"))
    Floating.one_and_a_half = Ok (Floating.Float S754_nan) /\
  Floating._cast_expected_to_returned_type (Floating.Float S754_nan)
    Floating.one_and_a_half = Ok (Floating.Float S754_nan) /\
  Floating.eq (Floating.Float S754_nan) (Floating.Float S754_nan) = false.
Proof. repeat split. Qed.

End Floats.

(** ** The assertions *)

(** X8. Round trip of equality: on a well-formed value, [assertEqual] of the
    value with itself passes and [assertNotEqual] fails, with the two values
    in the message unless the printing of results is off. *)
Theorem assert_equal_reflexive x print :
  Shape.wf x = true ->
  SaltCheck.__assert_equal x x print = "Pass" /\
  SaltCheck.__assert_not_equal x x print =
    "Fail: " +:+ (if Py.truthy print
                  then Py.str x +:+ " is equal to " +:+ Py.str x
                  else "Result is equal").
Proof.
  intros Hwf. unfold SaltCheck.__assert_equal, SaltCheck.__assert_not_equal.
  rewrite (eq_refl_wf x Hwf). by destruct (Py.truthy print).
Qed.

Lemma assert_equal_reflexive_witness :
  SaltCheck.__assert_equal (VDict [(KStr "shell", VList [VInt 1; VStr "a"])])
    (VDict [(KStr "shell", VList [VInt 1; VStr "a"])]) (VBool true) = "Pass".
Proof.
  apply (assert_equal_reflexive (VDict [(KStr "shell", VList [VInt 1; VStr "a"])])
           (VBool true)).
  reflexivity.
Defined.

(** X9. [assertTrue] passes on the boolean [True] alone, so [assertTrue] and
    [assertFalse] never both pass; a text is turned into its truth value by
    [assertFalse] only, so a text that is not empty fails both and the empty
    text passes [assertFalse]. *)
Theorem assert_true_is_identity v :
  (SaltCheck.__assert_true v = "Pass" <-> v = VBool true) /\
  (SaltCheck.__assert_true v = "Pass" -> SaltCheck.__assert_false v <> "Pass") /\
  (forall s, v = VStr s ->
     SaltCheck.__assert_true v = "Fail: " +:+ s +:+ " not True" /\
     SaltCheck.__assert_false v =
       if String.eqb s "" then "Pass" else "Fail: True not False").
Proof.
  split; [|split].
  - unfold SaltCheck.__assert_true, SaltCheck.verdict.
    destruct v as [|[|]|z|s|l|d]; simpl; split; done.
  - unfold SaltCheck.__assert_true, SaltCheck.__assert_false, SaltCheck.verdict.
    destruct v as [|[|]|z|s|l|d]; simpl; done.
  - intros s ->. split; [done|].
    unfold SaltCheck.__assert_false. simpl. by destruct (String.eqb s "").
Qed.

Lemma assert_true_is_identity_witness :
  SaltCheck.__assert_true (VStr "True") = "Fail: True not True" /\
  SaltCheck.__assert_false (VBool true) <> "Pass".
Proof.
  split.
  - apply (proj2 (proj2 (assert_true_is_identity (VStr "True"))) "True" eq_refl).
  - apply (proj1 (proj2 (assert_true_is_identity (VBool true)))). reflexivity.
Defined.

(** X10. [assertIn] and [assertNotIn] look for the expected value in the
    returned one: when the look-up is possible exactly one of them passes,
    and when the returned value is null, a boolean or an integer both raise
    [TypeError], which is not caught. *)
Theorem in_or_not_in expected returned print :
  (forall c, Py.contains expected returned = Ok c ->
     exists s1 s2,
       SaltCheck.__assert_in expected returned print = Ok s1 /\
       SaltCheck.__assert_not_in expected returned print = Ok s2 /\
       (s1 = "Pass" <-> c = true) /\ (s2 = "Pass" <-> c = false)) /\
  (returned = VNone \/ (exists b, returned = VBool b) \/ (exists z, returned = VInt z) ->
   SaltCheck.__assert_in expected returned print = Raise TypeError /\
   SaltCheck.__assert_not_in expected returned print = Raise TypeError).
Proof.
  unfold SaltCheck.__assert_in, SaltCheck.__assert_not_in. split.
  - intros c ->. simpl. do 2 eexists. split; [done|]. split; [done|].
    destruct (Py.truthy print), c; simpl; split; split; done.
  - intros [->|[[b ->]|[z ->]]]; done.
Qed.

Lemma in_or_not_in_witness :
  SaltCheck.__assert_in (VStr "a") VNone (VBool true) = Raise TypeError /\
  SaltCheck.__assert_not_in (VStr "a") (VInt 5) (VBool true) = Raise TypeError.
Proof.
  split.
  - apply (proj2 (in_or_not_in (VStr "a") VNone (VBool true))). by left.
  - apply (proj2 (in_or_not_in (VStr "a") (VInt 5) (VBool true))). right; right. by exists 5.
Defined.

Lemma construct_type ty v w : Py.construct ty v = Ok w -> Py.type_of w = ty.
Proof.
  destruct ty; simpl.
  - done.
  - by intros [= <-].
  - destruct v as [|b|z|s|l|d]; try done; try (by intros [= <-]).
    destruct (Text.parse_int s); [|done]. by intros [= <-].
  - by intros [= <-].
  - destruct v as [|b|z|s|l|d]; try done; by intros [= <-].
  - destruct v as [|b|z|s|l|d]; try done.
    + destruct (Py.dict_of [] _) as [d|e]; simpl; [|done]. by intros [= <-].
    + destruct (Py.dict_of [] l) as [d|e]; simpl; [|done]. by intros [= <-].
    + by intros [= <-].
Qed.

(** X11. The value the cast gives is the expected value itself or a value
    of the type of the returned one; against a returned null it is always
    the expected value. *)
Theorem cast_result_type expected returned v :
  SaltCheck._cast_expected_to_returned_type expected returned = Ok v ->
  (v = expected \/ Py.type_of v = Py.type_of returned) /\
  (returned = VNone -> v = expected).
Proof.
  unfold SaltCheck._cast_expected_to_returned_type.
  destruct returned as [|b|z|s|l|d].
  { intros [= <-]. split; [by left|done]. }
  all: match goal with
       | |- context [Py.construct ?ty ?x] =>
           destruct (Py.construct ty x) as [w|e] eqn:Hc
       end.
  all: try (intros [= <-]; split; first [right; by apply construct_type in Hc|done]).
  all: destruct e; try done; intros [= <-]; split; first [by left|done].
Qed.

Lemma cast_result_type_witness :
  Py.type_of (VList [VStr "a"; VStr "b"]) = Py.type_of (VList []).
Proof.
  destruct (cast_result_type (VStr "ab") (VList []) (VList [VStr "a"; VStr "b"]) eq_refl)
    as [[H|H] _]; [discriminate H|exact H].
Defined.

(** X12. The cast makes a numeric comparison of a text possible: an
    expected text that reads as the integer [n] is cast against a returned
    integer [m] into [n], and the four ordering assertions then pass exactly
    when [n > m], [n >= m], [n < m] and [n <= m], with a failure text that
    names the returned value only; without the cast the comparison of the
    text with the integer raises [TypeError]. *)
Theorem cast_then_compare s n m :
  Text.parse_int s = Some n ->
  SaltCheck._cast_expected_to_returned_type (VStr s) (VInt m) = Ok (VInt n) /\
  SaltCheck.__assert_greater (VInt n) (VInt m) =
    Ok (SaltCheck.verdict (m <? n) (pretty m +:+ " not False")) /\
  SaltCheck.__assert_greater_equal (VInt n) (VInt m) =
    Ok (SaltCheck.verdict (m <=? n) (pretty m +:+ " not False")) /\
  SaltCheck.__assert_less (VInt n) (VInt m) =
    Ok (SaltCheck.verdict (n <? m) (pretty m +:+ " not False")) /\
  SaltCheck.__assert_less_equal (VInt n) (VInt m) =
    Ok (SaltCheck.verdict (n <=? m) (pretty m +:+ " not False")) /\
  SaltCheck.__assert_greater (VStr s) (VInt m) = Raise TypeError.
Proof.
  intros Hparse.
  split.
  { unfold SaltCheck._cast_expected_to_returned_type. simpl.
    rewrite andb_false_r. simpl. by rewrite Hparse. }
  unfold SaltCheck.__assert_greater, SaltCheck.__assert_greater_equal,
    SaltCheck.__assert_less, SaltCheck.__assert_less_equal,
    Py.gt, Py.ge, Py.lt, Py.le. simpl.
  unfold Z.ltb, Z.leb. rewrite (Z.compare_antisym n m).
  destruct (n ?= m); simpl; repeat split; reflexivity.
Qed.

Lemma cast_then_compare_witness :
  SaltCheck.__assert_greater (VInt 5) (VInt 3) = Ok "Pass" /\
  SaltCheck.__assert_less (VInt 5) (VInt 3) = Ok "Fail: 3 not False".
Proof.
  destruct (cast_then_compare "5" 5 3 eq_refl) as (_ & Hgt & _ & Hlt & _).
  split; [exact Hgt|exact Hlt].
Defined.

(** ** The call of the operation *)

(** X13. The pillar block. When [pillar-data] is given, the keyword
    arguments of the call (a dictionary, or nothing) hold it under [pillar]
    and keep every other key; when it is not given, a dictionary of keyword
    arguments loses its key [pillar] and keeps every other key. *)
Theorem pillar_block kwargs pillar_data d :
  Shape.keyword kwargs = Some d ->
  (Py.truthy pillar_data = true ->
   exists d',
     SaltCheck.with_pillar kwargs pillar_data = Ok (VDict d') /\
     Py.dict_get (KStr "pillar") d' = Some pillar_data /\
     forall k, Py.key_eq k (KStr "pillar") = false -> Py.dict_get k d' = Py.dict_get k d) /\
  (Py.truthy pillar_data = false ->
   Shape.keys_distinct d = true ->
   exists kwargs' d',
     SaltCheck.with_pillar kwargs pillar_data = Ok kwargs' /\
     Shape.keyword kwargs' = Some d' /\
     Py.dict_get (KStr "pillar") d' = None /\
     forall k, Py.key_eq k (KStr "pillar") = false -> Py.dict_get k d' = Py.dict_get k d).
Proof.
  intros Hkw. unfold SaltCheck.with_pillar. split.
  - intros ->. exists (Py.dict_set (KStr "pillar") pillar_data d).
    split.
    + destruct kwargs as [| | | | |d0]; simpl in Hkw; try done.
      * by injection Hkw as <-.
      * injection Hkw as <-. by destruct d0.
    + split; [by rewrite dict_get_set|].
      intros k Hk. by rewrite dict_get_set, Hk.
  - intros -> Hd. destruct kwargs as [| | | | |d0]; simpl in Hkw; try done.
    + injection Hkw as <-. exists VNone, []. simpl. done.
    + injection Hkw as <-. destruct d0 as [|kv d0].
      * exists (VDict []), []. simpl. done.
      * exists (VDict (Py.dict_del (KStr "pillar") (kv :: d0))),
          (Py.dict_del (KStr "pillar") (kv :: d0)).
        split; [done|]. split; [done|].
        split; [by rewrite dict_get_del|].
        intros k Hk. by rewrite dict_get_del, Hk.
Qed.

Lemma pillar_block_witness :
  SaltCheck.with_pillar (VDict [(KStr "pillar", VInt 1); (KStr "test", VBool true)]) VNone =
    Ok (VDict [(KStr "test", VBool true)]).
Proof.
  destruct (pillar_block (VDict [(KStr "pillar", VInt 1); (KStr "test", VBool true)]) VNone
              [(KStr "pillar", VInt 1); (KStr "test", VBool true)] eq_refl)
    as [_ H].
  destruct (H eq_refl eq_refl) as (kwargs' & d' & Hwp & _).
  reflexivity.
Defined.

(** X14. The four shapes of the call are one call: for arguments that are
    a list or nothing and keyword arguments that are a dictionary with text
    keys or nothing, the caller gets the function with those arguments and
    keywords (none where there is nothing), and without a section the value
    of the call is returned as it is. *)
Theorem call_shapes E fn args kwargs delimiter l d kws :
  Shape.positional args = Some l ->
  Shape.keyword kwargs = Some d ->
  SaltCheck.keywords d = Ok kws ->
  SaltCheck._call_salt_command E fn args kwargs VNone delimiter = salt_lc_cmd E fn l kws.
Proof.
  intros Hargs Hkw Hkws. unfold SaltCheck._call_salt_command.
  assert (Hcall :
    (if Py.truthy args && Py.truthy kwargs then
       a ← SaltCheck.star args; k ← SaltCheck.starstar kwargs; salt_lc_cmd E fn a k
     else if Py.truthy args && negb (Py.truthy kwargs) then
       a ← SaltCheck.star args; salt_lc_cmd E fn a []
     else if negb (Py.truthy args) && Py.truthy kwargs then
       k ← SaltCheck.starstar kwargs; salt_lc_cmd E fn [] k
     else salt_lc_cmd E fn [] []) = salt_lc_cmd E fn l kws).
  { destruct args as [| | | |l0|]; simpl in Hargs; try done; injection Hargs as <-;
      destruct kwargs as [| | | | |d0]; simpl in Hkw; try done; injection Hkw as <-;
      simpl in Hkws.
    - by injection Hkws as <-.
    - destruct d0 as [|kv d0]; simpl in *; [by injection Hkws as <-|].
      cbn. by rewrite Hkws.
    - injection Hkws as <-. by destruct l0.
    - destruct l0 as [|x l0], d0 as [|kv d0]; simpl in *.
      + by injection Hkws as <-.
      + cbn. by rewrite Hkws.
      + by injection Hkws as <-.
      + cbn. by rewrite Hkws. }
  rewrite Hcall. destruct (salt_lc_cmd E fn l kws) as [[| | | | |dv]|e]; reflexivity.
Qed.

Lemma call_shapes_witness :
  SaltCheck._call_salt_command Examples.minion (VStr "test.echo")
    (VList [VStr "hello"]) VNone VNone (VStr ":") = Ok (VStr "hello").
Proof.
  apply (call_shapes Examples.minion (VStr "test.echo") (VList [VStr "hello"]) VNone
           (VStr ":") [VStr "hello"] [] []); reflexivity.
Defined.

(** ** The loader: what a call keeps and where its files come from *)

Section Files.

Import StateTestLoader.

Lemma fallback_origin E L sls sc :
  files (snd (fallback E L sls sc)) = files sc /\
  (forall f, f ∈ fst (fallback E L sls sc) -> Facts.served E L f) /\
  (forall f, f ∈ cached_copied_files (snd (fallback E L sls sc)) ->
             f ∈ cached_copied_files sc \/ Facts.served E L f).
Proof.
  unfold fallback, probe, extend, Facts.served.
  repeat match goal with
         | |- context [strs_mem ?x ?l] => destruct (strs_mem x l); simpl
         | |- context [nonempty ?l] => let H := fresh "Hne" in destruct l eqn:H; simpl
         end;
    (split; [reflexivity|]);
    (split; intros f Hf;
     [ first [ by apply elem_of_nil in Hf | eexists; erewrite Hne; exact Hf
             | eexists; erewrite Hne0; exact Hf | eexists; erewrite Hne1; exact Hf ]
     | first [ by left
             | apply elem_of_app in Hf as [Hf|Hf]; [by left|right];
               first [ eexists; erewrite Hne; exact Hf
                     | eexists; erewrite Hne0; exact Hf
                     | eexists; erewrite Hne1; exact Hf ] ] ]).
Qed.

Lemma entry_mono E L check_all salt_ssh sls sc sc' f :
  entry E L check_all salt_ssh sls sc = Ok sc' -> f ∈ files sc -> f ∈ files sc'.
Proof.
  unfold entry. intros H Hf.
  destruct (fallback_origin E L sls sc) as (Hfiles & _).
  destruct (fallback E L sls sc) as [ret sc1]. simpl in *.
  destruct (match_loop _ _ 0 _ _) as [[pool' fs']|e] eqn:Hloop; simpl in H; [|done].
  injection H as <-. simpl.
  eapply match_loop_mono; [exact Hloop|].
  rewrite Hfiles. unfold union_list.
  destruct (salt_ssh && check_all), (nonempty ret && check_all);
    rewrite ?elem_of_union; auto.
Qed.

Lemma scan_low_mono E L check_all salt_ssh ret sc sc' f :
  scan_low E L check_all salt_ssh ret sc = Ok sc' -> f ∈ files sc -> f ∈ files sc'.
Proof.
  revert sc. induction ret as [|low ret IH]; intros sc; simpl.
  - by intros [= <-].
  - destruct low as [|[sls|]].
    + by intros [= <-].
    + destruct (entry E L check_all salt_ssh sls sc) as [sc1|e] eqn:Hentry; simpl; [|done].
      intros H Hf. apply (IH sc1 H). by eapply entry_mono.
    + apply IH.
Qed.

(** X15. A call of [add_test_files_for_sls] that returns forgets no file
    of the set and leaves the suite, the environment and the test location
    of the loader as they were. *)
Theorem add_test_files_keeps E L sls_name check_all L' :
  add_test_files_for_sls E L sls_name check_all = Ok L' ->
  test_files L ⊆ test_files L' /\
  test_dict L' = test_dict L /\
  saltenv L' = saltenv L /\
  saltcheck_test_location L' = saltcheck_test_location L.
Proof.
  unfold add_test_files_for_sls. intros H.
  apply bind_Ok_inv in H as (sc & Hsc & [= <-]). simpl.
  split; [|done].
  unfold scan_sls in Hsc.
  apply bind_Ok_inv in Hsc as (pidfile & _ & H).
  apply bind_Ok_inv in H as (all_states & _ & H).
  apply bind_Ok_inv in H as (cached & _ & H).
  apply bind_Ok_inv in H as (ret & _ & H).
  intros f Hf. by apply (scan_low_mono _ _ _ _ _ _ _ _ H).
Qed.

Lemma add_test_files_keeps_witness :
  exists L',
    add_test_files_for_sls Cases.apache_server
      {| test_files := {[ Examples.web_init_tst ]}; test_dict := [];
         saltenv := "base"; saltcheck_test_location := "saltcheck-tests" |}
      "apache" false = Ok L' /\
    Examples.web_init_tst ∈ test_files L'.
Proof.
  exists {| test_files := {[ Cases.apache_init ]} ∪ {[ Examples.web_init_tst ]};
            test_dict := []; saltenv := "base";
            saltcheck_test_location := "saltcheck-tests" |}.
  assert (H : add_test_files_for_sls Cases.apache_server
                {| test_files := {[ Examples.web_init_tst ]}; test_dict := [];
                   saltenv := "base"; saltcheck_test_location := "saltcheck-tests" |}
                "apache" false =
              Ok {| test_files := {[ Cases.apache_init ]} ∪ {[ Examples.web_init_tst ]};
                    test_dict := []; saltenv := "base";
                    saltcheck_test_location := "saltcheck-tests" |})
    by (vm_compute; reflexivity).
  split; [exact H|].
  apply (proj1 (add_test_files_keeps _ _ _ _ _ H)). set_solver.
Defined.

Lemma entry_origin E L check_all salt_ssh sls sc sc' (Q : string -> Prop) :
  (forall f, f ∈ cached_copied_files sc -> Q f \/ Facts.served E L f) ->
  entry E L check_all salt_ssh sls sc = Ok sc' ->
  (forall f, f ∈ cached_copied_files sc' -> Q f \/ Facts.served E L f) /\
  (forall f, f ∈ files sc' -> f ∈ files sc \/ Q f \/ Facts.served E L f).
Proof.
  intros Hinv Hentry.
  destruct (fallback_origin E L sls sc) as (_ & Hret & Hcached).
  assert (Hpool : forall f, f ∈ cached_copied_files (snd (fallback E L sls sc)) ->
                            Q f \/ Facts.served E L f).
  { intros f Hf. destruct (Hcached f Hf) as [Hin|Hin]; [by apply Hinv|by right]. }
  split.
  - intros f Hf. apply Hpool. revert Hentry Hf. unfold entry.
    destruct (fallback E L sls sc) as [ret sc1]. simpl.
    destruct (match_loop _ _ 0 _ _) as [[pool' fs']|e] eqn:Hloop; simpl; [|done].
    intros [= <-]. simpl. apply match_loop_sound in Hloop as [Hsub _]. apply Hsub.
  - intros f Hf.
    destruct (entry_sound _ _ _ _ _ _ _ Hentry f Hf) as [Hin|[(_ & [Hin|(_ & Hin)])|(Hin & _)]].
    + by left.
    + right; right. by apply Hret.
    + right. by apply Hpool.
    + right. by apply Hpool.
Qed.

Lemma scan_low_origin E L check_all salt_ssh ret sc sc' (Q : string -> Prop) :
  (forall f, f ∈ cached_copied_files sc -> Q f \/ Facts.served E L f) ->
  scan_low E L check_all salt_ssh ret sc = Ok sc' ->
  forall f, f ∈ files sc' -> f ∈ files sc \/ Q f \/ Facts.served E L f.
Proof.
  revert sc. induction ret as [|low ret IH]; intros sc Hinv; simpl.
  - intros [= <-] f Hf. by left.
  - destruct low as [|[sls|]].
    + intros [= <-] f Hf. by left.
    + destruct (entry E L check_all salt_ssh sls sc) as [sc1|e] eqn:Hentry; simpl; [|done].
      destruct (entry_origin _ _ _ _ _ _ _ Q Hinv Hentry) as [Hinv1 Hfiles1].
      intros H f Hf. destruct (IH sc1 Hinv1 H f Hf) as [Hin|Hin]; [|by right].
      by apply Hfiles1.
    + by apply IH.
Qed.

(** X16. Where the files of a loader come from: a file that a call of
    [add_test_files_for_sls] adds to the set was given by the file server
    for some directory, or, on a salt-ssh minion, was listed in the [.copy]
    file that the call read: that of the state or, when that one cannot be
    opened, that of its parent. *)
Theorem test_files_origin E L sls_name check_all L' f :
  add_test_files_for_sls E L sls_name check_all = Ok L' ->
  f ∈ test_files L' ->
  f ∈ test_files L \/ Facts.served E L f \/ Facts.sent_over E L sls_name f.
Proof.
  unfold add_test_files_for_sls. intros H.
  apply bind_Ok_inv in H as (sc & Hsc & [= <-]). simpl.
  unfold scan_sls in Hsc.
  apply bind_Ok_inv in Hsc as (pidfile & Hpid & H).
  apply bind_Ok_inv in H as (all_states & _ & H).
  apply bind_Ok_inv in H as (cached & Hcached & H).
  apply bind_Ok_inv in H as (ret & _ & H).
  intros Hf.
  assert (Hinv : forall g, g ∈ cached ->
                  Facts.sent_over E L sls_name g \/ Facts.served E L g).
  { intros g Hg. left.
    destruct (opts_pidfile E) as [p|] eqn:Hp; [|done]. injection Hpid as <-.
    destruct (Text.contains p ssh_marker) eqn:Hssh.
    - exists p. unfold Facts.copy_file.
      change (OsPath.join (opts_cachedir E) ["files"; saltenv L; sls_name +:+ ".copy"])
        with (cache_file E L (sls_name +:+ ".copy")).
      destruct (read_json_texts E (cache_file E L (sls_name +:+ ".copy"))) as [l|] eqn:Hread.
      + injection Hcached as <-. exists l. split; [done|]. split; [done|].
        split; [by left|done].
      + unfold read_texts in Hcached.
        destruct (read_json_texts E _) as [l|] eqn:Hread' in Hcached; [|done].
        injection Hcached as <-. exists l. split; [done|]. split; [done|].
        split; [right; split; [done|exact Hread']|done].
    - injection Hcached as <-. by apply elem_of_nil in Hg. }
  pose proof (fun Hi => scan_low_origin _ _ _ _ _ _ _ (Facts.sent_over E L sls_name) Hi H f Hf)
    as Ho.
  simpl in Ho.
  destruct (Ho Hinv) as [Hin|[Hin|Hin]]; [by left|right; by right|right; by left].
Qed.

Lemma test_files_origin_witness :
  Facts.served Cases.apache_server Examples.loader Cases.apache_init.
Proof.
  destruct (test_files_origin Cases.apache_server Examples.loader "apache" false
              {| test_files := {[ Cases.apache_init ]}; test_dict := [];
                 saltenv := "base"; saltcheck_test_location := "saltcheck-tests" |}
              Cases.apache_init) as [H|[H|H]].
  - vm_compute. reflexivity.
  - set_solver.
  - simpl in H. set_solver.
  - exact H.
  - destruct H as (p & l & Hp & Hssh & _). injection Hp as <-. discriminate Hssh.
Defined.

End Files.

(** ** The loader: the matching loop, low data and a second load *)

Section Matching.

Import StateTestLoader.

Lemma remove_first_absent x l : x ∉ l -> remove_first x l = None.
Proof.
  induction l as [|y l IH]; simpl; [done|].
  intros Hx. apply not_elem_of_cons in Hx as [Hxy Hx].
  destruct (String.eqb_spec x y) as [->|_]; [done|].
  by rewrite (IH Hx).
Qed.

(** X17. A cached file whose path ends in both names looked for for a
    state, and which is listed once, ends the call with [ValueError]: the
    inner loop removes the file from the list at the first name and again at
    the second. *)
Theorem matched_twice_raises E L check_all salt_ssh sls sc file rest :
  cached_copied_files (snd (fallback E L sls sc)) = file :: rest ->
  file ∉ rest ->
  (forall n, n ∈ sls_path_names (saltcheck_test_location L) sls ->
             Text.endswith file n = true) ->
  entry E L check_all salt_ssh sls sc = Raise ValueError.
Proof.
  intros Hpool Hrest Hnames. unfold entry.
  destruct (fallback E L sls sc) as [ret sc1]. simpl in Hpool. rewrite Hpool.
  unfold sls_path_names in *.
  set (n1 := OsPath.join _ [_; "init.tst"]) in *.
  set (n2 := OsPath.join _ [_; _ +:+ ".tst"]) in *.
  assert (H1 : Text.endswith file n1 = true) by (apply Hnames; set_solver).
  assert (H2 : Text.endswith file n2 = true) by (apply Hnames; set_solver).
  cbn [List.length match_loop lookup list_lookup match_names].
  rewrite H1. cbn [remove_first]. rewrite String.eqb_refl.
  rewrite H2, (remove_first_absent _ _ Hrest). reflexivity.
Qed.

Lemma matched_twice_raises_witness :
  entry Cases.init_server Examples.loader false false "init"
    {| files := ∅; processed_states := []; cached_copied_files := [];
       cache_requests := [] |} = Raise ValueError.
Proof.
  apply (matched_twice_raises Cases.init_server Examples.loader false false "init" _
           Cases.init_tst []).
  - reflexivity.
  - apply not_elem_of_nil.
  - intros n Hn. vm_compute in Hn.
    apply elem_of_cons in Hn as [->|Hn]; [reflexivity|].
    apply elem_of_cons in Hn as [->|Hn]; [reflexivity|].
    by apply elem_of_nil in Hn.
Defined.

(** X18. The loop over the cached files goes on by position in the list
    it removes from: when the first of two files matches one of the two
    names, it is added and removed, and the second file, now in its place,
    is never looked at, whatever its name. *)
Theorem removal_skips_next n1 n2 f1 f2 fs :
  xorb (Text.endswith f1 n1) (Text.endswith f1 n2) = true ->
  match_loop 2 [n1; n2] 0 [f1; f2] fs = Ok ([f2], {[f1]} ∪ fs).
Proof.
  intros Hx. cbn [match_loop lookup list_lookup match_names].
  destruct (Text.endswith f1 n1), (Text.endswith f1 n2); try done;
    cbn [remove_first]; rewrite String.eqb_refl; reflexivity.
Qed.

Lemma removal_skips_next_witness :
  match_loop 2 (sls_path_names "saltcheck-tests" "apache") 0
    [Cases.apache_init; Cases.apache_init] ∅ =
    Ok ([Cases.apache_init], {[ Cases.apache_init ]} ∪ ∅).
Proof.
  apply (removal_skips_next "apache/saltcheck-tests/init.tst" "saltcheck-tests/apache.tst"
           Cases.apache_init Cases.apache_init ∅).
  reflexivity.
Defined.

(** X19. An item of the low data that is not a dictionary ends the scan
    without an error: the items after it are not looked at, and what the
    items before it gave is kept. *)
Theorem low_data_not_dict_ends E L check_all salt_ssh before after sc :
  scan_low E L check_all salt_ssh (before ++ LowOther :: after) sc =
  scan_low E L check_all salt_ssh before sc.
Proof.
  revert sc. induction before as [|low before IH]; intros sc; simpl; [done|].
  destruct low as [|[sls|]]; [done| |apply IH].
  destruct (entry E L check_all salt_ssh sls sc) as [sc1|e]; simpl; [apply IH|done].
Qed.

(** X20. A load reads the files of the set only: the suite the loader had
    before does not count, and a second load with no file added in between
    gives the empty suite. *)
Theorem load_again_empty E L L1 :
  load_test_suite E L = Ok L1 ->
  (forall suite,
     load_test_suite E {| test_files := test_files L; test_dict := suite;
                          saltenv := saltenv L;
                          saltcheck_test_location := saltcheck_test_location L |} = Ok L1) /\
  load_test_suite E L1 =
    Ok {| test_files := ∅; test_dict := []; saltenv := saltenv L;
          saltcheck_test_location := saltcheck_test_location L |}.
Proof.
  intros H. split; [intros suite; exact H|].
  unfold load_test_suite in *.
  apply bind_Ok_inv in H as (td & _ & [= <-]). simpl.
  by rewrite iteration_empty.
Qed.

Lemma load_again_empty_witness :
  exists L1,
    load_test_suite Examples.master Examples.two_files = Ok L1 /\
    load_test_suite Examples.master L1 =
      Ok {| test_files := ∅; test_dict := []; saltenv := "base";
            saltcheck_test_location := "saltcheck-tests" |}.
Proof.
  destruct (load_test_suite Examples.master Examples.two_files) as [L1|e] eqn:H;
    [|by vm_compute in H].
  exists L1. split; [done|].
  replace "base"%string with (saltenv Examples.two_files) by reflexivity.
  replace "saltcheck-tests"%string with (saltcheck_test_location Examples.two_files)
    by reflexivity.
  apply (load_again_empty Examples.master Examples.two_files L1 H).
Defined.

End Matching.

(** ** The report *)

Section Reports.

Import Report.

Lemma status_prefixes s :
  Shape.run_status s ->
  (Text.startswith s "Pass" = true <-> s = "Pass") /\
  (Text.startswith s "Skip" = true <-> s = "Skip") /\
  (Text.startswith s "Fail" = negb (Text.startswith s "Pass" || Text.startswith s "Skip")).
Proof.
  unfold Text.startswith. intros [->|[->|[m ->]]]; simpl; repeat split; done.
Qed.

Lemma count_test_one acc r :
  Shape.run_status (SaltCheck.status r) ->
  (passed (count_test acc r) =
     passed acc + if decide (SaltCheck.status r = "Pass") then 1 else 0)%nat /\
  (skipped (count_test acc r) =
     skipped acc + if decide (SaltCheck.status r = "Skip") then 1 else 0)%nat /\
  (passed (count_test acc r) + failed (count_test acc r) + skipped (count_test acc r) =
     S (passed acc + failed acc + skipped acc))%nat /\
  missing_tests (count_test acc r) = missing_tests acc.
Proof.
  intros Hr. unfold count_test, Text.startswith.
  destruct Hr as [H|[H|[m H]]]; rewrite H; simpl;
    repeat match goal with
           | |- context [decide ?P] =>
               destruct (decide P) as [Hd|Hd];
               [try discriminate Hd|try (exfalso; by apply Hd)]
           end;
    repeat split; lia.
Qed.

Lemma count_test_fold l : forall acc,
  Forall (fun r => Shape.run_status (SaltCheck.status r)) l ->
  (passed (foldl count_test acc l) =
     passed acc + List.length (filter (fun r => SaltCheck.status r = "Pass") l))%nat /\
  (skipped (foldl count_test acc l) =
     skipped acc + List.length (filter (fun r => SaltCheck.status r = "Skip") l))%nat /\
  (passed (foldl count_test acc l) + failed (foldl count_test acc l)
     + skipped (foldl count_test acc l) =
     passed acc + failed acc + skipped acc + List.length l)%nat /\
  missing_tests (foldl count_test acc l) = missing_tests acc.
Proof.
  induction l as [|r l IH]; intros acc Hall; simpl.
  - repeat split; lia.
  - apply Forall_cons in Hall as [Hr Hall].
    destruct (IH (count_test acc r) Hall) as (Hp & Hs & Ht & Hm).
    destruct (count_test_one acc r Hr) as (Hp' & Hs' & Ht' & Hm').
    rewrite !filter_cons.
    destruct (decide (SaltCheck.status r = "Pass"));
      destruct (decide (SaltCheck.status r = "Skip")); simpl; repeat split; lia.
Qed.

Lemma count_state_fold acc g :
  Forall (fun r => Shape.run_status (SaltCheck.status r)) (map snd (snd g)) ->
  (passed (count_state acc g) =
     passed acc
     + List.length (filter (fun r => SaltCheck.status r = "Pass") (map snd (snd g))))%nat /\
  (skipped (count_state acc g) =
     skipped acc
     + List.length (filter (fun r => SaltCheck.status r = "Skip") (map snd (snd g))))%nat /\
  (passed (count_state acc g) + failed (count_state acc g) + skipped (count_state acc g) =
     passed acc + failed acc + skipped acc + List.length (map snd (snd g)))%nat /\
  (missing_tests (count_state acc g) =
     missing_tests acc + if Facts.no_tests g then 1 else 0)%nat.
Proof.
  intros Hall. unfold count_state, Facts.no_tests.
  destruct (snd g) as [|t tests] eqn:Hg.
  - simpl. repeat split; lia.
  - destruct (count_test_fold (map snd (t :: tests)) acc Hall) as (Hp & Hs & Ht & Hm).
    repeat split; lia.
Qed.

Lemma count_groups_fold results : forall acc,
  Forall (fun r => Shape.run_status (SaltCheck.status r)) (Facts.all_tests results) ->
  (passed (foldl count_state acc results) =
     passed acc
     + List.length (filter (fun r => SaltCheck.status r = "Pass")
                           (Facts.all_tests results)))%nat /\
  (skipped (foldl count_state acc results) =
     skipped acc
     + List.length (filter (fun r => SaltCheck.status r = "Skip")
                           (Facts.all_tests results)))%nat /\
  (passed (foldl count_state acc results) + failed (foldl count_state acc results)
     + skipped (foldl count_state acc results) =
     passed acc + failed acc + skipped acc + List.length (Facts.all_tests results))%nat /\
  (missing_tests (foldl count_state acc results) =
     missing_tests acc
     + List.length (filter (fun g => Facts.no_tests g = true) results))%nat.
Proof.
  induction results as [|g results IH]; intros acc Hall; simpl.
  - repeat split; lia.
  - unfold Facts.all_tests in Hall. simpl in Hall.
    apply Forall_app in Hall as [Hg Hall].
    destruct (IH (count_state acc g) Hall) as (Hp & Hs & Ht & Hm).
    destruct (count_state_fold acc g Hg) as (Hp' & Hs' & Ht' & Hm').
    unfold Facts.all_tests in *. simpl. rewrite !filter_app, !length_app, filter_cons.
    destruct (Facts.no_tests g); simpl in *;
      try match goal with
          | |- context [decide ?P] => destruct (decide P); try done
          end; simpl; repeat split; lia.
Qed.

(** X21. The totals of the report count every test once. When each result
    has a status that [run_test] gives, the totals are the last item of the
    output, [Passed], [Failed] and [Skipped] add up to the number of tests,
    [Passed] and [Skipped] are the numbers of results with exactly these
    statuses, and [Missing Tests] is the number of states without a test. *)
Theorem report_counts results :
  Forall (fun r => Shape.run_status (SaltCheck.status r)) (Facts.all_tests results) ->
  exists t,
    last (fst (_generate_out_list results)) = Some (TestResults t) /\
    (passed t + failed t + skipped t = List.length (Facts.all_tests results))%nat /\
    passed t = List.length (filter (fun r => SaltCheck.status r = "Pass")
                                   (Facts.all_tests results)) /\
    skipped t = List.length (filter (fun r => SaltCheck.status r = "Skip")
                                    (Facts.all_tests results)) /\
    missing_tests t = List.length (filter (fun g => Facts.no_tests g = true) results).
Proof.
  intros Hall. exists (count_all results).
  split; [unfold _generate_out_list; simpl; by rewrite last_snoc|].
  destruct (count_groups_fold results zero Hall) as (Hp & Hs & Ht & Hm).
  unfold count_all. simpl in *. repeat split; lia.
Qed.

Lemma report_counts_witness :
  exists t,
    last (fst (_generate_out_list
                 [("apache", [("one", {| SaltCheck.duration := 3;
                                         SaltCheck.module_function_args := None;
                                         SaltCheck.saltcheck_assertion := None;
                                         SaltCheck.status := "Pass" |})]);
                  ("nothing", [])])) = Some (TestResults t) /\
    passed t = 1%nat /\ missing_tests t = 1%nat.
Proof.
  destruct (report_counts
              [("apache", [("one", {| SaltCheck.duration := 3;
                                      SaltCheck.module_function_args := None;
                                      SaltCheck.saltcheck_assertion := None;
                                      SaltCheck.status := "Pass" |})]);
               ("nothing", [])])
    as (t & Hlast & _ & Hp & _ & Hm).
  - constructor; [right; by left|constructor].
  - exists t. split; [exact Hlast|]. split; [exact Hp|exact Hm].
Defined.

Lemma text_compare_antisym a : forall b,
  Py.text_compare b a = CompOpp (Py.text_compare a b).
Proof.
  induction a as [|x a IH]; intros [|y b]; simpl; try done.
  rewrite (Nat.compare_antisym (nat_of_ascii x) (nat_of_ascii y)).
  destruct (nat_of_ascii x ?= nat_of_ascii y)%nat; simpl; [apply IH|done|done].
Qed.

Lemma insert_group_perm g l : insert_group g l ≡ₚ g :: l.
Proof.
  induction l as [|h l IH]; simpl; [done|].
  destruct (Py.text_compare (fst g) (fst h)); [|done|];
    rewrite IH; apply Permutation_swap.
Qed.

Lemma sort_groups_fold_perm l : forall acc,
  foldl (fun acc g => insert_group g acc) acc l ≡ₚ acc ++ l.
Proof.
  induction l as [|g l IH]; intros acc; simpl; [by rewrite app_nil_r|].
  rewrite IH, insert_group_perm. simpl. apply Permutation_middle.
Qed.

Lemma sort_groups_perm l : sort_groups l ≡ₚ l.
Proof. unfold sort_groups. by rewrite sort_groups_fold_perm. Qed.

(** Adjacent items of a list are in the order of the report. *)
Lemma insert_group_ordered g l :
  (forall i a b, l !! i = Some a -> l !! S i = Some b -> Facts.ordered a b) ->
  forall i a b, insert_group g l !! i = Some a -> insert_group g l !! S i = Some b ->
                Facts.ordered a b.
Proof.
  induction l as [|h l IH]; intros Hl i a b; simpl.
  - by destruct i.
  - destruct (Py.text_compare (fst g) (fst h)) eqn:Hc.
    + destruct i as [|i]; simpl.
      * intros [= <-]. destruct l as [|h' l]; simpl.
        -- intros [= <-]. unfold Facts.ordered.
           rewrite text_compare_antisym, Hc. done.
        -- destruct (Py.text_compare (fst g) (fst h')) eqn:Hc'.
           ++ intros [= <-]. by apply (Hl 0%nat).
           ++ intros [= <-]. unfold Facts.ordered.
              rewrite text_compare_antisym, Hc. done.
           ++ intros [= <-]. by apply (Hl 0%nat).
      * apply IH. intros j. apply (Hl (S j)).
    + destruct i as [|i]; simpl.
      * intros [= <-] [= <-]. unfold Facts.ordered. by rewrite Hc.
      * apply Hl.
    + destruct i as [|i]; simpl.
      * intros [= <-]. destruct l as [|h' l]; simpl.
        -- intros [= <-]. unfold Facts.ordered.
           rewrite text_compare_antisym, Hc. done.
        -- destruct (Py.text_compare (fst g) (fst h')) eqn:Hc'.
           ++ intros [= <-]. by apply (Hl 0%nat).
           ++ intros [= <-]. unfold Facts.ordered.
              rewrite text_compare_antisym, Hc. done.
           ++ intros [= <-]. by apply (Hl 0%nat).
      * apply IH. intros j. apply (Hl (S j)).
Qed.

Lemma sort_groups_fold_ordered l : forall acc,
  (forall i a b, acc !! i = Some a -> acc !! S i = Some b -> Facts.ordered a b) ->
  forall i a b,
    foldl (fun acc g => insert_group g acc) acc l !! i = Some a ->
    foldl (fun acc g => insert_group g acc) acc l !! S i = Some b ->
    Facts.ordered a b.
Proof.
  induction l as [|g l IH]; intros acc Hacc; simpl; [exact Hacc|].
  apply IH. by apply insert_group_ordered.
Qed.

(** X22. The output lists the states in the order of their names, each
    state of the results once with its results, and the totals after
    them. *)
Theorem report_sorted results :
  exists groups,
    fst (_generate_out_list results) =
      map (fun g => StateResults (fst g) (snd g)) groups
        ++ [TestResults (count_all results)] /\
    groups ≡ₚ results /\
    forall i a b, groups !! i = Some a -> groups !! S i = Some b -> Facts.ordered a b.
Proof.
  exists (sort_groups results). split; [done|]. split; [apply sort_groups_perm|].
  apply sort_groups_fold_ordered. intros i a b Ha. by destruct i.
Qed.

End Reports.

(** ** The run of the tests of states *)

Section Runs.

Import StateTestLoader.

Lemma oget_oset {A : Type} name k (v : A) d :
  Run.oget name (Run.oset k v d) = if String.eqb name k then Some v else Run.oget name d.
Proof.
  induction d as [|[k' v'] d IH]; simpl.
  - done.
  - destruct (String.eqb_spec k k') as [->|Hk]; simpl.
    + by destruct (String.eqb name k').
    + rewrite IH. destruct (String.eqb_spec name k') as [->|Hn]; [|done].
      destruct (String.eqb_spec k' k) as [->|_]; [done|done].
Qed.

Lemma oset_elem {A : Type} k (v : A) d x :
  x ∈ Run.oset k v d -> x = (k, v) \/ x ∈ d.
Proof.
  induction d as [|[k' v'] d IH]; simpl.
  - intros Hx. apply list_elem_of_singleton in Hx. by left.
  - destruct (String.eqb_spec k k') as [->|Hk]; intros Hx;
      apply elem_of_cons in Hx as [->|Hx].
    + by left.
    + right. apply elem_of_cons. by right.
    + right. apply elem_of_cons. by left.
    + destruct (IH Hx) as [->|Hd]; [by left|right; apply elem_of_cons; by right].
Qed.

Lemma oset_keys {A : Type} k (v : A) d x :
  x ∈ map fst (Run.oset k v d) -> x = k \/ x ∈ map fst d.
Proof.
  intros Hx. apply list_elem_of_fmap in Hx as (y & -> & Hy).
  apply oset_elem in Hy as [->|Hy]; [by left|right].
  apply list_elem_of_fmap. by exists y.
Qed.

Lemma oset_NoDup {A : Type} k (v : A) d :
  NoDup (map fst d) -> NoDup (map fst (Run.oset k v d)).
Proof.
  induction d as [|[k' v'] d IH]; simpl.
  - intros _. apply NoDup_singleton.
  - intros Hnd. apply NoDup_cons in Hnd as [Hk' Hnd].
    destruct (String.eqb_spec k k') as [->|Hk]; simpl.
    + by apply NoDup_cons.
    + apply NoDup_cons. split; [|by apply IH].
      intros Hin. apply oset_keys in Hin as [->|Hin]; done.
Qed.

Lemma oget_elem {A : Type} k (v : A) d :
  NoDup (map fst d) -> (Run.oget k d = Some v <-> (k, v) ∈ d).
Proof.
  induction d as [|[k' v'] d IH]; simpl.
  - intros _. split; [done|]. intros H. by apply elem_of_nil in H.
  - intros Hnd. apply NoDup_cons in Hnd as [Hk' Hnd].
    destruct (String.eqb_spec k k') as [->|Hk].
    + split.
      * intros [= ->]. apply elem_of_cons. by left.
      * intros H. apply elem_of_cons in H as [[= ->]|H]; [done|].
        exfalso. apply Hk'. apply list_elem_of_fmap. by exists (k', v).
    + rewrite (IH Hnd). split.
      * intros H. apply elem_of_cons. by right.
      * intros H. apply elem_of_cons in H as [[= -> ->]|H]; done.
Qed.

Lemma oget_keys {A : Type} k (d : list (string * A)) :
  Run.oget k d = None -> k ∉ map fst d.
Proof.
  induction d as [|[k' v'] d IH]; simpl.
  - intros _. apply not_elem_of_nil.
  - destruct (String.eqb_spec k k') as [->|Hk]; [done|].
    intros H. apply not_elem_of_cons. split; [done|by apply IH].
Qed.

(** The statuses of the results of a suite. *)
Lemma run_suite_statuses E tests : forall acc out,
  Forall (fun kr => Shape.run_status (SaltCheck.status (snd kr))) acc ->
  Run.run_suite E tests acc = Ok out ->
  Forall (fun kr => Shape.run_status (SaltCheck.status (snd kr))) out.
Proof.
  induction tests as [|[key value] tests IH]; intros acc out Hacc; simpl.
  - by intros [= <-].
  - intros H. apply bind_Ok_inv in H as (r & Hr & H).
    eapply IH; [|exact H].
    apply Forall_forall. intros x Hx. apply oset_elem in Hx as [->|Hx]; simpl.
    + destruct value as [| | | | |d]; simpl in Hr; try done.
      by eapply run_test_status.
    + by apply (proj1 (Forall_forall _ _) Hacc).
Qed.

Lemma run_states_statuses E LE check_all sls_list : forall stl results out,
  Forall (fun g => Forall (fun kr => Shape.run_status (SaltCheck.status (snd kr))) (snd g))
         results ->
  Run.run_states E LE check_all sls_list stl results = Ok out ->
  Forall (fun g => Forall (fun kr => Shape.run_status (SaltCheck.status (snd kr))) (snd g))
         out.
Proof.
  induction sls_list as [|n sls_list IH]; intros stl results out Hres; simpl.
  - by intros [= <-].
  - intros H. apply bind_Ok_inv in H as ([stl2 rd] & Hst & H). simpl in H.
    eapply IH; [|exact H].
    apply Forall_forall. intros x Hx. apply oset_elem in Hx as [->|Hx]; simpl.
    + unfold Run.state_tests in Hst.
      apply bind_Ok_inv in Hst as (stl1 & _ & Hst).
      apply bind_Ok_inv in Hst as (stl2' & _ & Hst).
      apply bind_Ok_inv in Hst as (rd' & Hrd & [= <- <-]).
      eapply run_suite_statuses; [apply Forall_nil_2|exact Hrd].
    + by apply (proj1 (Forall_forall _ _) Hres).
Qed.

Lemma all_tests_elem results r :
  r ∈ Facts.all_tests results <->
  exists g kr, g ∈ results /\ kr ∈ snd g /\ r = snd kr.
Proof.
  unfold Facts.all_tests. rewrite list_elem_of_In, in_concat. split.
  - intros (l & Hl & Hr). apply in_map_iff in Hl as (g & <- & Hg).
    apply list_elem_of_In, list_elem_of_fmap in Hr as (kr & -> & Hkr).
    exists g, kr. split; [by apply list_elem_of_In|done].
  - intros (g & kr & Hg & Hkr & ->). exists (map snd (snd g)). split.
    + apply in_map_iff. exists g. split; [done|by apply list_elem_of_In].
    + apply list_elem_of_In, list_elem_of_fmap. by exists kr.
Qed.

Lemma filter_length_all {A : Type} (P : A -> Prop) `{!forall x, Decision (P x)} (l : list A) :
  List.length (filter P l) = List.length l <-> Forall P l.
Proof.
  induction l as [|x l IH]; simpl.
  - split; [intros _; apply Forall_nil_2|done].
  - rewrite filter_cons. pose proof (length_filter P l) as Hle.
    destruct (decide (P x)) as [Hx|Hx]; simpl.
    + split.
      * intros [= Hlen]. apply Forall_cons. split; [done|by apply IH].
      * intros Hall. apply Forall_cons in Hall as [_ Hall]. f_equal. by apply IH.
    + split; [intros Hlen; lia|]. intros Hall. by apply Forall_cons in Hall as [Hall _].
Qed.

Lemma filter_length_none {A : Type} (P : A -> Prop) `{!forall x, Decision (P x)} (l : list A) :
  List.length (filter P l) = 0%nat <-> Forall (fun x => ~ P x) l.
Proof.
  induction l as [|x l IH]; simpl.
  - split; [intros _; apply Forall_nil_2|done].
  - rewrite filter_cons. destruct (decide (P x)) as [Hx|Hx]; simpl.
    + split; [done|]. intros Hall. by apply Forall_cons in Hall as [Hall _].
    + rewrite IH. split; [intros Hall; by apply Forall_cons|].
      intros Hall. by apply Forall_cons in Hall as [_ Hall].
Qed.

Lemma report_items results state tests :
  StateResults state tests ∈ fst (_generate_out_list results) <-> (state, tests) ∈ results.
Proof.
  unfold _generate_out_list. simpl.
  rewrite elem_of_app, list_elem_of_fmap. split.
  - intros [([s t] & [= -> ->] & Hg)|Hx].
    + by rewrite <- (sort_groups_perm results).
    + by apply list_elem_of_singleton in Hx.
  - intros Hg. left. exists (state, tests). split; [done|].
    by rewrite (sort_groups_perm results).
Qed.

(** X23. What the return code of a run says: it is 0 or 1, and it is 0
    exactly when every state of the report has a test and every result has
    the status [Pass]. *)
Theorem retcode_meaning E LE location sls_list check_all out rc :
  run_state_tests E LE location sls_list check_all = Ok (out, rc) ->
  (rc = 0 \/ rc = 1) /\
  (rc = 0 <->
   forall state tests,
     StateResults state tests ∈ out ->
     tests <> [] /\ forall kr, kr ∈ tests -> SaltCheck.status (snd kr) = "Pass").
Proof.
  unfold run_state_tests. intros H.
  apply bind_Ok_inv in H as (results & Hrun & [= <- <-]).
  split; [unfold Report.retcode_of; destruct (_ =? _)%nat; auto|].
  apply run_states_statuses in Hrun; [|apply Forall_nil_2].
  assert (Hall : Forall (fun r => Shape.run_status (SaltCheck.status r))
                        (Facts.all_tests results)).
  { apply Forall_forall. intros r Hr.
    apply all_tests_elem in Hr as (g & kr & Hg & Hkr & ->).
    apply (proj1 (Forall_forall _ _) (proj1 (Forall_forall _ _) Hrun g Hg) kr Hkr). }
  destruct (count_groups_fold results Report.zero Hall) as (Hp & Hs & Ht & Hm).
  fold (Report.count_all results) in Hp, Hs, Ht, Hm. simpl in Hp, Hs, Ht, Hm.
  pose proof (report_items results) as Hout.
  unfold _generate_out_list in Hout. simpl in Hout.
  unfold Report.retcode_of.
  destruct (_ =? _)%nat eqn:Hz.
  - apply Nat.eqb_eq in Hz. split; [|done]. intros _ state tests Hin.
    apply Hout in Hin.
    assert (Hpass : Forall (fun r => SaltCheck.status r = "Pass") (Facts.all_tests results)).
    { apply (filter_length_all (fun r => SaltCheck.status r = "Pass")). lia. }
    assert (Hnone : Forall (fun g => ~ Facts.no_tests g = true) results).
    { apply (filter_length_none (fun g => Facts.no_tests g = true)). lia. }
    split.
    + intros ->. by apply (proj1 (Forall_forall _ _) Hnone _ Hin).
    + intros kr Hkr. apply (proj1 (Forall_forall _ _) Hpass).
      apply all_tests_elem. by exists (state, tests), kr.
  - apply Nat.eqb_neq in Hz. split; [done|]. intros Hgood. exfalso. apply Hz.
    assert (Hpass : Forall (fun r => SaltCheck.status r = "Pass") (Facts.all_tests results)).
    { apply Forall_forall. intros r Hr.
      apply all_tests_elem in Hr as ([state tests] & kr & Hg & Hkr & ->).
      apply Hout in Hg. by apply (Hgood state tests Hg). }
    assert (Hnone : Forall (fun g => ~ Facts.no_tests g = true) results).
    { apply Forall_forall. intros [state tests] Hg Hno.
      apply Hout in Hg. destruct (Hgood state tests Hg) as [Hne _].
      unfold Facts.no_tests in Hno. simpl in Hno. by destruct tests. }
    apply (filter_length_all (fun r => SaltCheck.status r = "Pass")) in Hpass.
    apply (filter_length_none (fun g => Facts.no_tests g = true)) in Hnone. lia.
Qed.

Lemma retcode_meaning_witness :
  exists out rc,
    run_state_tests Examples.minion Cases.apache_server "saltcheck-tests"
      ["apache"; "apache.config"; "nothing"] false = Ok (out, rc) /\
    (rc = 0 \/ rc = 1).
Proof.
  destruct (run_state_tests Examples.minion Cases.apache_server "saltcheck-tests"
              ["apache"; "apache.config"; "nothing"] false) as [[out rc]|e] eqn:H;
    [|by vm_compute in H].
  exists out, rc. split; [reflexivity|].
  apply (proj1 (retcode_meaning _ _ _ _ _ out rc H)).
Defined.

(** The scan reads the file set, the environment and the test location of
    the loader, not its suite. *)
Lemma scan_low_suite E check_all salt_ssh ret fs td1 td2 env location : forall sc,
  scan_low E {| test_files := fs; test_dict := td1; saltenv := env;
                saltcheck_test_location := location |} check_all salt_ssh ret sc =
  scan_low E {| test_files := fs; test_dict := td2; saltenv := env;
                saltcheck_test_location := location |} check_all salt_ssh ret sc.
Proof.
  induction ret as [|low ret IH]; intros sc; simpl; [done|].
  destruct low as [|[sls|]]; [done| |apply IH].
  change (entry E {| test_files := fs; test_dict := td1; saltenv := env;
                     saltcheck_test_location := location |} check_all salt_ssh sls sc)
    with (entry E {| test_files := fs; test_dict := td2; saltenv := env;
                     saltcheck_test_location := location |} check_all salt_ssh sls sc).
  destruct (entry _ _ _ _ _ _); simpl; [apply IH|done].
Qed.

Lemma scan_sls_suite E check_all fs td1 td2 env location sls_name :
  scan_sls E {| test_files := fs; test_dict := td1; saltenv := env;
                saltcheck_test_location := location |} sls_name check_all =
  scan_sls E {| test_files := fs; test_dict := td2; saltenv := env;
                saltcheck_test_location := location |} sls_name check_all.
Proof.
  unfold scan_sls.
  apply bind_ext. intros pidfile.
  apply bind_ext. intros all_states.
  apply bind_ext. intros cached.
  apply bind_ext. intros ret.
  apply scan_low_suite.
Qed.

Lemma state_tests_suite E LE check_all fs td1 td2 env location state_name :
  Run.state_tests E LE check_all
    {| test_files := fs; test_dict := td1; saltenv := env;
       saltcheck_test_location := location |} state_name =
  Run.state_tests E LE check_all
    {| test_files := fs; test_dict := td2; saltenv := env;
       saltcheck_test_location := location |} state_name.
Proof.
  unfold Run.state_tests, add_test_files_for_sls.
  rewrite (scan_sls_suite LE check_all fs td1 td2 env location state_name).
  destruct (scan_sls _ _ _ _) as [sc|e]; cbn; [reflexivity|done].
Qed.

Lemma state_tests_loader E LE check_all stl state_name sr :
  Run.state_tests E LE check_all stl state_name = Ok sr ->
  test_files (fst sr) = ∅ /\ saltenv (fst sr) = saltenv stl /\
  saltcheck_test_location (fst sr) = saltcheck_test_location stl.
Proof.
  unfold Run.state_tests. intros H.
  apply bind_Ok_inv in H as (stl1 & H1 & H).
  apply bind_Ok_inv in H as (stl2 & H2 & H).
  apply bind_Ok_inv in H as (rd & _ & [= <-]). simpl.
  unfold add_test_files_for_sls in H1.
  apply bind_Ok_inv in H1 as (sc & _ & [= <-]).
  unfold load_test_suite in H2.
  apply bind_Ok_inv in H2 as (td & _ & [= <-]). done.
Qed.

Lemma run_states_groups E LE check_all location sls_list : forall stl results out,
  test_files stl = ∅ -> saltenv stl = "base" ->
  saltcheck_test_location stl = location ->
  Run.run_states E LE check_all sls_list stl results = Ok out ->
  (NoDup (map fst results) -> NoDup (map fst out)) /\
  forall state_name,
    if decide (state_name ∈ sls_list)
    then exists sr, Run.state_tests E LE check_all (init location) state_name = Ok sr /\
                    Run.oget state_name out = Some (snd sr)
    else Run.oget state_name out = Run.oget state_name results.
Proof.
  induction sls_list as [|n sls_list IH]; intros stl results out Hf He Hl; simpl.
  - intros [= <-]. split; [done|]. intros state_name.
    destruct (decide (state_name ∈ [])) as [Hin|_]; [by apply elem_of_nil in Hin|done].
  - intros H. apply bind_Ok_inv in H as (sr & Hst & H).
    destruct (state_tests_loader _ _ _ _ _ _ Hst) as (Hf1 & He1 & Hl1).
    rewrite He in He1. rewrite Hl in Hl1.
    destruct (IH _ _ _ Hf1 He1 Hl1 H) as [Hnd Hgroups].
    split; [intros Hres; by apply Hnd, oset_NoDup|].
    assert (Hinit : Run.state_tests E LE check_all (init location) n = Ok sr).
    { rewrite <- Hst. destruct stl as [fs td env loc]. simpl in *. subst.
      apply state_tests_suite. }
    intros state_name. specialize (Hgroups state_name).
    destruct (decide (state_name ∈ sls_list)) as [Hin|Hin].
    + destruct (decide (state_name ∈ n :: sls_list)) as [_|Hno]; [done|].
      exfalso. apply Hno. apply elem_of_cons. by right.
    + rewrite oget_oset in Hgroups.
      destruct (decide (state_name ∈ n :: sls_list)) as [Hin'|Hno].
      * apply elem_of_cons in Hin' as [->|Hin']; [|done].
        rewrite String.eqb_refl in Hgroups. by exists sr.
      * destruct (String.eqb_spec state_name n) as [->|_]; [|done].
        exfalso. apply Hno. apply elem_of_cons. by left.
Qed.

(** X24. The states of a run are tested one by one and independently: the
    report holds one item for each state asked for, and none for any other,
    with the results that the state gives when it is tested alone with a new
    loader. No file and no test of a state reaches the next one. *)
Theorem states_independent E LE location sls_list check_all out rc :
  run_state_tests E LE location sls_list check_all = Ok (out, rc) ->
  (forall state_name, state_name ∈ sls_list ->
     exists sr,
       Run.state_tests E LE check_all (StateTestLoader.init location) state_name = Ok sr /\
       StateResults state_name (snd sr) ∈ out) /\
  (forall state_name tests, StateResults state_name tests ∈ out ->
     state_name ∈ sls_list /\
     exists sr,
       Run.state_tests E LE check_all (StateTestLoader.init location) state_name = Ok sr /\
       tests = snd sr).
Proof.
  unfold run_state_tests. intros H.
  apply bind_Ok_inv in H as (results & Hrun & [= <- <-]).
  destruct (run_states_groups E LE check_all location sls_list (init location) []
              results eq_refl eq_refl eq_refl Hrun) as [Hnd Hgroups].
  specialize (Hnd (NoDup_nil_2 : NoDup (map fst []))).
  pose proof (report_items results) as Hout.
  unfold _generate_out_list in Hout. simpl in Hout.
  split.
  - intros state_name Hin. specialize (Hgroups state_name).
    destruct (decide (state_name ∈ sls_list)); [|done].
    destruct Hgroups as (sr & Hsr & Hget). exists sr. split; [done|].
    apply Hout. by apply oget_elem.
  - intros state_name tests Hin. apply Hout in Hin.
    apply (oget_elem _ _ _ Hnd) in Hin. specialize (Hgroups state_name).
    destruct (decide (state_name ∈ sls_list)) as [Hs|Hs].
    + split; [done|]. destruct Hgroups as (sr & Hsr & Hget). exists sr.
      split; [done|]. congruence.
    + simpl in Hgroups. congruence.
Qed.

Lemma states_independent_witness :
  exists sr,
    Run.state_tests Examples.minion Cases.apache_server false
      (StateTestLoader.init "saltcheck-tests") "apache.config" = Ok sr /\
    map fst (snd sr) = ["package_latest"].
Proof.
  destruct (proj1 (states_independent Examples.minion Cases.apache_server "saltcheck-tests"
                     ["apache"; "apache.config"; "nothing"] false _ _
                     ltac:(vm_compute; reflexivity)) "apache.config")
    as (sr & Hsr & _).
  - set_solver.
  - exists sr. split; [exact Hsr|].
    vm_compute in Hsr. injection Hsr as <-. reflexivity.
Defined.

(** ** The entry of the module *)

Lemma run_test_valid E t r :
  SaltCheck.run_test E t = Ok r -> SaltCheck.__is_valid_test E t = Ok true.
Proof.
  unfold SaltCheck.run_test.
  by destruct (SaltCheck.__is_valid_test E t) as [[|]|e].
Qed.

(** X25. What the entry [run_test] of the module returns: the text
    [Test argument must be a dictionary] for what is not a dictionary and for
    the empty dictionary, and otherwise the result, with a status of
    [run_test], of a definition that the validator accepts. Nothing is
    returned for a definition with items that the validator rejects. *)
Theorem entry_outcomes E test out :
  run_test E test = Ok out ->
  (out = inr "Test argument must be a dictionary" /\
   forall d, test = VDict d -> d = []) \/
  (exists d r,
     test = VDict d /\ d <> [] /\ out = inl r /\
     SaltCheck.__is_valid_test E d = Ok true /\
     Shape.run_status (SaltCheck.status r)).
Proof.
  unfold run_test.
  destruct test as [| | | | |d]; try (intros [= <-]; left; split; [done|done]).
  destruct d as [|kv d]; simpl.
  - intros [= <-]. left. split; [done|]. by intros d [= <-].
  - destruct (SaltCheck.run_test E (kv :: d)) as [r|e] eqn:Hr; simpl; [|done].
    intros [= <-]. right. exists (kv :: d), r.
    split; [done|]. split; [done|]. split; [done|].
    split; [by eapply run_test_valid|by eapply run_test_status].
Qed.

Lemma entry_outcomes_witness :
  exists d r,
    VDict Examples.test_apache2_latest = VDict d /\ d <> [] /\
    SaltCheck.__is_valid_test Examples.minion d = Ok true /\
    Shape.run_status (SaltCheck.status r).
Proof.
  destruct (run_test Examples.minion (VDict Examples.test_apache2_latest)) as [out|e] eqn:H;
    [|by vm_compute in H].
  destruct (entry_outcomes Examples.minion _ out H) as [[_ Hd]|(d & r & Hd & Hne & _ & Hv & Hs)].
  - by specialize (Hd _ eq_refl).
  - by exists d, r.
Defined.

End Runs.

(** ** The loader: the order of the requests and the selection *)

Section Requests.

Import StateTestLoader.









End Requests.
